(** * Conversational memory of the tender-document backend

    A shallow embedding of [backend/app/memory] (short-term buffer,
    long-term store, semantic memory, memory manager), of the query
    reformulator and of the memory-manager cache and the prompt of
    [backend/app/chat_assistant/service.py], followed by the properties
    of the specification and further properties of the code stated over
    it. *)

From Stdlib Require Import ZArith List String Ascii Bool Lia.
From Stdlib Require Import Sorting.Permutation Sorting.Sorted Sorting.SetoidList.
From Stdlib Require Import Numbers.DecimalString.
From Stdlib Require Import Relations.Relation_Definitions Classes.RelationClasses.
Import ListNotations.

Local Open Scope string_scope.
Local Open Scope list_scope.
Local Open Scope Z_scope.

(** String concatenation, Python's [+] and f-strings. *)
Infix "+++" := String.append (right associativity, at level 60).

Set Implicit Arguments.

(* ================================================================== *)
(** * Python values and control flow *)
(* ================================================================== *)

Module Py.

(** Exceptions that the modelled code raises itself or receives from a
    collaborator. *)
Inductive exception : Type :=
| ValueError (msg : string)
| ZeroDivisionError
| IntegrityError (msg : string)        (* database constraint violated *)
| InvalidRequestError (msg : string)   (* ORM object no longer persistent *)
| DataError (msg : string)             (* database rejected a value *)
| ExternalError (msg : string)         (* LLM, embedding or file failure *)
| StopIteration.

Inductive exc (A : Type) : Type :=
| Ok (a : A)
| Raise (e : exception).
Arguments Ok {A} a.
Arguments Raise {A} e.

(** A method of an object whose state is [S]: it returns or raises, and
    the mutations done before a raise stay. *)
Definition M (S A : Type) : Type := S -> exc A * S.

Definition ret {S A} (a : A) : M S A := fun s => (Ok a, s).
Definition raise {S A} (e : exception) : M S A := fun s => (Raise e, s).
Definition bind {S A B} (m : M S A) (k : A -> M S B) : M S B :=
  fun s => match m s with
           | (Ok a, s') => k a s'
           | (Raise e, s') => (Raise e, s')
           end.
Definition get {S} : M S S := fun s => (Ok s, s).
Definition gets {S A} (f : S -> A) : M S A := fun s => (Ok (f s), s).
Definition put {S} (s : S) : M S unit := fun _ => (Ok tt, s).
Definition modify {S} (f : S -> S) : M S unit := fun s => (Ok tt, f s).

(** [try: body except Exception: handler]. *)
Definition try_except {S A} (body : M S A) (handler : exception -> M S A)
  : M S A :=
  fun s => match body s with
           | (Ok a, s') => (Ok a, s')
           | (Raise e, s') => handler e s'
           end.

(** The same for code that touches no object state. *)
Definition catch {A} (body : exc A) (handler : exception -> exc A) : exc A :=
  match body with
  | Ok a => Ok a
  | Raise e => handler e
  end.

Definition and_then {A B} (r : exc A) (k : A -> exc B) : exc B :=
  match r with
  | Ok a => k a
  | Raise e => Raise e
  end.

(** A result that is not a state change (a collaborator's answer). *)
Definition lift {S A} (r : exc A) : M S A := fun s => (r, s).

(** Run a method of a component object stored in a field of [S]. *)
Definition zoom {S T A} (proj : S -> T) (upd : T -> S -> S) (m : M T A)
  : M S A :=
  fun s => let (r, t') := m (proj s) in (r, upd t' s).

(** [for x in xs: body x]. *)
Fixpoint for_each {S A} (xs : list A) (body : A -> M S unit) : M S unit :=
  match xs with
  | [] => ret tt
  | x :: xs' => bind (body x) (fun _ => for_each xs' body)
  end.

(** ** Truthiness *)

Definition truthy_str (s : string) : bool :=
  match s with EmptyString => false | _ => true end.

Definition truthy_opt_str (s : option string) : bool :=
  match s with Some s' => truthy_str s' | None => false end.

Definition truthy_int (n : Z) : bool := negb (n =? 0)%Z.

Definition truthy_opt_int (n : option Z) : bool :=
  match n with Some n' => truthy_int n' | None => false end.

Definition truthy_list {A} (l : list A) : bool :=
  match l with [] => false | _ => true end.

(** [x or default] on an optional integer. *)
Definition or_int (x : option Z) (default : Z) : Z :=
  match x with
  | Some n => if truthy_int n then n else default
  | None => default
  end.

Definition len {A} (l : list A) : Z := Z.of_nat (List.length l).

(** ** Slices *)

(** [l[start:]]: a negative [start] counts from the end and is clamped at
    the beginning of the list. *)
Definition slice_from {A} (start : Z) (l : list A) : list A :=
  if start <? 0
  then skipn (Z.to_nat (len l + start)) l
  else skipn (Z.to_nat start) l.

(** ** Integer arithmetic *)

(** [a % b]: the sign of the result follows the divisor, as [Z.modulo]. *)
Definition mod_ (a b : Z) : exc Z :=
  if b =? 0 then Raise ZeroDivisionError else Ok (a mod b).

(** ** Strings.  A character of a [string] stands for one code point
    below 256. *)

Definition nl : string := String (ascii_of_nat 10) EmptyString.

(** [str.isspace] on one character: TAB..CR, FS..US, space, NEL, NBSP. *)
Definition isspace (c : ascii) : bool :=
  let n := nat_of_ascii c in
  ((9 <=? n) && (n <=? 13) || (28 <=? n) && (n <=? 32)
   || (n =? 133) || (n =? 160))%nat.

Fixpoint lstrip (s : string) : string :=
  match s with
  | EmptyString => EmptyString
  | String c s' => if isspace c then lstrip s' else s
  end.

(** [rstrip] keeps a character when it is not a space or when something
    is kept after it. *)
Fixpoint rstrip (s : string) : string :=
  match s with
  | EmptyString => EmptyString
  | String c s' =>
      match rstrip s' with
      | EmptyString => if isspace c then EmptyString else String c EmptyString
      | r => String c r
      end
  end.

Definition strip (s : string) : string := rstrip (lstrip s).

Definition str_len (s : string) : Z := Z.of_nat (String.length s).

(** [sep.join(parts)]. *)
Fixpoint join (sep : string) (parts : list string) : string :=
  match parts with
  | [] => EmptyString
  | [p] => p
  | p :: rest => p +++ sep +++ join sep rest
  end.

(** [s.split()]: the maximal runs of characters that are not spaces. *)
Fixpoint split_ws (cur : string) (s : string) : list string :=
  match s with
  | EmptyString => if truthy_str cur then [cur] else []
  | String c s' =>
      if isspace c
      then (if truthy_str cur then [cur] else []) ++ split_ws EmptyString s'
      else split_ws (cur +++ String c EmptyString) s'
  end.

Definition split (s : string) : list string := split_ws EmptyString s.

(** [sorted(l)] on integers. *)
Fixpoint insort (x : Z) (l : list Z) : list Z :=
  match l with
  | [] => [x]
  | y :: l' => if x <? y then x :: l else y :: insort x l'
  end.

Definition sorted (l : list Z) : list Z := fold_right insort [] l.

(** [str(n)] for an integer. *)
Definition str_int (n : Z) : string := NilZero.string_of_int (Z.to_int n).

(** [str(t)] for a tuple of integers: [()], [(1,)], [(1, 2)]. *)
Definition str_tuple (t : list Z) : string :=
  match t with
  | [x] => "(" +++ str_int x +++ ",)"
  | _ => "(" +++ join ", " (map str_int t) +++ ")"
  end.

End Py.

Import Py.

Declare Scope py_scope.
Delimit Scope py_scope with py.
Notation "x <- c ;; k" := (bind c (fun x => k))
  (at level 100, c at next level, right associativity) : py_scope.
Notation "c ;;; k" := (bind c (fun _ => k))
  (at level 100, right associativity) : py_scope.
Local Open Scope py_scope.

(* ================================================================== *)
(** * Settings (backend/app/config.py, memory part) *)
(* ================================================================== *)

Record Settings : Type := {
  memory_max_tokens : Z;
  memory_buffer_messages : Z;
  memory_summary_trigger : Z;
  semantic_memory_top_k : Z;
  settings_llm_model : string;
  vector_storage_path : string
}.

(** The defaults of the class [Settings]. *)
Definition default_settings : Settings := {|
  memory_max_tokens := 2000;
  memory_buffer_messages := 10;
  memory_summary_trigger := 15;
  semantic_memory_top_k := 5;
  settings_llm_model := "google/gemini-flash-1.5";
  vector_storage_path := "storage/vectors"
|}.

(** Messages exchanged with the LLM (langchain_core.messages). *)
Inductive BaseMessage : Type :=
| HumanMessage (content : string)
| AIMessage (content : string)
| SystemMessage (content : string).

(** A chat model: [llm.invoke(messages).content], or the exception of the
    call. *)
Definition ChatModel : Type := list BaseMessage -> exc string.

(* ================================================================== *)
(** * Short-term memory (backend/app/memory/short_term.py) *)
(* ================================================================== *)

Module ShortTerm.

Record ShortTermMemory : Type := {
  max_tokens_before_summary : Z;
  messages_to_keep : Z;
  llm_model : string;
  _messages : list BaseMessage
}.

Definition set_messages (self : ShortTermMemory) (ms : list BaseMessage)
  : ShortTermMemory :=
  {| max_tokens_before_summary := max_tokens_before_summary self;
     messages_to_keep := messages_to_keep self;
     llm_model := llm_model self;
     _messages := ms |}.

(** A message dictionary with the keys [role] and [content]. *)
Record MsgDict : Type := { role : string; content : string }.

Definition invalid_role (r : string) : exception :=
  ValueError ("Invalid role: " +++ r +++ ". Must be 'user' or 'assistant'").

Section WithCollaborators.

Variable settings : Settings.
(** [self.llm.invoke] *)
Variable llm : ChatModel.
(** [self.tokenizer.encode]: the token ids, or the exception that the
    tokenizer raises (on a text that contains a special token). *)
Variable tokenizer_encode : string -> exc (list Z).

Definition __init__ (max_tokens : option Z) (keep : option Z)
           (model : option string) : ShortTermMemory :=
  {| max_tokens_before_summary :=
       or_int max_tokens (memory_max_tokens settings);
     messages_to_keep := or_int keep (memory_buffer_messages settings);
     llm_model := match model with
                  | Some m => if truthy_str m then m
                              else settings_llm_model settings
                  | None => settings_llm_model settings
                  end;
     _messages := [] |}.

(** The [if role == "user" ... elif ... else raise] chain shared by
    [add_message] and [load_messages_batch]. *)
Definition append_by_role (r c : string) : M ShortTermMemory unit :=
  if String.eqb r "user" then
    modify (fun self => set_messages self (_messages self ++ [HumanMessage c]))
  else if String.eqb r "assistant" then
    modify (fun self => set_messages self (_messages self ++ [AIMessage c]))
  else raise (invalid_role r).

Definition add_message (r c : string) : M ShortTermMemory unit :=
  append_by_role r c ;;;
  self <- get ;;
  if len (_messages self) >? messages_to_keep self * 2
  then put (set_messages self
              (slice_from (- messages_to_keep self) (_messages self)))
  else ret tt.

Definition format_message (msg : BaseMessage) : list MsgDict :=
  match msg with
  | HumanMessage c => [ {| role := "user"; content := c |} ]
  | AIMessage c => [ {| role := "assistant"; content := c |} ]
  | SystemMessage _ => []
  end.

Definition get_recent_messages (limit : option Z)
  : M ShortTermMemory (list MsgDict) :=
  self <- get ;;
  let messages := _messages self in
  let messages :=
    match limit with
    | Some n => if truthy_int n then slice_from (- n) messages else messages
    | None => messages
    end in
  ret (flat_map format_message messages).

Definition get_buffer_string : M ShortTermMemory string :=
  messages <- get_recent_messages None ;;
  let buffer_lines :=
    map (fun msg =>
           (if String.eqb (role msg) "user" then "Human:" else "AI:")
             +++ " " +++ content msg) messages in
  ret (join nl buffer_lines).

Definition count_tokens (text : string) : exc Z :=
  match tokenizer_encode text with
  | Ok tokens => Ok (len tokens)
  | Raise e => Raise e
  end.

Definition summarizer_prompt : string :=
  "You are a conversation summarizer. Create a concise summary of the conversation below.

Focus on:
- Main topics discussed
- Key questions asked
- Important information provided
- Any decisions or conclusions

Keep the summary brief (2-3 sentences) but informative.".

Definition get_conversation_summary : M ShortTermMemory string :=
  self <- get ;;
  if len (_messages self) <? 4 then ret EmptyString else
  conversation_text <- get_buffer_string ;;
  token_count <- lift (count_tokens conversation_text) ;;
  if token_count <? max_tokens_before_summary self then ret EmptyString else
  try_except
    (let messages :=
       [ SystemMessage summarizer_prompt;
         HumanMessage ("Summarize this conversation:" +++ nl +++ nl
                         +++ conversation_text) ] in
     response <- lift (llm messages) ;;
     ret (strip response))
    (fun _ => ret EmptyString).

Definition clear : M ShortTermMemory unit :=
  modify (fun self => set_messages self []).

Definition load_from_messages (messages : list MsgDict)
  : M ShortTermMemory unit :=
  clear ;;;
  for_each messages (fun msg => add_message (role msg) (content msg)).

Definition load_messages_batch (messages : list MsgDict)
  : M ShortTermMemory unit :=
  for_each messages (fun msg => append_by_role (role msg) (content msg)).

Record MemoryStats : Type := {
  stats_total_messages : Z;
  buffer_tokens : Z;
  max_token_limit : Z;
  exceeds_token_limit : bool
}.

Definition get_memory_stats : M ShortTermMemory MemoryStats :=
  buffer_string <- get_buffer_string ;;
  tokens <- lift (count_tokens buffer_string) ;;
  self <- get ;;
  ret {| stats_total_messages := len (_messages self);
         buffer_tokens := tokens;
         max_token_limit := max_tokens_before_summary self;
         exceeds_token_limit := tokens >=? max_tokens_before_summary self |}.

End WithCollaborators.

End ShortTerm.

(* ================================================================== *)
(** * Tables and schemas (backend/app/memory/models.py, schemas.py) *)
(* ================================================================== *)

(** A JSON object, as far as the memory code looks into it. *)
Definition dict : Type := list (string * string).

(** A row of [chat_sessions]. *)
Module ChatSession.
Record t : Type := {
  id : Z;
  session_id : string;
  pdf_ids : list Z;
  user_id : option string;
  created_at : Z;
  last_activity : Z;
  summary : option string;
  total_messages : Z;
  session_metadata : option dict
}.
End ChatSession.

(** A row of [chat_messages]. *)
Module ChatMessage.
Record t : Type := {
  id : Z;
  session_id : string;
  role : string;
  content : string;
  timestamp : Z;
  sources : option (list dict);
  token_count : option Z
}.
End ChatMessage.

Module ChatMessageCreate.
Record t : Type := {
  session_id : string;
  role : string;
  content : string;
  sources : option (list dict);
  token_count : option Z
}.
End ChatMessageCreate.

Module ChatSessionCreate.
Record t : Type := {
  session_id : string;
  pdf_ids : list Z;
  user_id : option string
}.
End ChatSessionCreate.

Module ChatSessionUpdate.
Record t : Type := {
  summary : option string;
  total_messages : option Z;
  session_metadata : option dict
}.
End ChatSessionUpdate.

(* ================================================================== *)
(** * The database session *)
(* ================================================================== *)

(** The two tables.  Rows are kept in insertion order. *)
Record Store : Type := {
  chat_sessions : list ChatSession.t;
  chat_messages : list ChatMessage.t
}.

(** A SQLAlchemy session over the database: [committed] is what the
    database holds, [pending] is the open unit of work that queries of the
    same session see, and the two sequences give the primary keys.  An ORM
    object is referred to by its primary key; its attributes are those of
    its row in [pending]. *)
Record Db : Type := {
  committed : Store;
  pending : Store;
  session_seq : Z;
  message_seq : Z
}.

Definition empty_store : Store := {| chat_sessions := []; chat_messages := [] |}.

Definition empty_db : Db :=
  {| committed := empty_store; pending := empty_store;
     session_seq := 1; message_seq := 1 |}.

Module Sql.

Definition with_pending (db : Db) (st : Store) : Db :=
  {| committed := committed db; pending := st;
     session_seq := session_seq db; message_seq := message_seq db |}.

(** A query as [db.query(...)] and the calls of [.filter], [.order_by],
    [.offset] and [.limit] on it have built it; nothing is read before
    [.all()]. *)
Record Query (A : Type) : Type := {
  where_ : A -> bool;
  order_key : A -> Z;
  descending : bool;
  offset_ : option Z;
  limit_ : option Z
}.

Definition set_where {A} (f : A -> bool) (q : Query A) : Query A :=
  {| where_ := fun row => where_ q row && f row; order_key := order_key q;
     descending := descending q; offset_ := offset_ q; limit_ := limit_ q |}.
Definition set_offset {A} (n : Z) (q : Query A) : Query A :=
  {| where_ := where_ q; order_key := order_key q;
     descending := descending q; offset_ := Some n; limit_ := limit_ q |}.
Definition set_limit {A} (n : Z) (q : Query A) : Query A :=
  {| where_ := where_ q; order_key := order_key q;
     descending := descending q; offset_ := offset_ q; limit_ := Some n |}.

(** [ORDER BY] leaves the order of rows with equal keys to the database,
    which may place them differently from one statement to the next and
    from one state of the tables to the next.  An engine is that choice:
    for a statement and the tables it gives every row, named by its
    primary key, a rank, and rows with equal keys come by ascending rank
    (rows that it ranks equal too, in table order). *)
Definition Engine : Type := forall A : Type, Query A -> Store -> Z -> Z.

(** The engine that leaves rows with equal keys in table order. *)
Definition table_order : Engine := fun _ _ _ _ => 0.

Definition precedes {A} (key tie : A -> Z) (x y : A) : bool :=
  (key x <? key y) || ((key x =? key y) && (tie x <=? tie y)).

Fixpoint insert_asc {A} (key tie : A -> Z) (x : A) (l : list A) : list A :=
  match l with
  | [] => [x]
  | y :: l' => if precedes key tie x y then x :: l
               else y :: insert_asc key tie x l'
  end.

(** [ORDER BY key]: ascending, rows with equal keys by rank [tie]. *)
Definition order_by {A} (key tie : A -> Z) (l : list A) : list A :=
  fold_right (insert_asc key tie) [] l.

(** [ORDER BY key DESC]. *)
Definition order_by_desc {A} (key tie : A -> Z) (l : list A) : list A :=
  order_by (fun row => - key row) tie l.

(** [OFFSET n] and [LIMIT n]; the database rejects a negative count. *)
Definition offset {A} (n : Z) (rows : list A) : exc (list A) :=
  if n <? 0 then Raise (DataError "OFFSET must not be negative")
  else Ok (skipn (Z.to_nat n) rows).

Definition limit {A} (n : Z) (rows : list A) : exc (list A) :=
  if n <? 0 then Raise (DataError "LIMIT must not be negative")
  else Ok (firstn (Z.to_nat n) rows).

(** [query.all()] on a table whose rows have the primary key [pk]: the
    rows that pass the filter, in the order asked for, and of these the
    window that [OFFSET] and [LIMIT] cut out. *)
Definition all {A} (engine : Engine) (pk : A -> Z) (table : Store -> list A)
           (q : Query A) : M Db (list A) :=
  fun db =>
    let tie := fun row => engine A q (pending db) (pk row) in
    let rows := filter (where_ q) (table (pending db)) in
    let rows := if descending q then order_by_desc (order_key q) tie rows
                else order_by (order_key q) tie rows in
    (and_then (match offset_ q with
               | Some n => offset n rows
               | None => Ok rows
               end)
       (fun rows => match limit_ q with
                    | Some n => limit n rows
                    | None => Ok rows
                    end),
     db).

Definition session_has_id (sid : string) (s : ChatSession.t) : bool :=
  String.eqb (ChatSession.session_id s) sid.

Definition message_of_session (sid : string) (m : ChatMessage.t) : bool :=
  String.eqb (ChatMessage.session_id m) sid.

(** [unique=True] on [chat_sessions.session_id]. *)
Fixpoint unique_session_ids (rows : list ChatSession.t) : bool :=
  match rows with
  | [] => true
  | s :: rest =>
      negb (existsb (session_has_id (ChatSession.session_id s)) rest)
      && unique_session_ids rest
  end.

(** The foreign key of [chat_messages.session_id]. *)
Definition foreign_keys_hold (st : Store) : bool :=
  forallb (fun m => existsb (session_has_id (ChatMessage.session_id m))
                      (chat_sessions st))
          (chat_messages st).

Definition constraints_hold (st : Store) : bool :=
  unique_session_ids (chat_sessions st) && foreign_keys_hold st.

(** [db.commit()]: the unit of work becomes the database state, or the
    database refuses it and the transaction is rolled back. *)
Definition commit : M Db unit :=
  fun db =>
    if constraints_hold (pending db)
    then (Ok tt, {| committed := pending db; pending := pending db;
                    session_seq := session_seq db;
                    message_seq := message_seq db |})
    else (Raise (IntegrityError "constraint violated"),
          with_pending db (committed db)).

(** [db.add(session)]: the row gets its key and its server defaults. *)
Definition add_session (data : ChatSessionCreate.t) (now : Z)
  : M Db ChatSession.t :=
  fun db =>
    let row := {| ChatSession.id := session_seq db;
                  ChatSession.session_id := ChatSessionCreate.session_id data;
                  ChatSession.pdf_ids := ChatSessionCreate.pdf_ids data;
                  ChatSession.user_id := ChatSessionCreate.user_id data;
                  ChatSession.created_at := now;
                  ChatSession.last_activity := now;
                  ChatSession.summary := None;
                  ChatSession.total_messages := 0;
                  ChatSession.session_metadata := None |} in
    (Ok row,
     {| committed := committed db;
        pending := {| chat_sessions := chat_sessions (pending db) ++ [row];
                      chat_messages := chat_messages (pending db) |};
        session_seq := session_seq db + 1;
        message_seq := message_seq db |}).

(** [db.add(message)]. *)
Definition add_message_row (data : ChatMessageCreate.t) (now : Z)
  : M Db ChatMessage.t :=
  fun db =>
    let row := {| ChatMessage.id := message_seq db;
                  ChatMessage.session_id := ChatMessageCreate.session_id data;
                  ChatMessage.role := ChatMessageCreate.role data;
                  ChatMessage.content := ChatMessageCreate.content data;
                  ChatMessage.timestamp := now;
                  ChatMessage.sources := ChatMessageCreate.sources data;
                  ChatMessage.token_count := ChatMessageCreate.token_count data |} in
    (Ok row,
     {| committed := committed db;
        pending := {| chat_sessions := chat_sessions (pending db);
                      chat_messages := chat_messages (pending db) ++ [row] |};
        session_seq := session_seq db;
        message_seq := message_seq db + 1 |}).

(** The attributes of the ORM object with primary key [pk]. *)
Definition deref (pk : Z) : M Db ChatSession.t :=
  fun db =>
    match find (fun s => ChatSession.id s =? pk) (chat_sessions (pending db)) with
    | Some s => (Ok s, db)
    | None => (Raise (InvalidRequestError "instance is not persistent"), db)
    end.

(** Assignment to attributes of the ORM object with primary key [pk]. *)
Definition update_row (pk : Z) (f : ChatSession.t -> ChatSession.t)
  : M Db unit :=
  modify (fun db =>
    with_pending db
      {| chat_sessions :=
           map (fun s => if ChatSession.id s =? pk then f s else s)
               (chat_sessions (pending db));
         chat_messages := chat_messages (pending db) |}).

(** [db.delete(session)], with [ON DELETE CASCADE] on its messages. *)
Definition delete_row (s : ChatSession.t) : M Db unit :=
  modify (fun db =>
    with_pending db
      {| chat_sessions :=
           filter (fun s' => negb (ChatSession.id s' =? ChatSession.id s))
                  (chat_sessions (pending db));
         chat_messages :=
           filter (fun m => negb (message_of_session (ChatSession.session_id s) m))
                  (chat_messages (pending db)) |}).

End Sql.

(* ================================================================== *)
(** * Long-term memory (backend/app/memory/long_term.py) *)
(* ================================================================== *)

Module LongTerm.

Section WithCollaborators.

(** The database that [self.db] is a session of. *)
Variable engine : Sql.Engine.

(** The attribute assignments of [update_session] and [add_message]. *)
Definition apply_update (u : ChatSessionUpdate.t) (now : Z) (s : ChatSession.t)
  : ChatSession.t :=
  {| ChatSession.id := ChatSession.id s;
     ChatSession.session_id := ChatSession.session_id s;
     ChatSession.pdf_ids := ChatSession.pdf_ids s;
     ChatSession.user_id := ChatSession.user_id s;
     ChatSession.created_at := ChatSession.created_at s;
     ChatSession.last_activity := now;
     ChatSession.summary :=
       match ChatSessionUpdate.summary u with
       | Some text => Some text
       | None => ChatSession.summary s
       end;
     ChatSession.total_messages :=
       match ChatSessionUpdate.total_messages u with
       | Some n => n
       | None => ChatSession.total_messages s
       end;
     ChatSession.session_metadata :=
       match ChatSessionUpdate.session_metadata u with
       | Some d => Some d
       | None => ChatSession.session_metadata s
       end |}.

Definition count_message (now : Z) (s : ChatSession.t) : ChatSession.t :=
  {| ChatSession.id := ChatSession.id s;
     ChatSession.session_id := ChatSession.session_id s;
     ChatSession.pdf_ids := ChatSession.pdf_ids s;
     ChatSession.user_id := ChatSession.user_id s;
     ChatSession.created_at := ChatSession.created_at s;
     ChatSession.last_activity := now;
     ChatSession.summary := ChatSession.summary s;
     ChatSession.total_messages := ChatSession.total_messages s + 1;
     ChatSession.session_metadata := ChatSession.session_metadata s |}.

(** Every method that reads the clock takes the reading as [now]. *)

Definition create_session (session_data : ChatSessionCreate.t) (now : Z)
  : M Db ChatSession.t :=
  session <- Sql.add_session session_data now ;;
  Sql.commit ;;;
  ret session.

Definition get_session (session_id : string) : M Db (option ChatSession.t) :=
  gets (fun db => find (Sql.session_has_id session_id)
                       (chat_sessions (pending db))).

Definition get_or_create_session (session_id : string) (pdf_ids : list Z)
           (user_id : option string) (now : Z) : M Db ChatSession.t :=
  session <- get_session session_id ;;
  match session with
  | None =>
      let session_data :=
        {| ChatSessionCreate.session_id := session_id;
           ChatSessionCreate.pdf_ids := pdf_ids;
           ChatSessionCreate.user_id := user_id |} in
      create_session session_data now
  | Some s => ret s
  end.

Definition update_session (session_id : string)
           (update_data : ChatSessionUpdate.t) (now : Z) : M Db ChatSession.t :=
  session <- get_session session_id ;;
  match session with
  | None => raise (ValueError ("Session " +++ session_id +++ " not found"))
  | Some s =>
      Sql.update_row (ChatSession.id s) (apply_update update_data now) ;;;
      Sql.commit ;;;
      Sql.deref (ChatSession.id s)
  end.

(** [session] is the ORM object of the session row, updated in place. *)
Definition add_message (message_data : ChatMessageCreate.t) (session : Z)
           (now : Z) : M Db ChatMessage.t :=
  message <- Sql.add_message_row message_data now ;;
  _ <- Sql.deref session ;;
  Sql.update_row session (count_message now) ;;;
  Sql.commit ;;;
  ret message.

(** [db.query(ChatMessage).filter(ChatMessage.session_id == session_id)] *)
Definition messages_of (session_id : string) (descending : bool)
  : Sql.Query ChatMessage.t :=
  {| Sql.where_ := Sql.message_of_session session_id;
     Sql.order_key := ChatMessage.timestamp;
     Sql.descending := descending;
     Sql.offset_ := None;
     Sql.limit_ := None |}.

Definition get_messages (session_id : string) (limit : option Z) (offset : Z)
  : M Db (list ChatMessage.t) :=
  let query := messages_of session_id false in
  let query := if truthy_int offset then Sql.set_offset offset query
               else query in
  let query :=
    match limit with
    | Some n => if truthy_int n then Sql.set_limit n query else query
    | None => query
    end in
  Sql.all engine ChatMessage.id chat_messages query.

Definition get_recent_messages (session_id : string) (limit : Z)
  : M Db (list ChatMessage.t) :=
  messages <- Sql.all engine ChatMessage.id chat_messages
                (Sql.set_limit limit (messages_of session_id true)) ;;
  ret (rev messages).

Definition get_message_count (session_id : string) : M Db Z :=
  gets (fun db => len (filter (Sql.message_of_session session_id)
                              (chat_messages (pending db)))).

Definition delete_session (session_id : string) : M Db bool :=
  session <- get_session session_id ;;
  match session with
  | Some s => Sql.delete_row s ;;; Sql.commit ;;; ret true
  | None => ret false
  end.

Definition get_all_sessions (user_id : option string) (skip limit : Z)
  : M Db (list ChatSession.t) :=
  let query :=
    {| Sql.where_ := fun _ => true;
       Sql.order_key := ChatSession.last_activity;
       Sql.descending := true;
       Sql.offset_ := None;
       Sql.limit_ := None |} in
  let query :=
    match user_id with
    | Some u =>
        if truthy_str u
        then Sql.set_where (fun s => match ChatSession.user_id s with
                                     | Some u' => String.eqb u' u
                                     | None => false
                                     end) query
        else query
    | None => query
    end in
  Sql.all engine ChatSession.id chat_sessions
    (Sql.set_limit limit (Sql.set_offset skip query)).

End WithCollaborators.

End LongTerm.

(* ================================================================== *)
(** * Semantic memory (backend/app/memory/semantic_memory.py) *)
(* ================================================================== *)

Module Semantic.

Record Document : Type := { page_content : string; metadata : dict }.

(** A FAISS index, as the documents it holds in insertion order. *)
Definition VectorStore : Type := list Document.

(** The saved indexes: each with the directory that holds it.  A
    directory without an index is there as long as a directory inside it
    holds one. *)
Definition Disk : Type := list (string * VectorStore).

(** The file system, as far as the code depends on it: the directory
    that a path names (the paths ["a"], ["a/"] and ["a/b/.."] can name the
    same one), which directories lie inside which, and the failures of
    reading and of writing an index. *)
Record FileSystem : Type := {
  realpath : string -> string;
  (** [nested a b]: the directory [a] lies inside the directory [b] *)
  nested : string -> string -> bool;
  read_error : string -> option exception;
  write_error : string -> option exception
}.

Record SemanticMemory : Type := {
  session_id : string;
  top_k : Z;
  vector_store_path : string;
  vector_store : option VectorStore
}.

Definition set_vector_store (self : SemanticMemory) (vs : option VectorStore)
  : SemanticMemory :=
  {| session_id := session_id self; top_k := top_k self;
     vector_store_path := vector_store_path self; vector_store := vs |}.

(** [s.endswith("/")] *)
Fixpoint ends_with_sep (s : string) : bool :=
  match s with
  | EmptyString => false
  | String c EmptyString => Ascii.eqb c "/"
  | String _ s' => ends_with_sep s'
  end.

(** [os.path.join(a, b)] *)
Definition path_join (a b : string) : string :=
  if String.prefix "/" b then b
  else if negb (truthy_str a) || ends_with_sep a then a +++ b
  else a +++ "/" +++ b.

Section WithCollaborators.

Variable settings : Settings.
Variable fs : FileSystem.
(** [self.embeddings.embed_documents]: the call succeeds or raises. *)
Variable embed_documents : list string -> exc unit.
(** [vector_store.similarity_search(query, k)] *)
Variable similarity_search : VectorStore -> string -> Z -> exc (list Document).

(** The index saved in the directory that [path] names. *)
Definition holds (path : string) (e : string * VectorStore) : bool :=
  String.eqb (fst e) (realpath fs path).

(** The index is saved in that directory or in one inside it. *)
Definition within (path : string) (e : string * VectorStore) : bool :=
  holds path e || nested fs (fst e) (realpath fs path).

(** [os.path.exists(path)] *)
Definition path_exists (path : string) (d : Disk) : bool :=
  existsb (within path) d.

(** [FAISS.load_local(path, ...)]: the index saved in the directory, or
    the exception of a read that fails or finds none. *)
Definition load_local (path : string) (d : Disk) : exc VectorStore :=
  match read_error fs path with
  | Some e => Raise e
  | None =>
      match find (holds path) d with
      | Some e => Ok (snd e)
      | None => Raise (ExternalError "no index in the directory")
      end
  end.

(** [vector_store.save_local(path)]: the index of the directory is
    replaced, or the write fails and the directory is as it was. *)
Definition save_local (vs : VectorStore) (path : string) : M Disk unit :=
  fun d =>
    match write_error fs path with
    | Some e => (Raise e, d)
    | None =>
        (Ok tt,
         (realpath fs path, vs) :: filter (fun e => negb (holds path e)) d)
    end.

(** [shutil.rmtree(path)], which the code calls on a path that exists:
    the directory goes with all that is inside.  A removal that the
    system refuses is not modelled. *)
Definition rmtree (path : string) : M Disk unit :=
  modify (filter (fun e => negb (within path e))).

(** The state of a method: the disk and the object. *)
Definition St : Type := (Disk * SemanticMemory)%type.

(** A call on the file system. *)
Definition on_disk {A} (m : M Disk A) : M St A :=
  zoom (fun st : St => fst st) (fun d (st : St) => (d, snd st)) m.

Definition _load_or_create_vector_store (path : string) (d : Disk)
  : option VectorStore :=
  if path_exists path d
  then match load_local path d with
       | Ok vs => Some vs
       | Raise _ => None
       end
  else None.

(** The directory [settings.vector_storage_path], which the constructor
    makes sure of, holds no index itself, so that the disk is as
    before. *)
Definition __init__ (sid : string) (k : option Z) (d : Disk) : SemanticMemory :=
  let path := path_join (vector_storage_path settings) ("session_" +++ sid) in
  {| session_id := sid;
     top_k := or_int k (semantic_memory_top_k settings);
     vector_store_path := path;
     vector_store := _load_or_create_vector_store path d |}.

Definition _save_vector_store : M St unit :=
  st <- get ;;
  let self := snd st in
  match vector_store self with
  | Some vs =>
      try_except (on_disk (save_local vs (vector_store_path self)))
                 (fun _ => ret tt)
  | None => ret tt
  end.

Definition add_conversation_snippet (text : string) (meta : option dict)
  : M St unit :=
  if negb (truthy_str (strip text)) then ret tt else
  st <- get ;;
  let self := snd st in
  let doc := {| page_content := text;
                metadata := match meta with
                            | Some m => if truthy_list m then m
                                        else [("session_id", session_id self)]
                            | None => [("session_id", session_id self)]
                            end |} in
  lift (embed_documents [text]) ;;;
  put (fst st,
       set_vector_store self
         (Some (match vector_store self with
                | None => [doc]
                | Some vs => vs ++ [doc]
                end))) ;;;
  _save_vector_store.

Definition retrieve_similar_context (query : string) (k : option Z)
  : M St (list string) :=
  st <- get ;;
  let self := snd st in
  match vector_store self with
  | None => ret []
  | Some vs =>
      let k := or_int k (top_k self) in
      try_except
        (results <- lift (similarity_search vs query k) ;;
         ret (map page_content results))
        (fun _ => ret [])
  end.

Definition clear : M St unit :=
  modify (fun st : St => (fst st, set_vector_store (snd st) None)) ;;;
  st <- get ;;
  let self := snd st in
  if path_exists (vector_store_path self) (fst st)
  then on_disk (rmtree (vector_store_path self))
  else ret tt.

Definition get_document_count : M St Z :=
  gets (fun st : St =>
    match vector_store (snd st) with
    | None => 0
    | Some vs => len vs
    end).

(** [metadata[k] = v] on a JSON object: a present key keeps its place. *)
Fixpoint meta_set (k v : string) (m : dict) : dict :=
  match m with
  | [] => [(k, v)]
  | e :: m' => if String.eqb (fst e) k then (k, v) :: m' else e :: meta_set k v m'
  end.

(** An entry of the list given to [add_multiple_snippets]: a dictionary
    that may lack the keys [text] and [metadata]. *)
Record Snippet : Type := {
  text : option string;
  snippet_metadata : option dict
}.

(** The document of a snippet, or nothing for a blank one. *)
Definition snippet_document (sid : string) (snippet : Snippet) : list Document :=
  let t := match text snippet with Some t => t | None => EmptyString end in
  if truthy_str (strip t)
  then
    let m := match snippet_metadata snippet with Some m => m | None => [] end in
    [ {| page_content := t; metadata := meta_set "session_id" sid m |} ]
  else [].

Definition add_multiple_snippets (snippets : list Snippet) : M St unit :=
  if negb (truthy_list snippets) then ret tt else
  st <- get ;;
  let self := snd st in
  let documents := flat_map (snippet_document (session_id self)) snippets in
  if negb (truthy_list documents) then ret tt else
  lift (embed_documents (map page_content documents)) ;;;
  put (fst st,
       set_vector_store self
         (Some (match vector_store self with
                | None => documents
                | Some vs => vs ++ documents
                end))) ;;;
  _save_vector_store.


End WithCollaborators.

End Semantic.

(* ================================================================== *)
(** * Unified memory manager (backend/app/memory/memory_manager.py) *)
(* ================================================================== *)

Module Manager.

Import ShortTerm.

(** Calls of collaborators that leave no other mark: the request of a
    conversation summary, with the message count that caused it. *)
Inductive Event : Type :=
| SummaryRequested (total_messages : Z).

(** What the managers of one process share. *)
Record Env : Type := {
  db : Db;
  disk : Semantic.Disk;
  log : list Event
}.

Definition set_db (d : Db) (e : Env) : Env :=
  {| db := d; disk := disk e; log := log e |}.
Definition set_disk (d : Semantic.Disk) (e : Env) : Env :=
  {| db := db e; disk := d; log := log e |}.
Definition add_log (ev : Event) (e : Env) : Env :=
  {| db := db e; disk := disk e; log := log e ++ [ev] |}.

Record UnifiedMemoryManager : Type := {
  session_id : string;
  pdf_ids : list Z;
  user_id : option string;
  short_term : ShortTermMemory;
  semantic : Semantic.SemanticMemory;
  (** the ORM object of the session row *)
  session : Z
}.

Definition set_short_term (s : ShortTermMemory) (m : UnifiedMemoryManager) :=
  {| session_id := session_id m; pdf_ids := pdf_ids m; user_id := user_id m;
     short_term := s; semantic := semantic m; session := session m |}.
Definition set_semantic (s : Semantic.SemanticMemory) (m : UnifiedMemoryManager) :=
  {| session_id := session_id m; pdf_ids := pdf_ids m; user_id := user_id m;
     short_term := short_term m; semantic := s; session := session m |}.
Definition set_session (s : Z) (m : UnifiedMemoryManager) :=
  {| session_id := session_id m; pdf_ids := pdf_ids m; user_id := user_id m;
     short_term := short_term m; semantic := semantic m; session := s |}.

(** The state of a method: the shared environment and the object. *)
Definition St : Type := (Env * UnifiedMemoryManager)%type.

Definition self_ : M St UnifiedMemoryManager := gets snd.

(** [self.long_term.<method>] *)
Definition on_db {A} (m : M Db A) : M St A :=
  zoom (fun st : St => db (fst st))
       (fun d (st : St) => (set_db d (fst st), snd st)) m.

(** [self.short_term.<method>] *)
Definition on_short_term {A} (m : M ShortTermMemory A) : M St A :=
  zoom (fun st : St => short_term (snd st))
       (fun s (st : St) => (fst st, set_short_term s (snd st))) m.

(** [self.semantic.<method>] *)
Definition on_semantic {A} (m : M Semantic.St A) : M St A :=
  zoom (fun st : St => (disk (fst st), semantic (snd st)))
       (fun (r : Semantic.St) (st : St) =>
          (set_disk (fst r) (fst st), set_semantic (snd r) (snd st))) m.

(** The event log is not state of the program: [record] notes a call for
    the statements about it and has no counterpart in the source. *)
Definition record (ev : Event) : M St unit :=
  modify (fun st : St => (add_log ev (fst st), snd st)).

Definition ChatMessageResponse : Type := ChatMessage.t.

Definition model_validate (m : ChatMessage.t) : ChatMessageResponse := m.

Record MemoryContext : Type := {
  ctx_session_id : string;
  recent_messages : list ChatMessageResponse;
  conversation_summary : option string;
  semantic_context : list string;
  ctx_total_messages : Z;
  ctx_pdf_ids : list Z
}.

Record Stats : Type := {
  stats_session_id : string;
  stats_pdf_ids : list Z;
  total_messages : Z;
  stats_short_term : MemoryStats;
  long_term_messages : Z;
  semantic_snippets : Z;
  has_summary : bool
}.

Section WithCollaborators.

Variable settings : Settings.
Variable engine : Sql.Engine.
Variable fs : Semantic.FileSystem.
Variable llm : ChatModel.
Variable tokenizer_encode : string -> exc (list Z).
Variable embed_documents : list string -> exc unit.
Variable similarity_search :
  Semantic.VectorStore -> string -> Z -> exc (list Semantic.Document).

Definition _initialize_short_term_from_db : M St unit :=
  self <- self_ ;;
  recent_messages <-
    on_db (LongTerm.get_recent_messages engine (session_id self)
             (memory_buffer_messages settings)) ;;
  let messages_to_load :=
    map (fun msg => {| role := ChatMessage.role msg;
                       content := ChatMessage.content msg |})
        recent_messages in
  if truthy_list messages_to_load
  then on_short_term (load_messages_batch messages_to_load)
  else ret tt.

Definition __init__ (sid : string) (pdfs : list Z) (uid : option string)
           (now : Z) : M Env UnifiedMemoryManager :=
  fun env =>
    let st := ShortTerm.__init__ settings None None None in
    let sem := Semantic.__init__ settings fs sid None (disk env) in
    match zoom db set_db (LongTerm.get_or_create_session sid pdfs uid now) env with
    | (Raise e, env') => (Raise e, env')
    | (Ok row, env') =>
        let self := {| session_id := sid; pdf_ids := pdfs; user_id := uid;
                       short_term := st; semantic := sem;
                       session := ChatSession.id row |} in
        match _initialize_short_term_from_db (env', self) with
        | (Ok _, (env'', self')) => (Ok self', env'')
        | (Raise e, (env'', _)) => (Raise e, env'')
        end
    end.

(** The condition of [_check_and_update_summary]; [and] evaluates its
    second operand only when the first holds. *)
Definition summary_due (total_messages : Z) : exc bool :=
  if total_messages >=? memory_summary_trigger settings
  then match mod_ total_messages (memory_summary_trigger settings) with
       | Ok r => Ok (r =? 0)
       | Raise e => Raise e
       end
  else Ok false.

Definition _check_and_update_summary (now : Z) : M St unit :=
  self <- self_ ;;
  s <- on_db (Sql.deref (session self)) ;;
  let total_messages := ChatSession.total_messages s in
  due <- lift (summary_due total_messages) ;;
  if due then
    record (SummaryRequested total_messages) ;;;
    summary <- on_short_term (get_conversation_summary llm tokenizer_encode) ;;
    if truthy_str summary then
      let update_data :=
        {| ChatSessionUpdate.summary := Some summary;
           ChatSessionUpdate.total_messages := None;
           ChatSessionUpdate.session_metadata := None |} in
      updated_session <-
        on_db (LongTerm.update_session (session_id self) update_data now) ;;
      modify (fun st : St =>
                (fst st, set_session (ChatSession.id updated_session) (snd st)))
    else ret tt
  else ret tt.

Definition _add_to_semantic_memory : M St unit :=
  recent_messages <- on_short_term (get_recent_messages (Some 4)) ;;
  if len recent_messages >=? 2 then
    let snippet_text :=
      join nl (map (fun msg => role msg +++ ": " +++ content msg)
                   recent_messages) in
    self <- self_ ;;
    s <- on_db (Sql.deref (session self)) ;;
    let metadata :=
      [ ("session_id", session_id self);
        ("message_count", str_int (len recent_messages));
        ("total_messages", str_int (ChatSession.total_messages s)) ] in
    on_semantic (Semantic.add_conversation_snippet fs embed_documents
                   snippet_text (Some metadata))
  else ret tt.

Definition add_user_message (text : string) (now : Z)
  : M St ChatMessageResponse :=
  on_short_term (add_message "user" text) ;;;
  self <- self_ ;;
  let message_data :=
    {| ChatMessageCreate.session_id := session_id self;
       ChatMessageCreate.role := "user";
       ChatMessageCreate.content := text;
       ChatMessageCreate.sources := None;
       ChatMessageCreate.token_count := None |} in
  message <- on_db (LongTerm.add_message message_data (session self) now) ;;
  _check_and_update_summary now ;;;
  ret (model_validate message).

Definition add_assistant_message (text : string) (sources : option (list dict))
           (now : Z) : M St ChatMessageResponse :=
  on_short_term (add_message "assistant" text) ;;;
  self <- self_ ;;
  let message_data :=
    {| ChatMessageCreate.session_id := session_id self;
       ChatMessageCreate.role := "assistant";
       ChatMessageCreate.content := text;
       ChatMessageCreate.sources := sources;
       ChatMessageCreate.token_count := None |} in
  message <- on_db (LongTerm.add_message message_data (session self) now) ;;
  s <- on_db (Sql.deref (session self)) ;;
  (if ChatSession.total_messages s mod 4 =? 0
   then _add_to_semantic_memory else ret tt) ;;;
  _check_and_update_summary now ;;;
  ret (model_validate message).

Definition get_memory_context (query : option string) : M St MemoryContext :=
  self <- self_ ;;
  recent_messages_from_db <-
    on_db (LongTerm.get_recent_messages engine (session_id self)
             (memory_buffer_messages settings)) ;;
  s <- on_db (Sql.deref (session self)) ;;
  semantic_context <-
    (if truthy_opt_str query
     then on_semantic (Semantic.retrieve_similar_context similarity_search
                         (match query with Some q => q | None => EmptyString end)
                         None)
     else ret []) ;;
  ret {| ctx_session_id := session_id self;
         recent_messages := map model_validate recent_messages_from_db;
         conversation_summary := ChatSession.summary s;
         semantic_context := semantic_context;
         ctx_total_messages := ChatSession.total_messages s;
         ctx_pdf_ids := pdf_ids self |}.

(** [enumerate(l, start)] *)
Fixpoint enumerate {A} (start : Z) (l : list A) : list (Z * A) :=
  match l with
  | [] => []
  | x :: l' => (start, x) :: enumerate (start + 1) l'
  end.

Definition get_formatted_context_string (query : option string) : M St string :=
  context <- get_memory_context query ;;
  let parts :=
    (match conversation_summary context with
     | Some text =>
         if truthy_str text
         then ["Conversation Summary:" +++ nl +++ text +++ nl]
         else []
     | None => []
     end)
    ++ (if truthy_list (semantic_context context)
        then ["Relevant Past Context:"]
             ++ map (fun p => str_int (fst p) +++ ". " +++ snd p)
                    (enumerate 1 (semantic_context context))
             ++ [EmptyString]
        else [])
    ++ (if truthy_list (recent_messages context)
        then ["Recent Messages:"]
             ++ map (fun msg => ChatMessage.role msg +++ ": "
                                  +++ ChatMessage.content msg)
                    (recent_messages context)
        else []) in
  ret (join nl parts).


Definition get_memory_stats : M St Stats :=
  self <- self_ ;;
  short_term_stats <- on_short_term (ShortTerm.get_memory_stats tokenizer_encode) ;;
  semantic_doc_count <- on_semantic Semantic.get_document_count ;;
  long_term_count <- on_db (LongTerm.get_message_count (session_id self)) ;;
  s <- on_db (Sql.deref (session self)) ;;
  ret {| stats_session_id := session_id self;
         stats_pdf_ids := pdf_ids self;
         total_messages := ChatSession.total_messages s;
         stats_short_term := short_term_stats;
         long_term_messages := long_term_count;
         semantic_snippets := semantic_doc_count;
         has_summary := truthy_opt_str (ChatSession.summary s) |}.

End WithCollaborators.

End Manager.

(* ================================================================== *)
(** * Query reformulator (backend/app/chat_assistant/query_reformulator.py) *)
(* ================================================================== *)

Module Reformulator.

(** The double-quote character. *)
Definition dq : string := String (ascii_of_nat 34) EmptyString.

Definition _build_system_prompt : string :=
  "You are a query reformulation assistant for a tender document analysis system.

Your task is to reformulate user queries by incorporating relevant context from the conversation history.

Guidelines:
1. **Preserve all specific references**: If the query mentions page numbers, sections, clauses, items, or other specific references, keep them EXACTLY as stated
   - Example: " +++ dq +++
  "What page is that on?" +++ dq +++
  " → " +++ dq +++
  "What page contains the contractor qualification requirements?" +++ dq +++
  "

2. **Resolve pronouns and relative references**: Replace " +++ dq +++
  "it" +++ dq +++
  ", " +++ dq +++
  "that" +++ dq +++
  ", " +++ dq +++
  "this" +++ dq +++
  ", " +++ dq +++
  "those" +++ dq +++
  ", " +++ dq +++
  "these" +++ dq +++
  " with the actual subject from conversation history
   - Example: " +++ dq +++
  "Tell me more about it" +++ dq +++
  " → " +++ dq +++
  "Tell me more about the safety compliance requirements" +++ dq +++
  "

3. **Add context for vague follow-ups**: Enhance queries that depend on previous discussion
   - Example: " +++ dq +++
  "Is there a requirement for that?" +++ dq +++
  " → " +++ dq +++
  "Is there a requirement for ISO 9001 certification mentioned in section 2.3?" +++ dq +++
  "

4. **Keep standalone queries as-is**: If the query is already complete and self-contained, return it unchanged
   - Example: " +++ dq +++
  "What are the technical specifications in section 3.2?" +++ dq +++
  " → (keep as-is)

5. **Don't lose information**: Never remove or simplify specific details, numbers, or technical terms from the original query

6. Keep the reformulated query concise (1-3 sentences max)

Output ONLY the reformulated query, no explanations or metadata.".

Section WithCollaborators.

(** [self.llm.invoke] *)
Variable llm : ChatModel.

Definition _build_user_prompt (original_query : string)
           (recent_messages : list Manager.ChatMessageResponse)
           (conversation_summary : option string) : string :=
  let parts :=
    (match conversation_summary with
     | Some text =>
         if truthy_str text
         then ["Conversation Summary:" +++ nl +++ text +++ nl]
         else []
     | None => []
     end)
    ++ (if truthy_list recent_messages
        then ["Recent Conversation:"]
             ++ map (fun msg => ChatMessage.role msg +++ ": "
                                  +++ ChatMessage.content msg)
                    (slice_from (-5) recent_messages)
             ++ [EmptyString]
        else [])
    ++ ["User's New Query:" +++ nl +++ original_query +++ nl]
    ++ ["Reformulated Query:"] in
  join nl parts.

Definition reformulate_query (original_query : string)
           (recent_messages : list Manager.ChatMessageResponse)
           (conversation_summary : option string) : exc string :=
  if negb (truthy_list recent_messages)
     && negb (truthy_opt_str conversation_summary)
  then Ok original_query
  else
    let system_prompt := _build_system_prompt in
    let user_prompt :=
      _build_user_prompt original_query recent_messages conversation_summary in
    let messages := [SystemMessage system_prompt; HumanMessage user_prompt] in
    catch
      (and_then (llm messages) (fun response =>
         let reformulated := strip response in
         if negb (truthy_str reformulated) || (str_len reformulated <? 10)
         then Ok original_query
         else Ok reformulated))
      (fun _ => Ok original_query).

End WithCollaborators.

Definition should_reformulate (query : string)
           (recent_messages : list Manager.ChatMessageResponse) : bool :=
  if negb (truthy_list recent_messages) || (len recent_messages <? 2)
  then false
  else if len (split query) <? 3 then false
  else true.

End Reformulator.

(* ================================================================== *)
(** * Memory-manager cache (backend/app/chat_assistant/service.py) *)
(* ================================================================== *)

Module Service.

(** A [dict] with string keys: the items in insertion order. *)
Definition pydict (V : Type) : Type := list (string * V).

Definition has_key {V} (k : string) (e : string * V) : bool :=
  String.eqb (fst e) k.

(** [d[k]], or [None] when [k in d] is false. *)
Definition dict_get {V} (k : string) (d : pydict V) : option V :=
  option_map snd (find (has_key k) d).

(** [d[k] = v]: a present key keeps its place, a new key goes last. *)
Fixpoint dict_set {V} (k : string) (v : V) (d : pydict V) : pydict V :=
  match d with
  | [] => [(k, v)]
  | e :: d' => if has_key k e then (k, v) :: d' else e :: dict_set k v d'
  end.

(** [next(iter(d))] *)
Definition dict_first_key {V} (d : pydict V) : exc string :=
  match d with
  | [] => Raise StopIteration
  | e :: _ => Ok (fst e)
  end.

(** [del d[k]] *)
Definition dict_del {V} (k : string) (d : pydict V) : pydict V :=
  filter (fun e => negb (has_key k e)) d.

(** A manager object is named by its place in the heap of the process. *)
Definition ref : Type := nat.

Record ChatAssistantService : Type := {
  _memory_manager_cache : pydict ref;
  _max_cache_size : Z
}.

Record World : Type := {
  env : Manager.Env;
  heap : list Manager.UnifiedMemoryManager;
  service : ChatAssistantService
}.

Definition set_env (e : Manager.Env) (w : World) : World :=
  {| env := e; heap := heap w; service := service w |}.

Definition set_cache (c : pydict ref) (w : World) : World :=
  {| env := env w; heap := heap w;
     service := {| _memory_manager_cache := c;
                   _max_cache_size := _max_cache_size (service w) |} |}.

(** A new object on the heap. *)
Definition alloc (m : Manager.UnifiedMemoryManager) : M World ref :=
  fun w => (Ok (List.length (heap w)),
            {| env := env w; heap := heap w ++ [m]; service := service w |}).

Definition __init__ : ChatAssistantService :=
  {| _memory_manager_cache := []; _max_cache_size := 50 |}.

Section WithCollaborators.

Variable settings : Settings.
Variable engine : Sql.Engine.
Variable fs : Semantic.FileSystem.

Definition cache_key_of (session_id : string) (pdf_ids : list Z) : string :=
  let pdf_ids_key := sorted pdf_ids in
  session_id +++ ":" +++ str_tuple pdf_ids_key.

Definition _get_or_create_memory_manager (session_id : string)
           (pdf_ids : list Z) (user_id : option string) (now : Z)
  : M World ref :=
  let cache_key := cache_key_of session_id pdf_ids in
  w <- get ;;
  match dict_get cache_key (_memory_manager_cache (service w)) with
  | Some cached => ret cached
  | None =>
      manager <- zoom env set_env
                   (Manager.__init__ settings engine fs session_id pdf_ids
                      user_id now) ;;
      memory_manager <- alloc manager ;;
      modify (fun w => set_cache
                         (dict_set session_id memory_manager
                            (_memory_manager_cache (service w))) w) ;;;
      w <- get ;;
      (if len (_memory_manager_cache (service w)) >? _max_cache_size (service w)
       then
         first_key <- lift (dict_first_key (_memory_manager_cache (service w))) ;;
         modify (fun w => set_cache
                            (dict_del first_key
                               (_memory_manager_cache (service w))) w)
       else ret tt) ;;;
      ret memory_manager
  end.

End WithCollaborators.

Definition _build_user_prompt (user_query document_context : string)
           (memory_context : Manager.MemoryContext) : string :=
  let parts :=
    (match Manager.conversation_summary memory_context with
     | Some text =>
         if truthy_str text
         then ["=== Conversation Summary ==="; text; EmptyString]
         else []
     | None => []
     end)
    ++ (if truthy_list (Manager.semantic_context memory_context)
        then ["=== Relevant Past Discussion ==="]
             ++ map (fun p => str_int (fst p) +++ ". " +++ snd p)
                    (Manager.enumerate 1
                       (Manager.semantic_context memory_context))
             ++ [EmptyString]
        else [])
    ++ ["=== Document Context ==="; document_context; EmptyString]
    ++ (if truthy_list (Manager.recent_messages memory_context)
        then ["=== Recent Conversation ==="]
             ++ map (fun msg => ChatMessage.role msg +++ ": "
                                  +++ ChatMessage.content msg)
                    (slice_from (-3) (Manager.recent_messages memory_context))
             ++ [EmptyString]
        else [])
    ++ ["=== User Question ==="; user_query; EmptyString; "Your Answer:"] in
  join nl parts.

End Service.

(* ================================================================== *)
(** * Properties *)
(* ================================================================== *)

Unset Implicit Arguments.

(** ** Vocabulary of the statements *)

(** The last [n] entries of a list. *)
Definition lastn {A} (n : nat) (l : list A) : list A :=
  skipn (List.length l - n) l.

(** Orders on rows by an integer key. *)
Definition key_le {A} (key : A -> Z) (a b : A) : Prop := key a <= key b.

Definition key_lt {A} (key : A -> Z) (a b : A) : Prop := key a < key b.

Definition key_ge {A} (key : A -> Z) (a b : A) : Prop := key b <= key a.

(** The buffer entry that a call [add_message(role, content)] appends; a
    call with another role appends nothing (it raises). *)
Definition message_of (c : ShortTerm.MsgDict) : list BaseMessage :=
  if String.eqb (ShortTerm.role c) "user"
  then [HumanMessage (ShortTerm.content c)]
  else if String.eqb (ShortTerm.role c) "assistant"
       then [AIMessage (ShortTerm.content c)]
       else [].

(** The messages added by a sequence of calls, in order. *)
Definition added (calls : list ShortTerm.MsgDict) : list BaseMessage :=
  flat_map message_of calls.

(** A sequence of [add_message] calls on one buffer. *)
Definition add_all (calls : list ShortTerm.MsgDict)
  : M ShortTerm.ShortTermMemory unit :=
  for_each calls
    (fun c => ShortTerm.add_message (ShortTerm.role c) (ShortTerm.content c)).

(** The rolling-buffer bound. *)
Definition within_cap (self : ShortTerm.ShortTermMemory) : Prop :=
  len (ShortTerm._messages self) <= 2 * ShortTerm.messages_to_keep self.

(** What [add_message] does to the buffer after the append. *)
Definition trim (k : Z) (l : list BaseMessage) : list BaseMessage :=
  if len l >? k * 2 then slice_from (- k) l else l.

(** The transcript that [get_buffer_string] renders. *)
Definition buffer_string (self : ShortTerm.ShortTermMemory) : string :=
  join nl
    (map (fun msg =>
            (if String.eqb (ShortTerm.role msg) "user" then "Human:" else "AI:")
              +++ " " +++ ShortTerm.content msg)
         (flat_map ShortTerm.format_message (ShortTerm._messages self))).

(** The two messages sent to the summarizing model. *)
Definition summary_request (self : ShortTerm.ShortTermMemory) : list BaseMessage :=
  [ SystemMessage ShortTerm.summarizer_prompt;
    HumanMessage ("Summarize this conversation:" +++ nl +++ nl
                    +++ buffer_string self) ].

(** The rank that the engine gives the rows for a statement. *)
Definition tie_of {A} (engine : Sql.Engine) (pk : A -> Z) (q : Sql.Query A)
           (db : Db) : A -> Z :=
  fun row => engine A q (pending db) (pk row).

(** What [get_recent_messages] returns for a limit that is not
    negative. *)
Definition recent_rows (engine : Sql.Engine) (sid : string) (limit : Z)
           (db : Db) : list ChatMessage.t :=
  rev (firstn (Z.to_nat limit)
         (Sql.order_by_desc ChatMessage.timestamp
            (tie_of engine ChatMessage.id
               (Sql.set_limit limit (LongTerm.messages_of sid true)) db)
            (filter (Sql.message_of_session sid)
                    (chat_messages (pending db))))).

(** The rows of one session, in table order. *)
Definition session_rows (sid : string) (db : Db) : list ChatMessage.t :=
  filter (Sql.message_of_session sid) (chat_messages (pending db)).

(** The row that [create_session] inserts. *)
Definition new_session_row (db : Db) (sid : string) (pdfs : list Z)
           (uid : option string) (now : Z) : ChatSession.t :=
  {| ChatSession.id := session_seq db;
     ChatSession.session_id := sid;
     ChatSession.pdf_ids := pdfs;
     ChatSession.user_id := uid;
     ChatSession.created_at := now;
     ChatSession.last_activity := now;
     ChatSession.summary := None;
     ChatSession.total_messages := 0;
     ChatSession.session_metadata := None |}.

(** The store after the insertion of that row and the commit. *)
Definition with_new_session (db : Db) (row : ChatSession.t) : Db :=
  let st := {| chat_sessions := chat_sessions (pending db) ++ [row];
               chat_messages := chat_messages (pending db) |} in
  {| committed := st; pending := st;
     session_seq := session_seq db + 1; message_seq := message_seq db |}.

(** The row that [add_message] inserts. *)
Definition new_message_row (db : Db) (data : ChatMessageCreate.t) (now : Z)
  : ChatMessage.t :=
  {| ChatMessage.id := message_seq db;
     ChatMessage.session_id := ChatMessageCreate.session_id data;
     ChatMessage.role := ChatMessageCreate.role data;
     ChatMessage.content := ChatMessageCreate.content data;
     ChatMessage.timestamp := now;
     ChatMessage.sources := ChatMessageCreate.sources data;
     ChatMessage.token_count := ChatMessageCreate.token_count data |}.

(** The tables after the insertion of that row and the increment of the
    counter of the session object [pk]. *)
Definition with_new_message (db : Db) (data : ChatMessageCreate.t) (pk now : Z)
  : Store :=
  {| chat_sessions :=
       map (fun s => if ChatSession.id s =? pk
                     then LongTerm.count_message now s else s)
           (chat_sessions (pending db));
     chat_messages := chat_messages (pending db) ++ [new_message_row db data now] |}.

(** The increment of the counter of the session object [pk]. *)
Definition bump (pk now : Z) (s : ChatSession.t) : ChatSession.t :=
  if ChatSession.id s =? pk then LongTerm.count_message now s else s.


(** The primary keys in use lie below the sequence that gives the next
    one. *)
Definition session_keys_fresh (db : Db) : bool :=
  forallb (fun s => ChatSession.id s <? session_seq db)
          (chat_sessions (pending db)).

(** An assignment to attributes of the session object [pk] other than its
    keys. *)
Definition on_row (pk : Z) (f : ChatSession.t -> ChatSession.t)
           (s : ChatSession.t) : ChatSession.t :=
  if ChatSession.id s =? pk then f s else s.

Definition keeps_keys (f : ChatSession.t -> ChatSession.t) : Prop :=
  forall s, ChatSession.id (f s) = ChatSession.id s
            /\ ChatSession.session_id (f s) = ChatSession.session_id s.

(** The tables after [update_session] on the row [s]. *)
Definition with_update (db : Db) (s : ChatSession.t) (u : ChatSessionUpdate.t)
           (now : Z) : Store :=
  {| chat_sessions :=
       map (on_row (ChatSession.id s) (LongTerm.apply_update u now))
           (chat_sessions (pending db));
     chat_messages := chat_messages (pending db) |}.

(** What [get_conversation_summary] returns or raises. *)
Definition summary_result (llm : ChatModel)
           (tokenizer_encode : string -> exc (list Z))
           (self : ShortTerm.ShortTermMemory) : exc string :=
  fst (ShortTerm.get_conversation_summary llm tokenizer_encode self).

Definition summary_update (text : string) : ChatSessionUpdate.t :=
  {| ChatSessionUpdate.summary := Some text;
     ChatSessionUpdate.total_messages := None;
     ChatSessionUpdate.session_metadata := None |}.

Definition user_message_data (mgr : Manager.UnifiedMemoryManager)
           (text : string) : ChatMessageCreate.t :=
  {| ChatMessageCreate.session_id := Manager.session_id mgr;
     ChatMessageCreate.role := "user";
     ChatMessageCreate.content := text;
     ChatMessageCreate.sources := None;
     ChatMessageCreate.token_count := None |}.

(** What the semantic tier leaves alone. *)
Definition same_session_view (st st' : Manager.St) : Prop :=
  Manager.db (fst st') = Manager.db (fst st)
  /\ Manager.log (fst st') = Manager.log (fst st)
  /\ Manager.session_id (snd st') = Manager.session_id (snd st)
  /\ Manager.session (snd st') = Manager.session (snd st)
  /\ Manager.short_term (snd st') = Manager.short_term (snd st).

Definition assistant_message_data (mgr : Manager.UnifiedMemoryManager)
           (text : string) (sources : option (list dict)) : ChatMessageCreate.t :=
  {| ChatMessageCreate.session_id := Manager.session_id mgr;
     ChatMessageCreate.role := "assistant";
     ChatMessageCreate.content := text;
     ChatMessageCreate.sources := sources;
     ChatMessageCreate.token_count := None |}.

(** The store as the operations of [LongTermMemory] leave it: the
    constraints hold, the primary keys in use are pairwise distinct and lie
    below the sequence, and nothing is left uncommitted. *)
Definition store_ok (db : Db) : Prop :=
  Sql.constraints_hold (pending db) = true
  /\ session_keys_fresh db = true
  /\ NoDup (map ChatSession.id (chat_sessions (pending db)))
  /\ committed db = pending db.

(** No drift: every session's counter is the number of its message rows. *)
Definition counters_match (db : Db) : Prop :=
  Forall (fun s => ChatSession.total_messages s
                   = len (session_rows (ChatSession.session_id s) db))
         (chat_sessions (pending db)).

(** The tables after [delete_session] on the row [s]. *)
Definition with_deleted (db : Db) (s : ChatSession.t) : Store :=
  {| chat_sessions :=
       filter (fun s' => negb (ChatSession.id s' =? ChatSession.id s))
              (chat_sessions (pending db));
     chat_messages :=
       filter (fun m => negb (Sql.message_of_session (ChatSession.session_id s) m))
              (chat_messages (pending db)) |}.

(** A buffer entry that [add_message] can have put there. *)
Definition is_chat (m : BaseMessage) : Prop :=
  match m with
  | SystemMessage _ => False
  | _ => True
  end.

(** The session object of the manager is the row [s], and [s] is the row
    of the manager's session id. *)
Definition session_row (env : Manager.Env) (mgr : Manager.UnifiedMemoryManager)
           (s : ChatSession.t) : Prop :=
  Sql.deref (Manager.session mgr) (Manager.db env) = (Ok s, Manager.db env)
  /\ LongTerm.get_session (Manager.session_id mgr) (Manager.db env)
     = (Ok (Some s), Manager.db env).

(** The dictionary that the manager loads into the buffer for a row. *)
Definition message_dict (m : ChatMessage.t) : ShortTerm.MsgDict :=
  {| ShortTerm.role := ChatMessage.role m;
     ShortTerm.content := ChatMessage.content m |}.

(** A stored message has one of the two roles. *)
Definition role_ok (m : ChatMessage.t) : Prop :=
  ChatMessage.role m = "user" \/ ChatMessage.role m = "assistant".

(** The manager and the store agree: the store is in order and the
    manager's session object is the row [s] of its session id. *)
Definition manager_ok (st : Manager.St) (s : ChatSession.t) : Prop :=
  store_ok (Manager.db (fst st)) /\ session_row (fst st) (snd st) s.

(** What a step of the manager leaves alone in the object. *)
Definition same_identity (mgr mgr' : Manager.UnifiedMemoryManager) : Prop :=
  Manager.session_id mgr' = Manager.session_id mgr
  /\ Manager.pdf_ids mgr' = Manager.pdf_ids mgr
  /\ Manager.user_id mgr' = Manager.user_id mgr.

(** The stored conversation of a session as the messages of a buffer, in
    table order. *)
Definition conversation (sid : string) (db : Db) : list BaseMessage :=
  added (map message_dict (session_rows sid db)).

(** The buffer of the manager is an end of the stored conversation of its
    session. *)
Definition mirrors (st : Manager.St) : Prop :=
  exists j,
    ShortTerm._messages (Manager.short_term (snd st))
    = skipn j (conversation (Manager.session_id (snd st))
                 (Manager.db (fst st))).

(** The message [m] of role [r] was recorded at [now] in both tiers: one
    more row at the end of the history of the session, one more in the
    counter of the session row, one more message in the trimmed buffer;
    and a buffer that was an end of the stored conversation still is. *)
Definition turn_recorded (r text : string) (now : Z) (m : BaseMessage)
           (st st' : Manager.St) (s s' : ChatSession.t)
           (message : ChatMessage.t) : Prop :=
  manager_ok st' s'
  /\ same_identity (snd st) (snd st')
  /\ ChatSession.total_messages s' = ChatSession.total_messages s + 1
  /\ session_rows (Manager.session_id (snd st)) (Manager.db (fst st'))
     = session_rows (Manager.session_id (snd st)) (Manager.db (fst st))
         ++ [message]
  /\ ChatMessage.session_id message = Manager.session_id (snd st)
  /\ ChatMessage.role message = r
  /\ ChatMessage.content message = text
  /\ ChatMessage.timestamp message = now
  /\ ShortTerm._messages (Manager.short_term (snd st'))
     = trim (ShortTerm.messages_to_keep (Manager.short_term (snd st)))
            (ShortTerm._messages (Manager.short_term (snd st)) ++ [m])
  /\ (counters_match (Manager.db (fst st))
      -> counters_match (Manager.db (fst st')))
  /\ (mirrors st -> mirrors st').

(** The buffer after [add_message] has appended [m] and trimmed. *)
Definition buffer_after (stm : ShortTerm.ShortTermMemory) (m : BaseMessage)
  : ShortTerm.ShortTermMemory :=
  ShortTerm.set_messages stm
    (trim (ShortTerm.messages_to_keep stm) (ShortTerm._messages stm ++ [m])).

(** The messages that [_add_to_semantic_memory] reads from the buffer. *)
Definition snippet_window (stm : ShortTerm.ShortTermMemory)
  : list ShortTerm.MsgDict :=
  flat_map ShortTerm.format_message (slice_from (- 4) (ShortTerm._messages stm)).

(** The document that [_add_to_semantic_memory] builds from them for the
    session [sid] at the message count [total]. *)
Definition snippet_of (sid : string) (total : Z)
           (window : list ShortTerm.MsgDict) : Semantic.Document :=
  {| Semantic.page_content :=
       join nl (map (fun msg => ShortTerm.role msg +++ ": "
                                  +++ ShortTerm.content msg) window);
     Semantic.metadata :=
       [ ("session_id", sid);
         ("message_count", str_int (len window));
         ("total_messages", str_int total) ] |}.

(** [n] is a positive multiple of [T]. *)
Definition positive_multiple (T n : Z) : Prop :=
  exists k, 1 <= k /\ n = k * T.

(** What [_check_and_update_summary] does with the trigger [T] at the
    session row [s] of the state [st], where [request] is what
    [get_conversation_summary] gives on the buffer of [st]; [res] is the
    result of the check and [st'] the state that it leaves.  A summary is
    requested exactly when the count of [s] is a positive multiple of [T].
    At another count the check returns and changes nothing.  At such a
    count: when the request raises, the exception comes out of the check
    and the tables and the manager are as they were; when the summary is
    empty, the check returns and they are as they were; when it is not
    empty, the check returns and the committed row of the session carries
    it as its [summary], with the count that it had. *)
Definition checked (T : Z) (request : exc string) (s : ChatSession.t)
           (st : Manager.St) (res : exc unit) (st' : Manager.St) : Prop :=
  let total := ChatSession.total_messages s in
  (Manager.log (fst st')
   = Manager.log (fst st) ++ [Manager.SummaryRequested total]
   <-> positive_multiple T total)
  /\ (~ positive_multiple T total -> res = Ok tt /\ st' = st)
  /\ (positive_multiple T total ->
      match request with
      | Raise e =>
          res = Raise e
          /\ Manager.db (fst st') = Manager.db (fst st)
          /\ snd st' = snd st
      | Ok summary =>
          res = Ok tt
          /\ (summary = EmptyString ->
              Manager.db (fst st') = Manager.db (fst st) /\ snd st' = snd st)
          /\ (summary <> EmptyString ->
              exists s',
                session_row (fst st') (snd st') s'
                /\ ChatSession.summary s' = Some summary
                /\ ChatSession.total_messages s' = total
                /\ committed (Manager.db (fst st'))
                   = pending (Manager.db (fst st')))
      end).

(** The disk after [vector_store.save_local(path)], whether the write
    fails or not. *)
Definition saved (fs : Semantic.FileSystem) (path : string)
           (vs : Semantic.VectorStore) (d : Semantic.Disk) : Semantic.Disk :=
  snd (Semantic.save_local fs vs path d).

(** The embedding request that [add_assistant_message] makes in its
    semantic step for the message that brings the count of the session
    [sid] to [total], on the buffer [stm] that holds the message: one at
    every fourth message, when the last four buffered messages give two
    entries or more. *)
Definition snippet_request (sid : string) (total : Z)
           (stm : ShortTerm.ShortTermMemory) : option (list string) :=
  if (total mod 4 =? 0) && (len (snippet_window stm) >=? 2)
  then Some [Semantic.page_content (snippet_of sid total (snippet_window stm))]
  else None.

(** In the state [st1] the message [m] has been recorded after the state
    [st], whose session row was [s], and nothing else has happened to the
    session: the row [message] is the last of the session, the session
    row [s1] counts one message more and carries the summary of [s], all
    is committed, the buffer holds [m], and no summary has been
    requested. *)
Definition message_stored (m : BaseMessage) (message : ChatMessage.t)
           (s : ChatSession.t) (st : Manager.St)
           (s1 : ChatSession.t) (st1 : Manager.St) : Prop :=
  Sql.constraints_hold (pending (Manager.db (fst st1))) = true
  /\ committed (Manager.db (fst st1)) = pending (Manager.db (fst st1))
  /\ session_row (fst st1) (snd st1) s1
  /\ ChatSession.total_messages s1 = ChatSession.total_messages s + 1
  /\ ChatSession.summary s1 = ChatSession.summary s
  /\ session_rows (Manager.session_id (snd st)) (Manager.db (fst st1))
     = session_rows (Manager.session_id (snd st)) (Manager.db (fst st))
         ++ [message]
  /\ Manager.log (fst st1) = Manager.log (fst st)
  /\ Manager.short_term (snd st1)
     = buffer_after (Manager.short_term (snd st)) m.


(** A vector store with one more document. *)
Definition with_document (vs : option Semantic.VectorStore)
           (doc : Semantic.Document) : Semantic.VectorStore :=
  match vs with
  | None => [doc]
  | Some docs => docs ++ [doc]
  end.

(** The embedding service answers every request. *)
Definition answers (embed_documents : list string -> exc unit) : Prop :=
  forall texts, exists u, embed_documents texts = Ok u.

(** What [retrieve_similar_context] gives for a query: the contents of
    the documents found, nothing without a vector store or when the
    search raises. *)
Definition similar_context
           (similarity_search :
              Semantic.VectorStore -> string -> Z -> exc (list Semantic.Document))
           (sem : Semantic.SemanticMemory) (query : string) : list string :=
  match Semantic.vector_store sem with
  | None => []
  | Some vs =>
      match similarity_search vs query (Semantic.top_k sem) with
      | Ok docs => map Semantic.page_content docs
      | Raise _ => []
      end
  end.

(** [metadata.get(k)] *)
Definition meta_get (k : string) (m : dict) : option string :=
  option_map snd (find (fun e => String.eqb (fst e) k) m).

(** The number of documents that [get_document_count] reports. *)
Definition document_count (self : Semantic.SemanticMemory) : Z :=
  match Semantic.vector_store self with
  | None => 0
  | Some vs => len vs
  end.

(** The metadata that [add_conversation_snippet] stores. *)
Definition snippet_meta (self : Semantic.SemanticMemory) (meta : option dict)
  : dict :=
  match meta with
  | Some (e :: m) => e :: m
  | _ => [("session_id", Semantic.session_id self)]
  end.

(** A snippet whose text is missing or blank. *)
Definition blank_snippet (snippet : Semantic.Snippet) : bool :=
  negb (truthy_str (strip (match Semantic.text snippet with
                           | Some t => t
                           | None => EmptyString
                           end))).

(** The cache after the eviction step for the bound [max]. *)
Definition evicted {V} (max : Z) (c : Service.pydict V) : Service.pydict V :=
  if len c >? max
  then match c with
       | [] => c
       | e :: _ => Service.dict_del (fst e) c
       end
  else c.

(** The cache of a service as its method leaves it: the keys are pairwise
    distinct, there are no more than the bound, and every entry names a
    manager on the heap whose session id is the key. *)
Definition cache_ok (w : Service.World) : Prop :=
  let cache := Service._memory_manager_cache (Service.service w) in
  NoDup (map fst cache)
  /\ len cache <= Service._max_cache_size (Service.service w)
  /\ forall k r,
       In (k, r) cache ->
       exists m, nth_error (Service.heap w) r = Some m
                 /\ Manager.session_id m = k.

(** A memory context with other recent messages. *)
Definition with_recent (ctx : Manager.MemoryContext)
           (recent : list Manager.ChatMessageResponse) : Manager.MemoryContext :=
  {| Manager.ctx_session_id := Manager.ctx_session_id ctx;
     Manager.recent_messages := recent;
     Manager.conversation_summary := Manager.conversation_summary ctx;
     Manager.semantic_context := Manager.semantic_context ctx;
     Manager.ctx_total_messages := Manager.ctx_total_messages ctx;
     Manager.ctx_pdf_ids := Manager.ctx_pdf_ids ctx |}.

(** ** Sample inputs *)

(** A path without the [/] characters at its end. *)
Fixpoint drop_trailing_sep (path : string) : string :=
  match path with
  | EmptyString => EmptyString
  | String c rest =>
      match drop_trailing_sep rest with
      | EmptyString =>
          if Ascii.eqb c "/" then EmptyString else String c EmptyString
      | kept => String c kept
      end
  end.

(** A file system in which a path names the directory that it spells,
    with or without [/] at its end, a directory lies inside another when
    its path goes on after the other's and a [/], and no read or write
    fails. *)
Definition demo_fs : Semantic.FileSystem :=
  {| Semantic.realpath := drop_trailing_sep;
     Semantic.nested := fun a b => String.prefix (b +++ "/") a;
     Semantic.read_error := fun _ => None;
     Semantic.write_error := fun _ => None |}.

(** The same where nothing can be written. *)
Definition read_only_fs : Semantic.FileSystem :=
  {| Semantic.realpath := drop_trailing_sep;
     Semantic.nested := fun a b => String.prefix (b +++ "/") a;
     Semantic.read_error := fun _ => None;
     Semantic.write_error :=
       fun _ => Some (ExternalError "read-only file system") |}.


Definition demo_buffer (k : Z) : ShortTerm.ShortTermMemory :=
  {| ShortTerm.max_tokens_before_summary := 2000;
     ShortTerm.messages_to_keep := k;
     ShortTerm.llm_model := "google/gemini-flash-1.5";
     ShortTerm._messages := [] |}.

Definition demo_calls : list ShortTerm.MsgDict :=
  [ {| ShortTerm.role := "user"; ShortTerm.content := "first" |};
    {| ShortTerm.role := "assistant"; ShortTerm.content := "second" |};
    {| ShortTerm.role := "user"; ShortTerm.content := "third" |} ].

Definition demo_message (sid r c : string) : ChatMessageCreate.t :=
  {| ChatMessageCreate.session_id := sid;
     ChatMessageCreate.role := r;
     ChatMessageCreate.content := c;
     ChatMessageCreate.sources := None;
     ChatMessageCreate.token_count := None |}.

(** A store with the session ["s1"] and three messages of it. *)
Definition demo_db : Db :=
  snd ((s <- LongTerm.get_or_create_session "s1" [1; 2] None 100 ;;
        LongTerm.add_message (demo_message "s1" "user" "first")
                             (ChatSession.id s) 110 ;;;
        LongTerm.add_message (demo_message "s1" "assistant" "second")
                             (ChatSession.id s) 120 ;;;
        LongTerm.add_message (demo_message "s1" "user" "third")
                             (ChatSession.id s) 130) empty_db).

(** The same with one timestamp on the three messages. *)
Definition demo_db_ties : Db :=
  snd ((s <- LongTerm.get_or_create_session "s1" [1; 2] None 100 ;;
        LongTerm.add_message (demo_message "s1" "user" "first")
                             (ChatSession.id s) 110 ;;;
        LongTerm.add_message (demo_message "s1" "assistant" "second")
                             (ChatSession.id s) 110 ;;;
        LongTerm.add_message (demo_message "s1" "user" "third")
                             (ChatSession.id s) 110) empty_db).


(** A model that fails at every call, and one whose answer is too short. *)
Definition failing_llm : ChatModel := fun _ => Raise (ExternalError "timeout").
Definition terse_llm : ChatModel := fun _ => Ok "  yes  ".

Definition demo_full_buffer : ShortTerm.ShortTermMemory :=
  {| ShortTerm.max_tokens_before_summary := 2;
     ShortTerm.messages_to_keep := 10;
     ShortTerm.llm_model := "google/gemini-flash-1.5";
     ShortTerm._messages :=
       [ HumanMessage "first"; AIMessage "second";
         HumanMessage "third"; AIMessage "fourth" ] |}.

(** A tokenizer that, as [tiktoken] does, refuses a text that holds the
    text of a special token, and otherwise gives one token for each
    character. *)
Definition strict_tokenizer : string -> exc (list Z) :=
  fun text =>
    match String.index 0 "<|endoftext|>" text with
    | Some _ => Raise (ValueError "disallowed special token '<|endoftext|>'")
    | None => Ok (map (fun c => Z.of_nat (nat_of_ascii c))
                      (list_ascii_of_string text))
    end.

(** Four buffered messages, the third with the text of a special token. *)
Definition demo_special_buffer : ShortTerm.ShortTermMemory :=
  {| ShortTerm.max_tokens_before_summary := 2;
     ShortTerm.messages_to_keep := 10;
     ShortTerm.llm_model := "google/gemini-flash-1.5";
     ShortTerm._messages :=
       [ HumanMessage "first"; AIMessage "second";
         HumanMessage "what does <|endoftext|> mean?"; AIMessage "fourth" ] |}.

Definition demo_recent : list Manager.ChatMessageResponse :=
  [ {| ChatMessage.id := 1; ChatMessage.session_id := "s1";
       ChatMessage.role := "user";
       ChatMessage.content := "Which certificates are required?";
       ChatMessage.timestamp := 110; ChatMessage.sources := None;
       ChatMessage.token_count := None |} ].

Definition demo_settings : Settings :=
  {| memory_max_tokens := 2;
     memory_buffer_messages := 10;
     memory_summary_trigger := 2;
     semantic_memory_top_k := 5;
     settings_llm_model := "google/gemini-flash-1.5";
     vector_storage_path := "storage/vectors" |}.

(** The store with ["s1"] and four messages of it. *)
Definition demo_db4 : Db :=
  snd (LongTerm.add_message (demo_message "s1" "assistant" "fourth") 1 140
         demo_db).

(** The store with ["s1"], four messages of it and a fifth one with the
    role [system]. *)
Definition demo_db_system : Db :=
  snd (LongTerm.add_message (demo_message "s1" "system" "fifth") 1 150
         demo_db4).

Definition demo_env_system : Manager.Env :=
  {| Manager.db := demo_db_system; Manager.disk := []; Manager.log := [] |}.

Definition demo_env : Manager.Env :=
  {| Manager.db := demo_db4; Manager.disk := []; Manager.log := [] |}.

(** The manager that the constructor builds over that store. *)
Definition demo_manager : Manager.UnifiedMemoryManager :=
  match fst (Manager.__init__ demo_settings Sql.table_order demo_fs "s1" [1; 2] None 200 demo_env) with
  | Ok m => m
  | Raise _ =>
      {| Manager.session_id := "s1"; Manager.pdf_ids := [1; 2];
         Manager.user_id := None;
         Manager.short_term := ShortTerm.__init__ demo_settings None None None;
         Manager.semantic := Semantic.__init__ demo_settings demo_fs "s1" None [];
         Manager.session := 1 |}
  end.

Definition summarizing_llm : ChatModel := fun _ => Ok " A summary. ".

(** The world in which a new service starts. *)
Definition fresh_world : Service.World :=
  {| Service.env := {| Manager.db := empty_db; Manager.disk := [];
                       Manager.log := [] |};
     Service.heap := [];
     Service.service := Service.__init__ |}.

(** The environment over the store with three messages, and the manager
    that the constructor builds over it. *)
Definition demo_env3 : Manager.Env :=
  {| Manager.db := demo_db; Manager.disk := []; Manager.log := [] |}.

Definition demo_manager3 : Manager.UnifiedMemoryManager :=
  match fst (Manager.__init__ demo_settings Sql.table_order demo_fs "s1" [1; 2] None 200 demo_env3) with
  | Ok m => m
  | Raise _ =>
      {| Manager.session_id := "s1"; Manager.pdf_ids := [1; 2];
         Manager.user_id := None;
         Manager.short_term := ShortTerm.__init__ demo_settings None None None;
         Manager.semantic := Semantic.__init__ demo_settings demo_fs "s1" None [];
         Manager.session := 1 |}
  end.

(** The session row of ["s1"] with [n] messages counted at [now]. *)
Definition demo_row (n now : Z) : ChatSession.t :=
  {| ChatSession.id := 1; ChatSession.session_id := "s1";
     ChatSession.pdf_ids := [1; 2]; ChatSession.user_id := None;
     ChatSession.created_at := 100; ChatSession.last_activity := now;
     ChatSession.summary := None; ChatSession.total_messages := n;
     ChatSession.session_metadata := None |}.

Definition failing_embed : list string -> exc unit :=
  fun _ => Raise (ExternalError "embedding service down").

(** A search that raises. *)
Definition failing_search
  : Semantic.VectorStore -> string -> Z -> exc (list Semantic.Document) :=
  fun _ _ _ => Raise (ExternalError "index unavailable").

(** A stored message of ["s1"]. *)
Definition demo_turn (i : Z) (r c : string) : ChatMessage.t :=
  {| ChatMessage.id := i; ChatMessage.session_id := "s1";
     ChatMessage.role := r; ChatMessage.content := c;
     ChatMessage.timestamp := 100 + i; ChatMessage.sources := None;
     ChatMessage.token_count := None |}.

Definition demo_window : list ChatMessage.t :=
  [ demo_turn 2 "assistant" "Section 2 lists them.";
    demo_turn 3 "user" "Which certificates?";
    demo_turn 4 "assistant" "ISO 9001 and ISO 14001.";
    demo_turn 5 "user" "Are they mandatory?";
    demo_turn 6 "assistant" "Yes, both." ].

(** A service with room for one manager that holds the manager of
    ["s1"]. *)
Definition full_world : Service.World :=
  {| Service.env := demo_env;
     Service.heap := [demo_manager];
     Service.service :=
       {| Service._memory_manager_cache := [("s1", 0%nat)];
          Service._max_cache_size := 1 |} |}.

Definition demo_context : Manager.MemoryContext :=
  {| Manager.ctx_session_id := "s1";
     Manager.recent_messages := [];
     Manager.conversation_summary := Some "About certificates.";
     Manager.semantic_context := [];
     Manager.ctx_total_messages := 5;
     Manager.ctx_pdf_ids := [1; 2] |}.

(** ** Lists and slices *)

Lemma len_app {A} (l1 l2 : list A) : len (l1 ++ l2) = len l1 + len l2.
Proof. unfold len. rewrite length_app. lia. Qed.

Lemma slice_from_neg {A} (k : Z) (l : list A) :
  0 < k -> slice_from (- k) l = lastn (Z.to_nat k) l.
Proof.
  intros Hk. unfold slice_from, lastn, len.
  destruct (Z.ltb_spec (- k) 0) as [_ | H]; [| lia].
  f_equal. lia.
Qed.

Lemma length_lastn {A} (n : nat) (l : list A) :
  List.length (lastn n l) = Nat.min n (List.length l).
Proof. unfold lastn. rewrite length_skipn. lia. Qed.

Lemma lastn_skipn {A} (n j : nat) (l : list A) :
  (n + j <= List.length l)%nat -> lastn n (skipn j l) = lastn n l.
Proof.
  intros H. unfold lastn. rewrite skipn_skipn, length_skipn. f_equal. lia.
Qed.

Lemma skipn_snoc {A} (j : nat) (l : list A) (x : A) :
  (j <= List.length l)%nat -> skipn j l ++ [x] = skipn j (l ++ [x]).
Proof.
  intros H. rewrite skipn_app.
  replace (j - List.length l)%nat with 0%nat by lia. reflexivity.
Qed.

Lemma lastn_skipn_app {A} (n j : nat) (l : list A) (x : A) :
  (n <= List.length (skipn j l) + 1)%nat ->
  lastn n (skipn j l ++ [x]) = lastn n (l ++ [x]).
Proof.
  intros Hn.
  destruct (Nat.le_gt_cases j (List.length l)) as [Hj | Hj].
  - rewrite skipn_snoc by assumption. apply lastn_skipn.
    rewrite length_skipn in Hn. rewrite length_app. simpl. lia.
  - rewrite skipn_all2 in Hn |- * by lia. simpl in Hn. simpl.
    assert (E : skipn (List.length l) (l ++ [x]) = [x])
      by (rewrite skipn_app, skipn_all, Nat.sub_diag; reflexivity).
    rewrite <- E at 1.
    apply lastn_skipn. rewrite length_app. simpl. lia.
Qed.

Lemma lastn_is_suffix {A} (n : nat) (l : list A) :
  exists j, lastn n l = skipn j l.
Proof. now exists (List.length l - n)%nat. Qed.

Lemma suffix_snoc {A} (j : nat) (l : list A) (x : A) :
  exists j', skipn j l ++ [x] = skipn j' (l ++ [x]).
Proof.
  destruct (Nat.le_gt_cases j (List.length l)) as [Hj | Hj].
  - exists j. rewrite skipn_app.
    replace (j - List.length l)%nat with 0%nat by lia. reflexivity.
  - exists (List.length l). rewrite skipn_all2 by lia.
    rewrite skipn_app, skipn_all, Nat.sub_diag. reflexivity.
Qed.

(** ** The rolling buffer *)

Lemma for_each_app {S A} (xs ys : list A) (body : A -> M S unit) (s : S) :
  for_each (xs ++ ys) body s =
  match for_each xs body s with
  | (Ok _, s') => for_each ys body s'
  | (Raise e, s') => (Raise e, s')
  end.
Proof.
  revert s. induction xs as [| x xs IH]; intros s; simpl.
  - reflexivity.
  - unfold bind. destruct (body x s) as [[[] | e] s']; [apply IH | reflexivity].
Qed.

Lemma append_by_role_run (r c : string) (self : ShortTerm.ShortTermMemory) :
  ShortTerm.append_by_role r c self =
  match message_of {| ShortTerm.role := r; ShortTerm.content := c |} with
  | [] => (Raise (ShortTerm.invalid_role r), self)
  | ms => (Ok tt, ShortTerm.set_messages self (ShortTerm._messages self ++ ms))
  end.
Proof.
  unfold ShortTerm.append_by_role, message_of. simpl.
  destruct (String.eqb r "user"); [reflexivity |].
  destruct (String.eqb r "assistant"); reflexivity.
Qed.

Lemma message_of_cases (c : ShortTerm.MsgDict) :
  message_of c = [] \/ exists m, message_of c = [m].
Proof.
  unfold message_of.
  destruct (String.eqb (ShortTerm.role c) "user"); [right; eauto |].
  destruct (String.eqb (ShortTerm.role c) "assistant"); [right; eauto | now left].
Qed.

Lemma add_message_run (r c : string) (self : ShortTerm.ShortTermMemory) :
  ShortTerm.add_message r c self =
  match message_of {| ShortTerm.role := r; ShortTerm.content := c |} with
  | [] => (Raise (ShortTerm.invalid_role r), self)
  | ms => (Ok tt,
           ShortTerm.set_messages self
             (trim (ShortTerm.messages_to_keep self)
                   (ShortTerm._messages self ++ ms)))
  end.
Proof.
  unfold ShortTerm.add_message, bind. rewrite append_by_role_run.
  destruct (message_of _) as [| m ms]; [reflexivity |].
  unfold get, put, ret, trim. simpl.
  destruct (len (ShortTerm._messages self ++ m :: ms)
            >? ShortTerm.messages_to_keep self * 2); [reflexivity |].
  destruct self; reflexivity.
Qed.

Lemma trim_within {k : Z} (l : list BaseMessage) :
  0 < k -> len (trim k l) <= 2 * k.
Proof.
  intros Hk. unfold trim.
  destruct (Z.gtb_spec (len l) (k * 2)) as [H | H]; [| lia].
  rewrite slice_from_neg by assumption.
  unfold len. rewrite length_lastn. lia.
Qed.

Lemma add_message_ok (r c : string) (self self' : ShortTerm.ShortTermMemory) :
  ShortTerm.add_message r c self = (Ok tt, self') ->
  exists m,
    message_of {| ShortTerm.role := r; ShortTerm.content := c |} = [m]
    /\ self' = ShortTerm.set_messages self
                 (trim (ShortTerm.messages_to_keep self)
                       (ShortTerm._messages self ++ [m])).
Proof.
  rewrite add_message_run.
  destruct (message_of_cases {| ShortTerm.role := r; ShortTerm.content := c |})
    as [E | [m E]]; rewrite E; intros H; inversion H; eauto.
Qed.

Lemma add_all_snoc (calls : list ShortTerm.MsgDict) (c : ShortTerm.MsgDict)
      (self : ShortTerm.ShortTermMemory) :
  add_all (calls ++ [c]) self =
  match add_all calls self with
  | (Ok _, mid) => ShortTerm.add_message (ShortTerm.role c) (ShortTerm.content c) mid
  | (Raise e, mid) => (Raise e, mid)
  end.
Proof.
  unfold add_all. rewrite for_each_app.
  destruct (for_each calls _ self) as [[[] | e] mid]; [| reflexivity].
  simpl. unfold bind, ret.
  destruct (ShortTerm.add_message _ _ mid) as [[[] | e] s']; reflexivity.
Qed.

Lemma msgdict_eta (c : ShortTerm.MsgDict) :
  {| ShortTerm.role := ShortTerm.role c; ShortTerm.content := ShortTerm.content c |} = c.
Proof. destruct c; reflexivity. Qed.

(** A successful run keeps the buffer a suffix of what has been added. *)
Lemma add_all_suffix (calls : list ShortTerm.MsgDict) :
  forall (self self' : ShortTerm.ShortTermMemory) (pre : list BaseMessage),
    0 < ShortTerm.messages_to_keep self ->
    (exists j, ShortTerm._messages self = skipn j pre) ->
    add_all calls self = (Ok tt, self') ->
    ShortTerm.messages_to_keep self' = ShortTerm.messages_to_keep self
    /\ (exists j, ShortTerm._messages self' = skipn j (pre ++ added calls))
    /\ (within_cap self -> within_cap self')
    /\ (calls <> [] -> within_cap self').
Proof.
  induction calls as [| c calls IH]; intros self self' pre Hk [j Hj] Hrun.
  - simpl in Hrun. inversion Hrun; subst self'.
    rewrite app_nil_r. repeat split; eauto. congruence.
  - unfold add_all in Hrun. simpl in Hrun. unfold bind in Hrun.
    destruct (ShortTerm.add_message _ _ self) as [[[] | e] mid] eqn:Hadd;
      [| discriminate].
    apply add_message_ok in Hadd. destruct Hadd as [m [Hm Hmid]].
    rewrite msgdict_eta in Hm.
    assert (Hkeep : ShortTerm.messages_to_keep mid = ShortTerm.messages_to_keep self)
      by (subst mid; reflexivity).
    assert (Hcap : within_cap mid).
    { unfold within_cap. rewrite Hkeep. subst mid. simpl.
      now apply trim_within. }
    assert (Hsuf : exists j', ShortTerm._messages mid = skipn j' (pre ++ [m])).
    { subst mid. simpl. unfold trim.
      destruct (_ >? _).
      - rewrite slice_from_neg by assumption.
        destruct (lastn_is_suffix (Z.to_nat (ShortTerm.messages_to_keep self))
                    (ShortTerm._messages self ++ [m])) as [a Ha].
        rewrite Ha, Hj.
        destruct (suffix_snoc j pre m) as [b Hb]. rewrite Hb, skipn_skipn. eauto.
      - rewrite Hj. apply suffix_snoc. }
    destruct (IH mid self' (pre ++ [m])) as [K1 [K2 [K3 K4]]];
      [lia | assumption | exact Hrun |].
    simpl. rewrite Hm. rewrite <- app_assoc in K2. simpl in K2.
    repeat split; [congruence | exact K2 | auto | auto].
Qed.

(** C3.  With [messages_to_keep = k > 0], after any sequence of
    successful [add_message] calls (at least one) the buffer holds at most
    [2k] messages, and it is a suffix of what the buffer held before
    followed by the messages added; and when the last call finds the
    appended buffer longer than [2k] (it truncates), the buffer has
    exactly [k] entries, the last [k] of those messages in order: from an
    empty buffer, the last [k] messages added. *)
Theorem add_message_buffer_cap :
  forall (self self' : ShortTerm.ShortTermMemory)
         (calls : list ShortTerm.MsgDict),
    0 < ShortTerm.messages_to_keep self ->
    add_all calls self = (Ok tt, self') ->
    let k := ShortTerm.messages_to_keep self in
    let history := ShortTerm._messages self ++ added calls in
    (calls <> [] \/ within_cap self -> len (ShortTerm._messages self') <= 2 * k)
    /\ (ShortTerm._messages self = [] -> history = added calls)
    /\ (exists j, ShortTerm._messages self' = skipn j history)
    /\ (forall calls0 c mid,
           calls = calls0 ++ [c] ->
           add_all calls0 self = (Ok tt, mid) ->
           len (ShortTerm._messages mid) + 1 > 2 * k ->
           len (ShortTerm._messages self') = k
           /\ ShortTerm._messages self' = lastn (Z.to_nat k) history).
Proof.
  intros self self' calls Hk Hrun k history.
  destruct (add_all_suffix calls self self' (ShortTerm._messages self) Hk)
    as [K1 [K2 [K3 K4]]]; [now exists 0%nat | exact Hrun |].
  split; [| split; [| split]].
  - intros [Hne | Hcap0].
    + specialize (K4 Hne). unfold within_cap in K4. rewrite K1 in K4. exact K4.
    + specialize (K3 Hcap0). unfold within_cap in K3. rewrite K1 in K3. exact K3.
  - intros E. unfold history. now rewrite E.
  - exact K2.
  - intros calls0 c mid Hcalls Hmid Htrig. subst calls.
    rewrite add_all_snoc, Hmid in Hrun.
    destruct (add_all_suffix calls0 self mid (ShortTerm._messages self) Hk)
      as [M1 [[j M2] _]]; [now exists 0%nat | exact Hmid |].
    apply add_message_ok in Hrun. destruct Hrun as [m [Hm Hself']].
    rewrite msgdict_eta in Hm.
    assert (Hadded : history
                     = (ShortTerm._messages self ++ added calls0) ++ [m]).
    { unfold history, added. rewrite flat_map_app. simpl.
      now rewrite Hm, app_nil_r, app_assoc. }
    assert (Hbuf : ShortTerm._messages self' = lastn (Z.to_nat k) history).
    { subst self'. simpl. unfold trim. rewrite M1. fold k.
      rewrite len_app.
      destruct (Z.gtb_spec (len (ShortTerm._messages mid) + len [m]) (k * 2))
        as [_ | Hno]; [| change (len [m]) with 1 in Hno; lia].
      rewrite slice_from_neg by assumption.
      rewrite Hadded, M2. apply lastn_skipn_app.
      rewrite <- M2. unfold len in Htrig. lia. }
    split; [| exact Hbuf].
    rewrite Hbuf. unfold len. rewrite length_lastn, Hadded, length_app.
    simpl. rewrite M2 in Htrig. unfold len in Htrig.
    rewrite length_skipn in Htrig. lia.
Qed.

(** With [k = 1], the third call truncates: one message is left, the last
    one added. *)
Lemma add_message_buffer_cap_witness :
  exists self',
    add_all demo_calls (demo_buffer 1) = (Ok tt, self')
    /\ len (ShortTerm._messages self') = 1
    /\ ShortTerm._messages self' = lastn 1 (added demo_calls).
Proof.
  eexists. split; [reflexivity |].
  destruct (add_message_buffer_cap (demo_buffer 1) _ demo_calls
              ltac:(simpl; lia) eq_refl) as [_ [_ [_ H]]].
  eapply (H (firstn 2 demo_calls));
    [reflexivity | reflexivity | vm_compute; reflexivity].
Defined.

(** [add_message] re-establishes the bound whatever the buffer was. *)
Lemma add_message_within_cap (r c : string) (self self' : ShortTerm.ShortTermMemory) :
  0 < ShortTerm.messages_to_keep self ->
  ShortTerm.add_message r c self = (Ok tt, self') ->
  within_cap self'.
Proof.
  intros Hk H. apply add_message_ok in H. destruct H as [m [_ ->]].
  unfold within_cap. simpl. now apply trim_within.
Qed.

Lemma add_message_raise (r c : string) (self self' : ShortTerm.ShortTermMemory)
      (e : exception) :
  ShortTerm.add_message r c self = (Raise e, self') -> self' = self.
Proof.
  rewrite add_message_run.
  destruct (message_of _); intros H; inversion H; reflexivity.
Qed.

Lemma add_message_keep (r c : string) (self self' : ShortTerm.ShortTermMemory)
      (res : exc unit) :
  ShortTerm.add_message r c self = (res, self') ->
  ShortTerm.messages_to_keep self' = ShortTerm.messages_to_keep self.
Proof.
  rewrite add_message_run.
  destruct (message_of _); intros H; inversion H; reflexivity.
Qed.

(** A run of [add_message] calls, finished or interrupted by a raise,
    leaves a buffer within the bound when it started within it. *)
Lemma add_loop_within_cap (calls : list ShortTerm.MsgDict) :
  forall (self self' : ShortTerm.ShortTermMemory) (res : exc unit),
    0 < ShortTerm.messages_to_keep self ->
    within_cap self ->
    add_all calls self = (res, self') ->
    within_cap self'.
Proof.
  induction calls as [| c calls IH]; intros self self' res Hk Hcap Hrun.
  - inversion Hrun; subst; assumption.
  - unfold add_all in Hrun. simpl in Hrun. unfold bind in Hrun.
    destruct (ShortTerm.add_message _ _ self) as [[[] | e] mid] eqn:Hadd.
    + apply (IH mid self' res).
      * rewrite (add_message_keep _ _ _ _ _ Hadd). assumption.
      * eapply add_message_within_cap; eauto.
      * exact Hrun.
    + inversion Hrun; subst. apply add_message_raise in Hadd. now subst.
Qed.

Lemma load_messages_batch_appends (msgs : list ShortTerm.MsgDict) :
  forall (self self' : ShortTerm.ShortTermMemory),
    ShortTerm.load_messages_batch msgs self = (Ok tt, self') ->
    self' = ShortTerm.set_messages self (ShortTerm._messages self ++ added msgs)
    /\ List.length (added msgs) = List.length msgs.
Proof.
  induction msgs as [| c msgs IH]; intros self self' Hrun.
  - inversion Hrun. simpl. rewrite app_nil_r. destruct self'; auto.
  - unfold ShortTerm.load_messages_batch in Hrun. simpl in Hrun.
    unfold bind in Hrun. rewrite append_by_role_run, msgdict_eta in Hrun.
    destruct (message_of_cases c) as [E | [m E]]; rewrite E in Hrun;
      [discriminate |].
    apply IH in Hrun. destruct Hrun as [-> Hlen]. simpl.
    rewrite E. simpl. rewrite <- app_assoc. simpl. auto.
Qed.

Lemma buffer_get_recent_messages_run (limit : option Z) (self : ShortTerm.ShortTermMemory) :
  ShortTerm.get_recent_messages limit self =
  (Ok (flat_map ShortTerm.format_message
         (match limit with
          | Some n => if truthy_int n
                      then slice_from (- n) (ShortTerm._messages self)
                      else ShortTerm._messages self
          | None => ShortTerm._messages self
          end)), self).
Proof. reflexivity. Qed.

Lemma get_buffer_string_run (self : ShortTerm.ShortTermMemory) :
  ShortTerm.get_buffer_string self = (Ok (buffer_string self), self).
Proof. reflexivity. Qed.

Lemma get_conversation_summary_run (llm : ChatModel)
      (tokenizer_encode : string -> exc (list Z)) (self : ShortTerm.ShortTermMemory) :
  ShortTerm.get_conversation_summary llm tokenizer_encode self =
  (if len (ShortTerm._messages self) <? 4 then Ok EmptyString
   else match tokenizer_encode (buffer_string self) with
        | Raise e => Raise e
        | Ok tokens =>
            if len tokens <? ShortTerm.max_tokens_before_summary self
            then Ok EmptyString
            else Ok (match llm (summary_request self) with
                     | Ok response => strip response
                     | Raise _ => EmptyString
                     end)
        end, self).
Proof.
  unfold ShortTerm.get_conversation_summary, bind, get.
  destruct (len (ShortTerm._messages self) <? 4); [reflexivity |].
  rewrite get_buffer_string_run. unfold lift, ShortTerm.count_tokens.
  destruct (tokenizer_encode _) as [tokens | e]; [| reflexivity].
  destruct (len tokens <? _); [reflexivity |].
  unfold try_except, bind, lift, ret, summary_request.
  destruct (llm _); reflexivity.
Qed.

Lemma short_term_stats_run (tokenizer_encode : string -> exc (list Z))
      (self : ShortTerm.ShortTermMemory) :
  ShortTerm.get_memory_stats tokenizer_encode self
  = (match tokenizer_encode (buffer_string self) with
     | Raise e => Raise e
     | Ok tokens =>
         Ok {| ShortTerm.stats_total_messages := len (ShortTerm._messages self);
               ShortTerm.buffer_tokens := len tokens;
               ShortTerm.max_token_limit :=
                 ShortTerm.max_tokens_before_summary self;
               ShortTerm.exceeds_token_limit :=
                 len tokens >=? ShortTerm.max_tokens_before_summary self |}
     end, self).
Proof.
  unfold ShortTerm.get_memory_stats, bind. rewrite get_buffer_string_run.
  unfold lift, ShortTerm.count_tokens.
  destruct (tokenizer_encode _); reflexivity.
Qed.

Lemma load_from_messages_run (msgs : list ShortTerm.MsgDict)
      (self : ShortTerm.ShortTermMemory) :
  ShortTerm.load_from_messages msgs self
  = add_all msgs (ShortTerm.set_messages self []).
Proof. reflexivity. Qed.

(** C2, as the code has it.  With [messages_to_keep = k > 0]: a
    successful [add_message] leaves the trimmed buffer, at most [2k] long,
    and a failed one leaves the buffer as it was; [clear] and
    [load_from_messages] leave a buffer within the bound; the reading
    operations leave the buffer as it is; [load_messages_batch] makes no
    truncation check: it appends the whole batch, so the bound holds after
    it exactly when the old length plus the batch length is at most
    [2k]. *)
Theorem buffer_cap_by_operation :
  forall (llm : ChatModel) (tokenizer_encode : string -> exc (list Z))
         (self : ShortTerm.ShortTermMemory),
    0 < ShortTerm.messages_to_keep self ->
    let k := ShortTerm.messages_to_keep self in
    (forall r c self',
        ShortTerm.add_message r c self = (Ok tt, self') ->
        within_cap self'
        /\ exists m, ShortTerm._messages self'
                     = trim k (ShortTerm._messages self ++ [m]))
    /\ (forall r c e self',
           ShortTerm.add_message r c self = (Raise e, self') -> self' = self)
    /\ within_cap (snd (ShortTerm.clear self))
    /\ (forall msgs, within_cap (snd (ShortTerm.load_from_messages msgs self)))
    /\ (forall limit, snd (ShortTerm.get_recent_messages limit self) = self)
    /\ snd (ShortTerm.get_buffer_string self) = self
    /\ snd (ShortTerm.get_conversation_summary llm tokenizer_encode self) = self
    /\ snd (ShortTerm.get_memory_stats tokenizer_encode self) = self
    /\ (forall msgs self',
           ShortTerm.load_messages_batch msgs self = (Ok tt, self') ->
           ShortTerm._messages self' = ShortTerm._messages self ++ added msgs
           /\ len (ShortTerm._messages self')
              = len (ShortTerm._messages self) + len msgs
           /\ (within_cap self'
               <-> len (ShortTerm._messages self) + len msgs <= 2 * k)).
Proof.
  intros llm tok self Hk k.
  assert (Hclear : within_cap (ShortTerm.set_messages self [])).
  { unfold within_cap. cbn -[Z.mul len].
    change (len (@nil BaseMessage)) with 0. lia. }
  repeat split.
  - eapply add_message_within_cap; eauto.
  - apply add_message_ok in H. destruct H as [m [_ ->]]. now exists m.
  - intros r c e self'. apply add_message_raise.
  - exact Hclear.
  - intros msgs. rewrite load_from_messages_run.
    destruct (add_all msgs _) as [res self'] eqn:Hrun.
    apply (add_loop_within_cap msgs (ShortTerm.set_messages self []) self' res
             Hk Hclear Hrun).
  - rewrite get_conversation_summary_run. reflexivity.
  - rewrite short_term_stats_run. reflexivity.
  - apply load_messages_batch_appends in H. destruct H as [-> _]. reflexivity.
  - apply load_messages_batch_appends in H. destruct H as [-> Hlen].
    cbn [ShortTerm._messages ShortTerm.set_messages].
    assert (E : len (added msgs) = len msgs) by (unfold len; now rewrite Hlen).
    now rewrite len_app, E.
  - apply load_messages_batch_appends in H. destruct H as [-> Hlen].
    unfold within_cap. cbn [ShortTerm._messages ShortTerm.messages_to_keep
                             ShortTerm.set_messages].
    assert (E : len (added msgs) = len msgs) by (unfold len; now rewrite Hlen).
    rewrite len_app, E. intros H. exact H.
  - apply load_messages_batch_appends in H. destruct H as [-> Hlen].
    unfold within_cap. cbn [ShortTerm._messages ShortTerm.messages_to_keep
                             ShortTerm.set_messages].
    assert (E : len (added msgs) = len msgs) by (unfold len; now rewrite Hlen).
    rewrite len_app, E. intros H. exact H.
Qed.

(** C2 fails at [load_messages_batch]: with [k = 1], loading three
    messages into an empty buffer leaves all three, above the bound [2]. *)
Lemma load_messages_batch_exceeds_cap :
  within_cap (demo_buffer 1)
  /\ exists self',
       ShortTerm.load_messages_batch demo_calls (demo_buffer 1) = (Ok tt, self')
       /\ len (ShortTerm._messages self') = 3
       /\ ~ within_cap self'.
Proof.
  split; [unfold within_cap; vm_compute; discriminate |].
  eexists. split; [reflexivity |].
  split; [reflexivity |].
  unfold within_cap. vm_compute. intros H. apply H. reflexivity.
Qed.

(** At the same buffer the amended statement gives the length [0 + 3] and
    the failure of the bound. *)
Lemma buffer_cap_by_operation_witness :
  let self' := snd (ShortTerm.load_messages_batch demo_calls (demo_buffer 1)) in
  len (ShortTerm._messages self') = 0 + 3
  /\ (within_cap self' <-> 0 + 3 <= 2 * 1).
Proof.
  destruct (buffer_cap_by_operation (fun _ => Ok EmptyString) (fun _ => Ok [])
              (demo_buffer 1) ltac:(simpl; lia))
    as [_ [_ [_ [_ [_ [_ [_ [_ K]]]]]]]].
  destruct (K demo_calls _ eq_refl) as [_ [K1 K2]]. split; assumption.
Defined.

(** ** Ordered queries *)

Section OrderBy.

Context {A : Type}.

Lemma insert_asc_perm (key tie : A -> Z) (x : A) (l : list A) :
  Permutation (Sql.insert_asc key tie x l) (x :: l).
Proof.
  induction l as [| y l IH]; simpl; [reflexivity |].
  destruct (Sql.precedes key tie x y); [reflexivity |].
  rewrite IH. apply perm_swap.
Qed.

Lemma order_by_perm (key tie : A -> Z) (l : list A) :
  Permutation (Sql.order_by key tie l) l.
Proof.
  induction l as [| x l IH]; simpl; [reflexivity |].
  rewrite insert_asc_perm. now constructor.
Qed.

Lemma order_by_desc_perm (key tie : A -> Z) (l : list A) :
  Permutation (Sql.order_by_desc key tie l) l.
Proof. apply order_by_perm. Qed.

Lemma precedes_le (key tie : A -> Z) (x y : A) :
  Sql.precedes key tie x y = true -> key x <= key y.
Proof.
  unfold Sql.precedes. intros H. apply orb_true_iff in H.
  destruct H as [H | H]; [lia |].
  apply andb_true_iff in H. lia.
Qed.

Lemma precedes_ge (key tie : A -> Z) (x y : A) :
  Sql.precedes key tie x y = false -> key y <= key x.
Proof.
  unfold Sql.precedes. intros H. apply orb_false_iff in H. lia.
Qed.

Lemma insert_asc_sorted (key tie : A -> Z) (x : A) (l : list A) :
  StronglySorted (key_le key) l ->
  StronglySorted (key_le key) (Sql.insert_asc key tie x l).
Proof.
  induction 1 as [| y l Hs IH Hy]; simpl.
  - repeat constructor.
  - destruct (Sql.precedes key tie x y) eqn:E.
    + apply precedes_le in E.
      constructor; [now constructor |].
      constructor; [exact E |].
      eapply Forall_impl; [| exact Hy]. unfold key_le. intros; lia.
    + apply precedes_ge in E.
      constructor; [exact IH |].
      eapply Permutation_Forall; [symmetry; apply insert_asc_perm |].
      constructor; [exact E | exact Hy].
Qed.

Lemma order_by_sorted (key tie : A -> Z) (l : list A) :
  StronglySorted (key_le key) (Sql.order_by key tie l).
Proof.
  induction l; simpl; [constructor | now apply insert_asc_sorted].
Qed.

Lemma sorted_impl (R R' : A -> A -> Prop) (l : list A) :
  (forall a b, R a b -> R' a b) ->
  StronglySorted R l -> StronglySorted R' l.
Proof.
  intros H. induction 1 as [| x l Hs IH Hx]; constructor; [exact IH |].
  eapply Forall_impl; [| exact Hx]. intros b. apply H.
Qed.

Lemma order_by_desc_sorted (key tie : A -> Z) (l : list A) :
  StronglySorted (key_ge key) (Sql.order_by_desc key tie l).
Proof.
  apply (sorted_impl (key_le (fun row => - key row))).
  - unfold key_le, key_ge. intros; lia.
  - apply order_by_sorted.
Qed.

(** With pairwise distinct keys the order is strict. *)
Lemma sorted_strict (key : A -> Z) (l : list A) :
  NoDup (map key l) -> StronglySorted (key_le key) l -> StronglySorted (key_lt key) l.
Proof.
  induction l as [| x l IH]; intros Hnd Hs; [constructor |].
  simpl in Hnd. inversion Hnd as [| ? ? Hnotin Hnd']; subst.
  apply StronglySorted_inv in Hs. destruct Hs as [Hs Hx].
  constructor; [auto |].
  rewrite Forall_forall in *. intros y Hy.
  specialize (Hx y Hy). unfold key_le, key_lt in *.
  assert (key x <> key y).
  { intros E. apply Hnotin. rewrite E. now apply in_map. }
  lia.
Qed.

Lemma sorted_snoc (R : A -> A -> Prop) (l : list A) (x : A) :
  StronglySorted R l -> Forall (fun y => R y x) l ->
  StronglySorted R (l ++ [x]).
Proof.
  induction 1 as [| y l Hs IH Hy]; intros Hall; simpl.
  - repeat constructor.
  - inversion Hall; subst. constructor; [auto |].
    apply Forall_app. split; [assumption | now constructor].
Qed.

Lemma sorted_rev (R : A -> A -> Prop) (l : list A) :
  StronglySorted R l -> StronglySorted (fun a b => R b a) (rev l).
Proof.
  induction 1 as [| y l Hs IH Hy]; simpl; [constructor |].
  apply sorted_snoc; [exact IH |].
  apply Forall_rev. exact Hy.
Qed.

Lemma sorted_firstn (R : A -> A -> Prop) (n : nat) (l : list A) :
  StronglySorted R l -> StronglySorted R (firstn n l).
Proof.
  revert l. induction n as [| n IH]; intros l Hs; [constructor |].
  destruct l as [| x l]; [constructor |].
  apply StronglySorted_inv in Hs. destruct Hs as [Hs Hx].
  simpl. constructor; [now apply IH |].
  rewrite Forall_forall in *. intros y Hy. apply Hx.
  rewrite <- (firstn_skipn n l). apply in_or_app. now left.
Qed.

Lemma sorted_skipn (R : A -> A -> Prop) (n : nat) (l : list A) :
  StronglySorted R l -> StronglySorted R (skipn n l).
Proof.
  revert l. induction n as [| n IH]; intros l Hs; [exact Hs |].
  destruct l as [| x l]; [constructor |].
  simpl. apply IH. now apply StronglySorted_inv in Hs.
Qed.

(** Two strictly ordered lists with the same rows are the same list. *)
Lemma sorted_strict_unique (key : A -> Z) (l1 : list A) :
  forall l2, StronglySorted (key_lt key) l1 -> StronglySorted (key_lt key) l2 ->
             Permutation l1 l2 -> l1 = l2.
Proof.
  induction l1 as [| a l1 IH]; intros l2 H1 H2 Hp.
  - apply Permutation_nil in Hp. now subst.
  - destruct l2 as [| b l2];
      [symmetry in Hp; now apply Permutation_nil in Hp |].
    apply StronglySorted_inv in H1. destruct H1 as [H1 Ha].
    apply StronglySorted_inv in H2. destruct H2 as [H2 Hb].
    rewrite Forall_forall in Ha, Hb.
    assert (Hab : a = b).
    { assert (Ia : In a (b :: l2))
        by (eapply Permutation_in; [exact Hp | now left]).
      assert (Ib : In b (a :: l1))
        by (eapply Permutation_in; [symmetry; exact Hp | now left]).
      destruct Ia as [E | Ia]; [now symmetry |].
      destruct Ib as [E | Ib]; [assumption |].
      specialize (Ha b Ib). specialize (Hb a Ia).
      unfold key_lt in *. lia. }
    subst b. f_equal. apply IH; auto.
    now apply Permutation_cons_inv in Hp.
Qed.

(** With pairwise distinct keys the database has no choice. *)
Lemma sorted_perm_unique (key : A -> Z) (l l1 l2 : list A) :
  NoDup (map key l) ->
  Permutation l1 l -> Permutation l2 l ->
  StronglySorted (key_le key) l1 -> StronglySorted (key_le key) l2 ->
  l1 = l2.
Proof.
  intros Hnd H1 H2 S1 S2.
  apply (sorted_strict_unique key).
  - apply sorted_strict; [| exact S1].
    eapply Permutation_NoDup; [| exact Hnd].
    apply Permutation_map. now symmetry.
  - apply sorted_strict; [| exact S2].
    eapply Permutation_NoDup; [| exact Hnd].
    apply Permutation_map. now symmetry.
  - rewrite H1. now symmetry.
Qed.

Lemma order_by_unique (key tie tie' : A -> Z) (l : list A) :
  NoDup (map key l) ->
  Sql.order_by key tie l = Sql.order_by key tie' l.
Proof.
  intros Hnd.
  apply (sorted_perm_unique key l _ _ Hnd);
    auto using order_by_perm, order_by_sorted.
Qed.

Lemma order_by_desc_is_rev (key tie tie' : A -> Z) (l : list A) :
  NoDup (map key l) ->
  Sql.order_by_desc key tie l = rev (Sql.order_by key tie' l).
Proof.
  intros Hnd.
  rewrite <- (rev_involutive (Sql.order_by_desc key tie l)). f_equal.
  apply (sorted_perm_unique key l _ _ Hnd).
  - rewrite <- Permutation_rev. apply order_by_desc_perm.
  - apply order_by_perm.
  - apply (sorted_rev (key_ge key)). apply order_by_desc_sorted.
  - apply order_by_sorted.
Qed.

End OrderBy.

(** ** The message store *)

Lemma get_messages_all (engine : Sql.Engine) (sid : string) (db : Db) :
  LongTerm.get_messages engine sid None 0 db
  = (Ok (Sql.order_by ChatMessage.timestamp
           (tie_of engine ChatMessage.id (LongTerm.messages_of sid false) db)
           (session_rows sid db)), db).
Proof. reflexivity. Qed.

Lemma store_get_recent_messages_run (engine : Sql.Engine) (sid : string)
      (limit : Z) (db : Db) :
  0 <= limit ->
  LongTerm.get_recent_messages engine sid limit db
  = (Ok (rev (firstn (Z.to_nat limit)
                (Sql.order_by_desc ChatMessage.timestamp
                   (tie_of engine ChatMessage.id
                      (Sql.set_limit limit (LongTerm.messages_of sid true)) db)
                   (session_rows sid db)))),
     db).
Proof.
  intros H. unfold LongTerm.get_recent_messages, bind, Sql.all.
  cbn [Sql.set_limit Sql.limit_ Sql.offset_ Sql.descending Sql.where_
       Sql.order_key LongTerm.messages_of and_then].
  unfold Sql.limit. destruct (Z.ltb_spec limit 0); [lia | reflexivity].
Qed.

Lemma get_recent_messages_rows (engine : Sql.Engine) (sid : string)
      (limit : Z) (db : Db) :
  0 <= limit ->
  LongTerm.get_recent_messages engine sid limit db
  = (Ok (recent_rows engine sid limit db), db).
Proof. apply store_get_recent_messages_run. Qed.

(** C5, as the code has it.  For a positive limit, [get_recent_messages]
    returns [min(limit, total)] messages of the session in non-decreasing
    timestamp order, and they are the suffix of that length of a
    chronological order of the session's messages.  When the timestamps of
    the session's messages are pairwise distinct there is one such order,
    and the result is the suffix of the session's history as
    [get_messages] without limit returns it. *)
Theorem get_recent_messages_suffix_of_history :
  forall (engine : Sql.Engine) (db : Db) (sid : string) (limit : Z),
    0 < limit ->
    exists history recent,
      LongTerm.get_messages engine sid None 0 db = (Ok history, db)
      /\ Permutation history (session_rows sid db)
      /\ StronglySorted (key_le ChatMessage.timestamp) history
      /\ LongTerm.get_recent_messages engine sid limit db = (Ok recent, db)
      /\ StronglySorted (key_le ChatMessage.timestamp) recent
      /\ len recent = Z.min limit (len history)
      /\ (exists chronological,
             Permutation chronological (session_rows sid db)
             /\ StronglySorted (key_le ChatMessage.timestamp) chronological
             /\ recent = lastn (Z.to_nat (Z.min limit (len history)))
                           chronological)
      /\ (NoDup (map ChatMessage.timestamp (session_rows sid db)) ->
          recent = lastn (Z.to_nat (Z.min limit (len history))) history).
Proof.
  intros engine db sid limit Hlimit.
  eexists. eexists. split; [apply get_messages_all |].
  split; [apply order_by_perm |].
  split; [apply order_by_sorted |].
  split; [apply store_get_recent_messages_run; lia |].
  set (history := Sql.order_by ChatMessage.timestamp _ (session_rows sid db)).
  set (newest := Sql.order_by_desc ChatMessage.timestamp _ (session_rows sid db)).
  assert (Hlen : List.length newest = List.length history).
  { apply Permutation_length. unfold newest, history.
    rewrite order_by_desc_perm. symmetry. apply order_by_perm. }
  split; [| split; [| split]].
  - apply (sorted_rev (key_ge ChatMessage.timestamp)).
    apply sorted_firstn. apply order_by_desc_sorted.
  - unfold len. rewrite length_rev, length_firstn, Hlen. lia.
  - exists (rev newest). split; [| split].
    + rewrite <- Permutation_rev. apply order_by_desc_perm.
    + apply (sorted_rev (key_ge ChatMessage.timestamp)).
      apply order_by_desc_sorted.
    + unfold lastn, len. rewrite <- (rev_involutive newest) at 1.
      rewrite firstn_rev, rev_involutive. rewrite !length_rev, Hlen.
      f_equal. lia.
  - intros Hnd. unfold newest.
    rewrite (order_by_desc_is_rev _ _
               (tie_of engine ChatMessage.id (LongTerm.messages_of sid false) db))
      by assumption.
    fold history.
    rewrite firstn_rev, rev_involutive. unfold lastn, len. f_equal. lia.
Qed.

Lemma demo_db_timestamps :
  NoDup (map ChatMessage.timestamp (session_rows "s1" demo_db)).
Proof.
  vm_compute. repeat constructor; simpl; intuition discriminate.
Qed.

(** C5 fails when timestamps are equal.  The three messages of ["s1"] in
    [demo_db_ties] carry one timestamp, and the database leaves rows with
    equal keys in table order: the history is the three messages as
    stored, and the two most recent ones come as the second and the
    first, which is not the end of the history. *)
Lemma get_recent_messages_ties_not_suffix :
  exists a b c,
    session_rows "s1" demo_db_ties = [a; b; c]
    /\ LongTerm.get_messages Sql.table_order "s1" None 0 demo_db_ties
       = (Ok [a; b; c], demo_db_ties)
    /\ LongTerm.get_recent_messages Sql.table_order "s1" 2 demo_db_ties
       = (Ok [b; a], demo_db_ties)
    /\ [b; a] <> lastn (Z.to_nat (Z.min 2 (len [a; b; c]))) [a; b; c].
Proof.
  eexists. eexists. eexists.
  split; [vm_compute; reflexivity |].
  split; [vm_compute; reflexivity |].
  split; [vm_compute; reflexivity |].
  vm_compute. discriminate.
Qed.

(** The most recent two of the three messages of ["s1"], whose timestamps
    are distinct. *)
Lemma get_recent_messages_suffix_of_history_witness :
  exists history recent,
    LongTerm.get_messages Sql.table_order "s1" None 0 demo_db
    = (Ok history, demo_db)
    /\ LongTerm.get_recent_messages Sql.table_order "s1" 2 demo_db
       = (Ok recent, demo_db)
    /\ len recent = Z.min 2 (len history)
    /\ recent = lastn (Z.to_nat (Z.min 2 (len history))) history.
Proof.
  destruct (get_recent_messages_suffix_of_history Sql.table_order demo_db "s1" 2
              ltac:(lia))
    as [history [recent [H1 [_ [_ [H2 [_ [H3 [_ H4]]]]]]]]].
  exists history, recent. split; [exact H1 |]. split; [exact H2 |].
  split; [exact H3 | exact (H4 demo_db_timestamps)].
Defined.

(** C10.  A limit of [0] is not a limit: the buffer's
    [get_recent_messages] returns every buffered message, as without a
    limit, and the store's [get_messages] returns what it returns without
    a limit, which at offset [0] is every message of the session ordered
    by timestamp. *)
Theorem limit_zero_is_no_limit :
  forall (engine : Sql.Engine) (self : ShortTerm.ShortTermMemory) (db : Db)
         (sid : string) (offset : Z),
    ShortTerm.get_recent_messages (Some 0) self
    = ShortTerm.get_recent_messages None self
    /\ (exists all,
           ShortTerm.get_recent_messages (Some 0) self = (Ok all, self)
           /\ all = flat_map ShortTerm.format_message (ShortTerm._messages self)
           /\ (forall c, In (HumanMessage c) (ShortTerm._messages self) ->
                         In {| ShortTerm.role := "user"; ShortTerm.content := c |}
                            all)
           /\ (forall c, In (AIMessage c) (ShortTerm._messages self) ->
                         In {| ShortTerm.role := "assistant";
                               ShortTerm.content := c |} all))
    /\ LongTerm.get_messages engine sid (Some 0) offset db
       = LongTerm.get_messages engine sid None offset db
    /\ (exists history,
           LongTerm.get_messages engine sid (Some 0) 0 db = (Ok history, db)
           /\ Permutation history (session_rows sid db)
           /\ StronglySorted (key_le ChatMessage.timestamp) history).
Proof.
  intros engine self db sid offset.
  split; [reflexivity |]. split; [| split; [reflexivity |]].
  - eexists. split; [reflexivity |]. split; [reflexivity |].
    split; intros c Hc; apply in_flat_map; eexists; (split; [exact Hc |]);
      now left.
  - eexists. split; [reflexivity |].
    split; [apply order_by_perm | apply order_by_sorted].
Qed.

(** *** Sessions *)

Lemma session_has_id_eq (sid : string) (s : ChatSession.t) :
  Sql.session_has_id sid s = true <-> ChatSession.session_id s = sid.
Proof. unfold Sql.session_has_id. apply String.eqb_eq. Qed.

Lemma find_app_none {A} (f : A -> bool) (l l' : list A) :
  find f l = None -> find f (l ++ l') = find f l'.
Proof.
  induction l as [| x l IH]; simpl; [reflexivity |].
  destruct (f x); [discriminate | exact IH].
Qed.

Lemma find_none_existsb {A} (f : A -> bool) (l : list A) :
  find f l = None <-> existsb f l = false.
Proof.
  induction l as [| x l IH]; simpl; [tauto |].
  destruct (f x); simpl; [split; discriminate | exact IH].
Qed.

Lemma unique_session_ids_snoc (l : list ChatSession.t) (row : ChatSession.t) :
  Sql.unique_session_ids l = true ->
  find (Sql.session_has_id (ChatSession.session_id row)) l = None ->
  Sql.unique_session_ids (l ++ [row]) = true.
Proof.
  induction l as [| s l IH]; simpl; intros Hu Hf; [reflexivity |].
  apply andb_true_iff in Hu. destruct Hu as [Hs Hu].
  destruct (Sql.session_has_id (ChatSession.session_id row) s) eqn:E;
    [discriminate |].
  rewrite existsb_app, IH by assumption. simpl.
  apply negb_true_iff in Hs. rewrite Hs. simpl.
  unfold Sql.session_has_id in *. rewrite String.eqb_sym, E. reflexivity.
Qed.

Lemma foreign_keys_more_sessions (ss ss' : list ChatSession.t)
      (ms : list ChatMessage.t) :
  Sql.foreign_keys_hold {| chat_sessions := ss; chat_messages := ms |} = true ->
  Sql.foreign_keys_hold {| chat_sessions := ss ++ ss'; chat_messages := ms |}
  = true.
Proof.
  unfold Sql.foreign_keys_hold. simpl. rewrite !forallb_forall.
  intros H m Hm. rewrite existsb_app, (H m Hm). reflexivity.
Qed.

Lemma get_or_create_session_absent (db : Db) (sid : string) (pdfs : list Z)
      (uid : option string) (now : Z) :
  Sql.constraints_hold (pending db) = true ->
  find (Sql.session_has_id sid) (chat_sessions (pending db)) = None ->
  LongTerm.get_or_create_session sid pdfs uid now db
  = (Ok (new_session_row db sid pdfs uid now),
     with_new_session db (new_session_row db sid pdfs uid now)).
Proof.
  intros Hc Hf. destruct db as [cm [ss ms] sseq mseq]. simpl in Hc, Hf.
  unfold LongTerm.get_or_create_session, LongTerm.get_session, bind, gets.
  simpl. rewrite Hf.
  unfold LongTerm.create_session, bind, Sql.add_session, Sql.commit. simpl.
  unfold Sql.constraints_hold in *. simpl in *.
  apply andb_true_iff in Hc. destruct Hc as [Hu Hk].
  rewrite unique_session_ids_snoc by assumption.
  rewrite foreign_keys_more_sessions by assumption. reflexivity.
Qed.

Lemma get_or_create_session_present (db : Db) (sid : string) (pdfs : list Z)
      (uid : option string) (now : Z) (s : ChatSession.t) :
  find (Sql.session_has_id sid) (chat_sessions (pending db)) = Some s ->
  LongTerm.get_or_create_session sid pdfs uid now db = (Ok s, db).
Proof.
  intros Hf.
  unfold LongTerm.get_or_create_session, LongTerm.get_session, bind, gets.
  now rewrite Hf.
Qed.

(** C9.  On a store that satisfies its constraints,
    [get_or_create_session] returns a session of the given id; when none
    existed it is a new row with the counter at zero and the given
    documents, committed to the store; when one existed it is that row and
    the store is unchanged; and a second call, whatever documents, user and
    time it is given, returns the same row and leaves the store as it
    is. *)
Theorem get_or_create_session_idempotent :
  forall (db : Db) (sid : string) (pdfs pdfs' : list Z)
         (uid uid' : option string) (now now' : Z),
    Sql.constraints_hold (pending db) = true ->
    exists s db1,
      LongTerm.get_or_create_session sid pdfs uid now db = (Ok s, db1)
      /\ ChatSession.session_id s = sid
      /\ (LongTerm.get_session sid db = (Ok None, db) ->
          ChatSession.total_messages s = 0
          /\ ChatSession.pdf_ids s = pdfs
          /\ ChatSession.user_id s = uid
          /\ In s (chat_sessions (committed db1)))
      /\ (forall s0, LongTerm.get_session sid db = (Ok (Some s0), db) ->
                     s = s0 /\ db1 = db)
      /\ LongTerm.get_or_create_session sid pdfs' uid' now' db1 = (Ok s, db1).
Proof.
  intros db sid pdfs pdfs' uid uid' now now' Hc.
  destruct (find (Sql.session_has_id sid) (chat_sessions (pending db)))
    as [s0 |] eqn:Hf.
  - exists s0, db.
    assert (Hagain : forall p u n,
               LongTerm.get_or_create_session sid p u n db = (Ok s0, db))
      by (intros; now apply get_or_create_session_present).
    split; [apply Hagain |].
    split; [apply find_some in Hf; now apply session_has_id_eq |].
    split.
    { unfold LongTerm.get_session, gets. rewrite Hf. discriminate. }
    split.
    { unfold LongTerm.get_session, gets. rewrite Hf.
      intros s1 H. inversion H. auto. }
    apply Hagain.
  - set (row := new_session_row db sid pdfs uid now).
    exists row, (with_new_session db row).
    assert (Hagain : LongTerm.get_or_create_session sid pdfs' uid' now'
                       (with_new_session db row)
                     = (Ok row, with_new_session db row)).
    { apply get_or_create_session_present. simpl.
      rewrite find_app_none by assumption. simpl.
      unfold Sql.session_has_id. simpl. now rewrite String.eqb_refl. }
    split; [now apply get_or_create_session_absent |].
    split; [reflexivity |].
    split.
    { intros _. repeat split. simpl. apply in_or_app. right. now left. }
    split.
    { unfold LongTerm.get_session, gets. rewrite Hf. discriminate. }
    exact Hagain.
Qed.

(** On the empty store: the session is created with the documents [1, 2],
    and a second call that asks for the document [3] returns it as it
    is. *)
Lemma get_or_create_session_idempotent_witness :
  exists s db1,
    LongTerm.get_or_create_session "s1" [1; 2] None 100 empty_db = (Ok s, db1)
    /\ ChatSession.pdf_ids s = [1; 2]
    /\ LongTerm.get_or_create_session "s1" [3] (Some "u") 200 db1 = (Ok s, db1).
Proof.
  destruct (get_or_create_session_idempotent empty_db "s1" [1; 2] [3]
              None (Some "u") 100 200 eq_refl)
    as [s [db1 [H1 [_ [H3 [_ H5]]]]]].
  exists s, db1. split; [exact H1 |]. split; [| exact H5].
  apply H3. reflexivity.
Defined.

(** *** Messages and the counter *)

Lemma add_message_run_store (data : ChatMessageCreate.t) (pk now : Z) (db : Db) :
  LongTerm.add_message data pk now db =
  match find (fun s => ChatSession.id s =? pk) (chat_sessions (pending db)) with
  | None =>
      (Raise (InvalidRequestError "instance is not persistent"),
       {| committed := committed db;
          pending := {| chat_sessions := chat_sessions (pending db);
                        chat_messages := chat_messages (pending db)
                                           ++ [new_message_row db data now] |};
          session_seq := session_seq db;
          message_seq := message_seq db + 1 |})
  | Some _ =>
      if Sql.constraints_hold (with_new_message db data pk now)
      then (Ok (new_message_row db data now),
            {| committed := with_new_message db data pk now;
               pending := with_new_message db data pk now;
               session_seq := session_seq db;
               message_seq := message_seq db + 1 |})
      else (Raise (IntegrityError "constraint violated"),
            {| committed := committed db;
               pending := committed db;
               session_seq := session_seq db;
               message_seq := message_seq db + 1 |})
  end.
Proof.
  destruct db as [cm [ss ms] sseq mseq].
  unfold LongTerm.add_message, bind, Sql.add_message_row, Sql.deref. simpl.
  destruct (find _ ss); [| reflexivity].
  unfold Sql.update_row, modify, Sql.commit, Sql.with_pending,
    with_new_message, new_message_row. simpl.
  destruct (Sql.constraints_hold _); reflexivity.
Qed.

Lemma bump_session_id (pk now : Z) (s : ChatSession.t) :
  ChatSession.session_id (bump pk now s) = ChatSession.session_id s.
Proof. unfold bump. destruct (_ =? _); reflexivity. Qed.

Lemma bump_id (pk now : Z) (s : ChatSession.t) :
  ChatSession.id (bump pk now s) = ChatSession.id s.
Proof. unfold bump. destruct (_ =? _); reflexivity. Qed.

(** A search that looks only at what [g] keeps finds the image of the row
    it found before. *)
Lemma find_map_stable {A} (f : A -> bool) (g : A -> A) (l : list A) :
  (forall x, f (g x) = f x) ->
  find f (map g l) = option_map g (find f l).
Proof.
  intros Hg. induction l as [| x l IH]; simpl; [reflexivity |].
  rewrite Hg. destruct (f x); [reflexivity | exact IH].
Qed.

Lemma existsb_map_stable {A} (f : A -> bool) (g : A -> A) (l : list A) :
  (forall x, f (g x) = f x) -> existsb f (map g l) = existsb f l.
Proof.
  intros Hg. induction l as [| x l IH]; simpl; [reflexivity |].
  now rewrite Hg, IH.
Qed.

Lemma has_id_bump (pk now : Z) (sid : string) (s : ChatSession.t) :
  Sql.session_has_id sid (bump pk now s) = Sql.session_has_id sid s.
Proof. unfold Sql.session_has_id. now rewrite bump_session_id. Qed.

Lemma unique_session_ids_bump (pk now : Z) (l : list ChatSession.t) :
  Sql.unique_session_ids (map (bump pk now) l) = Sql.unique_session_ids l.
Proof.
  induction l as [| s l IH]; simpl; [reflexivity |].
  rewrite IH, bump_session_id, existsb_map_stable; [reflexivity |].
  intros x. apply has_id_bump.
Qed.

Lemma constraints_with_new_message (db : Db) (data : ChatMessageCreate.t)
      (pk now : Z) :
  Sql.constraints_hold (pending db) = true ->
  existsb (Sql.session_has_id (ChatMessageCreate.session_id data))
          (chat_sessions (pending db)) = true ->
  Sql.constraints_hold (with_new_message db data pk now) = true.
Proof.
  unfold Sql.constraints_hold, with_new_message, Sql.foreign_keys_hold.
  simpl. intros Hc He. apply andb_true_iff in Hc. destruct Hc as [Hu Hk].
  fold (bump pk now). rewrite unique_session_ids_bump, Hu. simpl.
  rewrite forallb_app. simpl.
  rewrite (existsb_map_stable _ (bump pk now)) by (intros; apply has_id_bump).
  rewrite He. rewrite andb_true_r.
  rewrite forallb_forall in *. intros m Hm.
  rewrite (existsb_map_stable _ (bump pk now)) by (intros; apply has_id_bump).
  now apply Hk.
Qed.

Lemma find_some_existsb {A} (f : A -> bool) (l : list A) (x : A) :
  find f l = Some x -> existsb f l = true.
Proof.
  intros H. destruct (existsb f l) eqn:E; [reflexivity |].
  apply find_none_existsb in E. congruence.
Qed.

(** One [add_message] for the session [sid] through its object [pk]. *)
Lemma add_message_counts (db : Db) (data : ChatMessageCreate.t) (pk now : Z)
      (sid : string) (s : ChatSession.t) :
  Sql.constraints_hold (pending db) = true ->
  find (fun r => ChatSession.id r =? pk) (chat_sessions (pending db)) = Some s ->
  find (Sql.session_has_id sid) (chat_sessions (pending db)) = Some s ->
  ChatMessageCreate.session_id data = sid ->
  exists db',
    LongTerm.add_message data pk now db = (Ok (new_message_row db data now), db')
    /\ committed db' = pending db'
    /\ Sql.constraints_hold (pending db') = true
    /\ find (fun r => ChatSession.id r =? pk) (chat_sessions (pending db'))
       = Some (LongTerm.count_message now s)
    /\ find (Sql.session_has_id sid) (chat_sessions (pending db'))
       = Some (LongTerm.count_message now s)
    /\ session_rows sid db' = session_rows sid db ++ [new_message_row db data now].
Proof.
  intros Hc Hpk Hsid Hdata.
  assert (Hid : (ChatSession.id s =? pk) = true)
    by (apply find_some in Hpk; tauto).
  assert (Hcons : Sql.constraints_hold (with_new_message db data pk now) = true).
  { apply constraints_with_new_message; [assumption |].
    rewrite Hdata. eapply find_some_existsb; eauto. }
  eexists. rewrite add_message_run_store, Hpk, Hcons.
  split; [reflexivity |]. simpl.
  split; [reflexivity |]. split; [assumption |].
  fold (bump pk now).
  assert (Hbump : bump pk now s = LongTerm.count_message now s)
    by (unfold bump; now rewrite Hid).
  split; [| split].
  - rewrite find_map_stable, Hpk; [simpl; now rewrite Hbump |].
    intros x. now rewrite bump_id.
  - rewrite find_map_stable, Hsid; [simpl; now rewrite Hbump |].
    intros x. apply has_id_bump.
  - unfold session_rows. simpl. rewrite filter_app. simpl.
    unfold Sql.message_of_session at 2. simpl.
    rewrite Hdata, String.eqb_refl. reflexivity.
Qed.



(** No session, no messages: the foreign key. *)
Lemma no_session_no_rows (db : Db) (sid : string) :
  Sql.constraints_hold (pending db) = true ->
  find (Sql.session_has_id sid) (chat_sessions (pending db)) = None ->
  session_rows sid db = [].
Proof.
  unfold Sql.constraints_hold, Sql.foreign_keys_hold, session_rows.
  intros Hc Hf. apply andb_true_iff in Hc. destruct Hc as [_ Hk].
  rewrite forallb_forall in Hk. apply find_none_existsb in Hf.
  induction (chat_messages (pending db)) as [| m ms IH]; [reflexivity |].
  simpl. destruct (Sql.message_of_session sid m) eqn:E.
  - unfold Sql.message_of_session in E. apply String.eqb_eq in E.
    specialize (Hk m (or_introl eq_refl)). rewrite E in Hk. congruence.
  - apply IH. intros x Hx. apply Hk. now right.
Qed.



(** ** Summaries and reformulation *)

(** C7, as the code has it.  [get_conversation_summary] leaves the buffer
    as it is.  It returns the empty string when fewer than 4 messages are
    buffered.  With 4 or more it counts the tokens of the buffer string
    before its [try]: an exception of the tokenizer is raised to the
    caller.  When the tokenizer answers, it returns the empty string if the
    token count is below [max_tokens_before_summary]; otherwise it returns
    the stripped output of the model, or the empty string when the call of
    the model raises.  So a failure of the model is never raised, and
    nothing is raised when the tokenizer answers. *)
Theorem get_conversation_summary_cases :
  forall (llm : ChatModel) (tokenizer_encode : string -> exc (list Z))
         (self : ShortTerm.ShortTermMemory),
  exists text result,
    ShortTerm.get_buffer_string self = (Ok text, self)
    /\ ShortTerm.get_conversation_summary llm tokenizer_encode self
       = (result, self)
    /\ (len (ShortTerm._messages self) < 4 -> result = Ok EmptyString)
    /\ (4 <= len (ShortTerm._messages self) ->
        (forall e, tokenizer_encode text = Raise e -> result = Raise e)
        /\ (forall tokens,
               tokenizer_encode text = Ok tokens ->
               ShortTerm.count_tokens tokenizer_encode text = Ok (len tokens)
               /\ (len tokens < ShortTerm.max_tokens_before_summary self ->
                   result = Ok EmptyString)
               /\ (ShortTerm.max_tokens_before_summary self <= len tokens ->
                   let request :=
                     [ SystemMessage ShortTerm.summarizer_prompt;
                       HumanMessage ("Summarize this conversation:" +++ nl
                                       +++ nl +++ text) ] in
                   (forall response,
                       llm request = Ok response ->
                       result = Ok (strip response))
                   /\ (forall e, llm request = Raise e ->
                                 result = Ok EmptyString))))
    /\ ((exists tokens, tokenizer_encode text = Ok tokens) ->
        exists summary, result = Ok summary).
Proof.
  intros llm tok self.
  exists (buffer_string self). eexists.
  split; [apply get_buffer_string_run |].
  split; [apply get_conversation_summary_run |].
  split; [| split].
  - intros H. destruct (Z.ltb_spec (len (ShortTerm._messages self)) 4);
      [reflexivity | lia].
  - intros H4.
    destruct (Z.ltb_spec (len (ShortTerm._messages self)) 4); [lia |].
    split.
    + intros e ->. reflexivity.
    + intros tokens Htok. unfold ShortTerm.count_tokens. rewrite Htok.
      split; [reflexivity |]. split.
      * intros Hlt.
        destruct (Z.ltb_spec (len tokens)
                    (ShortTerm.max_tokens_before_summary self));
          [reflexivity | lia].
      * intros Hmax.
        destruct (Z.ltb_spec (len tokens)
                    (ShortTerm.max_tokens_before_summary self)); [lia |].
        fold (summary_request self).
        split; intros x Hx; now rewrite Hx.
  - intros [tokens Htok]. rewrite Htok.
    destruct (len (ShortTerm._messages self) <? 4); [eauto |].
    destruct (len tokens <? _); eauto.
Qed.

(** C7 fails where the tokenizer raises: on four buffered messages of
    which one holds the text of a special token, the exception of the
    tokenizer comes out of [get_conversation_summary], whatever the
    model. *)
Lemma get_conversation_summary_raises :
  4 <= len (ShortTerm._messages demo_special_buffer)
  /\ ShortTerm.get_conversation_summary summarizing_llm strict_tokenizer
       demo_special_buffer
     = (Raise (ValueError "disallowed special token '<|endoftext|>'"),
        demo_special_buffer)
  /\ ~ (exists summary,
          fst (ShortTerm.get_conversation_summary summarizing_llm
                 strict_tokenizer demo_special_buffer) = Ok summary).
Proof.
  assert (Hrun :
    ShortTerm.get_conversation_summary summarizing_llm strict_tokenizer
      demo_special_buffer
    = (Raise (ValueError "disallowed special token '<|endoftext|>'"),
       demo_special_buffer))
    by (rewrite get_conversation_summary_run; reflexivity).
  split; [vm_compute; discriminate |]. split; [exact Hrun |].
  rewrite Hrun. intros [summary H]. discriminate.
Qed.

(** C8.  [reformulate_query] always returns.  Without recent messages and
    without a summary it returns the query as it is; and whatever the
    inputs, when the call of the model raises, or when its stripped output
    is empty or shorter than 10 characters, it returns the query as it
    is. *)
Theorem reformulate_query_fallback :
  forall (llm : ChatModel) (original_query : string)
         (recent_messages : list Manager.ChatMessageResponse)
         (conversation_summary : option string),
    let result :=
      Reformulator.reformulate_query llm original_query recent_messages
        conversation_summary in
    let request :=
      [ SystemMessage Reformulator._build_system_prompt;
        HumanMessage (Reformulator._build_user_prompt original_query
                        recent_messages conversation_summary) ] in
    (exists answer, result = Ok answer)
    /\ (recent_messages = [] ->
        truthy_opt_str conversation_summary = false ->
        result = Ok original_query)
    /\ (forall e, llm request = Raise e -> result = Ok original_query)
    /\ (forall response,
           llm request = Ok response ->
           strip response = EmptyString \/ str_len (strip response) < 10 ->
           result = Ok original_query).
Proof.
  intros llm q recent summary result request.
  subst result request. unfold Reformulator.reformulate_query.
  destruct (negb (truthy_list recent) && negb (truthy_opt_str summary)) eqn:E.
  - split; [eauto |]. repeat split; intros; reflexivity.
  - assert (Hctx : recent = [] -> truthy_opt_str summary = false ->
                   forall r : exc string, r = Ok q).
    { intros -> Hs. rewrite Hs in E. discriminate. }
    unfold catch, and_then.
    destruct (llm _) as [response | e] eqn:Hllm.
    + destruct (negb (truthy_str (strip response))
                || (str_len (strip response) <? 10)) eqn:Hshort.
      * split; [eauto |]. split; [intros; now apply Hctx |].
        split; intros; reflexivity.
      * split; [eauto |]. split; [intros; now apply Hctx |].
        split; [intros e He; discriminate |].
        intros r Hr Hcond. inversion Hr; subst r.
        apply orb_false_iff in Hshort. destruct Hshort as [H1 H2].
        destruct Hcond as [Hempty | Hlen].
        -- rewrite Hempty in H1. discriminate.
        -- apply Z.ltb_ge in H2. lia.
    + split; [eauto |]. split; [intros; now apply Hctx |].
      split; intros; reflexivity.
Qed.

(** Four buffered messages above the token threshold and a failing model:
    the summary is empty and nothing is raised. *)
Lemma get_conversation_summary_cases_witness :
  ShortTerm.get_conversation_summary failing_llm (fun _ => Ok [1; 2; 3])
    demo_full_buffer = (Ok EmptyString, demo_full_buffer).
Proof.
  destruct (get_conversation_summary_cases failing_llm (fun _ => Ok [1; 2; 3])
              demo_full_buffer)
    as [text [result [Htext [Hrun [_ [Hcases _]]]]]].
  rewrite Hrun. f_equal.
  destruct (Hcases ltac:(vm_compute; discriminate)) as [_ Htok].
  destruct (Htok [1; 2; 3] eq_refl) as [_ [_ Hllm]].
  exact (proj2 (Hllm ltac:(vm_compute; discriminate))
           (ExternalError "timeout") eq_refl).
Defined.

(** With a failing model and with a model that answers in three letters
    the query comes back as it was. *)
Lemma reformulate_query_fallback_witness :
  Reformulator.reformulate_query failing_llm "On which page is that?"
    demo_recent None = Ok "On which page is that?"
  /\ Reformulator.reformulate_query terse_llm "On which page is that?"
       demo_recent None = Ok "On which page is that?".
Proof.
  split.
  - exact (proj1 (proj2 (proj2
             (reformulate_query_fallback failing_llm "On which page is that?"
                demo_recent None)))
             (ExternalError "timeout") eq_refl).
  - refine (proj2 (proj2 (proj2
             (reformulate_query_fallback terse_llm "On which page is that?"
                demo_recent None)))
             "  yes  " eq_refl _).
    right. vm_compute. reflexivity.
Defined.

(** ** The summarization trigger *)

Lemma on_row_keeps_keys (pk : Z) (f : ChatSession.t -> ChatSession.t) :
  keeps_keys f -> keeps_keys (on_row pk f).
Proof.
  intros Hf s. unfold on_row. destruct (_ =? _); [apply Hf | auto].
Qed.

Lemma apply_update_keeps_keys (u : ChatSessionUpdate.t) (now : Z) :
  keeps_keys (LongTerm.apply_update u now).
Proof. intros s. split; reflexivity. Qed.

Lemma unique_session_ids_map (g : ChatSession.t -> ChatSession.t)
      (l : list ChatSession.t) :
  keeps_keys g ->
  Sql.unique_session_ids (map g l) = Sql.unique_session_ids l.
Proof.
  intros Hg.
  assert (Hid : forall sid x, Sql.session_has_id sid (g x) = Sql.session_has_id sid x).
  { intros sid x. unfold Sql.session_has_id. now rewrite (proj2 (Hg x)). }
  induction l as [| s l IH]; simpl; [reflexivity |].
  rewrite IH, (proj2 (Hg s)), existsb_map_stable; [reflexivity |].
  intros x. apply Hid.
Qed.

Lemma forallb_pointwise {A} (f g : A -> bool) (l : list A) :
  (forall x, f x = g x) -> forallb f l = forallb g l.
Proof.
  intros H. induction l as [| x l IH]; simpl; [reflexivity |].
  now rewrite H, IH.
Qed.

Lemma constraints_hold_map (g : ChatSession.t -> ChatSession.t) (st : Store) :
  keeps_keys g ->
  Sql.constraints_hold {| chat_sessions := map g (chat_sessions st);
                          chat_messages := chat_messages st |}
  = Sql.constraints_hold st.
Proof.
  intros Hg. unfold Sql.constraints_hold, Sql.foreign_keys_hold. simpl.
  rewrite unique_session_ids_map by assumption. f_equal.
  apply forallb_pointwise. intros m. apply existsb_map_stable.
  intros x. unfold Sql.session_has_id. now rewrite (proj2 (Hg x)).
Qed.

Lemma update_session_run (db : Db) (sid : string) (u : ChatSessionUpdate.t)
      (now : Z) (s : ChatSession.t) :
  Sql.constraints_hold (pending db) = true ->
  find (Sql.session_has_id sid) (chat_sessions (pending db)) = Some s ->
  find (fun r => ChatSession.id r =? ChatSession.id s)
       (chat_sessions (pending db)) = Some s ->
  LongTerm.update_session sid u now db
  = (Ok (LongTerm.apply_update u now s),
     {| committed := with_update db s u now;
        pending := with_update db s u now;
        session_seq := session_seq db;
        message_seq := message_seq db |}).
Proof.
  intros Hc Hsid Hpk.
  unfold LongTerm.update_session, LongTerm.get_session, bind, gets.
  rewrite Hsid. unfold Sql.update_row, modify, Sql.commit, Sql.with_pending.
  simpl. fold (on_row (ChatSession.id s) (LongTerm.apply_update u now)).
  rewrite (constraints_hold_map
             (on_row (ChatSession.id s) (LongTerm.apply_update u now))
             (pending db))
    by (apply on_row_keeps_keys, apply_update_keeps_keys).
  rewrite Hc. unfold Sql.deref. simpl.
  rewrite find_map_stable, Hpk.
  - simpl. unfold on_row. rewrite Z.eqb_refl. reflexivity.
  - intros x.
    now rewrite (proj1 (on_row_keeps_keys _ _ (apply_update_keeps_keys u now) x)).
Qed.

Lemma summary_due_spec (settings : Settings) (total : Z) :
  0 < memory_summary_trigger settings ->
  exists due,
    Manager.summary_due settings total = Ok due
    /\ (due = true <->
        total >= memory_summary_trigger settings
        /\ total mod memory_summary_trigger settings = 0)
    /\ (due = true <->
        exists k, 1 <= k /\ total = k * memory_summary_trigger settings).
Proof.
  intros HT. unfold Manager.summary_due, mod_.
  set (T := memory_summary_trigger settings) in *.
  destruct (Z.eqb_spec T 0) as [-> | _]; [lia |].
  destruct (Z.geb_spec total T) as [Hge | Hlt].
  - eexists. split; [reflexivity |].
    rewrite Z.eqb_eq. split.
    + split; [intros H; split; [lia | exact H] | intros [_ H]; exact H].
    + split.
      * intros Hmod. exists (total / T). split.
        -- apply Z.div_le_lower_bound; lia.
        -- rewrite (Z.div_mod total T) at 1 by lia. lia.
      * intros [k [_ ->]]. apply Z.mod_mul. lia.
  - exists false. split; [reflexivity |]. split.
    + split; [discriminate | intros [H _]; lia].
    + split; [discriminate |]. intros [k [Hk ->]]. nia.
Qed.

Lemma get_conversation_summary_result (llm : ChatModel)
      (tokenizer_encode : string -> exc (list Z)) (self : ShortTerm.ShortTermMemory) :
  ShortTerm.get_conversation_summary llm tokenizer_encode self
  = (summary_result llm tokenizer_encode self, self).
Proof.
  unfold summary_result. now rewrite get_conversation_summary_run.
Qed.

Lemma check_and_update_summary_run (settings : Settings) (llm : ChatModel)
      (tokenizer_encode : string -> exc (list Z)) (now : Z)
      (env : Manager.Env) (mgr : Manager.UnifiedMemoryManager)
      (s : ChatSession.t) :
  find (fun r => ChatSession.id r =? Manager.session mgr)
       (chat_sessions (pending (Manager.db env))) = Some s ->
  Manager._check_and_update_summary settings llm tokenizer_encode now (env, mgr)
  = match Manager.summary_due settings (ChatSession.total_messages s) with
    | Raise e => (Raise e, (env, mgr))
    | Ok false => (Ok tt, (env, mgr))
    | Ok true =>
        let env1 :=
          Manager.add_log
            (Manager.SummaryRequested (ChatSession.total_messages s)) env in
        match summary_result llm tokenizer_encode (Manager.short_term mgr) with
        | Raise e => (Raise e, (env1, mgr))
        | Ok text =>
            if truthy_str text then
              match LongTerm.update_session (Manager.session_id mgr)
                      (summary_update text) now (Manager.db env) with
              | (Ok u, db') =>
                  (Ok tt, (Manager.set_db db' env1,
                           Manager.set_session (ChatSession.id u) mgr))
              | (Raise e, db') => (Raise e, (Manager.set_db db' env1, mgr))
              end
            else (Ok tt, (env1, mgr))
        end
    end.
Proof.
  intros Hpk. destruct env as [d disk lg]. destruct mgr as [sid pdfs uid stm sem pk].
  simpl in *.
  unfold Manager._check_and_update_summary, bind at 1, Manager.self_, gets.
  cbn [snd]. unfold bind at 1, Manager.on_db, zoom, Sql.deref.
  cbn [fst snd Manager.db Manager.session]. rewrite Hpk.
  unfold bind at 1, lift.
  destruct (Manager.summary_due settings (ChatSession.total_messages s))
    as [[|] | e]; try reflexivity.
  unfold bind at 1, Manager.record, modify. unfold bind at 1.
  unfold Manager.on_short_term, zoom at 1.
  cbn [fst snd Manager.short_term].
  rewrite get_conversation_summary_result.
  destruct (summary_result llm tokenizer_encode stm) as [text | e];
    [| reflexivity].
  destruct (truthy_str text); [| reflexivity].
  unfold bind, zoom, summary_update, Manager.set_db, Manager.add_log,
    Manager.set_short_term, Manager.set_session.
  cbn [fst snd Manager.db Manager.disk Manager.log Manager.session_id
       Manager.pdf_ids Manager.user_id Manager.short_term Manager.semantic
       Manager.session].
  destruct (LongTerm.update_session sid _ now d) as [[u | e] d'];
    reflexivity.
Qed.

Lemma deref_found (pk : Z) (db db' : Db) (s : ChatSession.t) :
  Sql.deref pk db = (Ok s, db') ->
  find (fun r => ChatSession.id r =? pk) (chat_sessions (pending db)) = Some s.
Proof.
  unfold Sql.deref. destruct (find _ _); intros H; inversion H. reflexivity.
Qed.

Lemma get_session_found (sid : string) (db db' : Db) (s : ChatSession.t) :
  LongTerm.get_session sid db = (Ok (Some s), db') ->
  find (Sql.session_has_id sid) (chat_sessions (pending db)) = Some s.
Proof. unfold LongTerm.get_session, gets. intros H. now inversion H. Qed.

Lemma truthy_str_nonempty (text : string) :
  text <> EmptyString -> truthy_str text = true.
Proof. destruct text; [congruence | reflexivity]. Qed.

Lemma snoc_not_same {A} (l : list A) (x : A) : l <> l ++ [x].
Proof.
  intros H. apply (f_equal (@List.length A)) in H.
  rewrite length_app in H. simpl in H. lia.
Qed.

Lemma positive_multiple_spec (T n : Z) :
  0 < T -> (positive_multiple T n <-> n >= T /\ n mod T = 0).
Proof.
  intros HT. unfold positive_multiple. split.
  - intros [k [Hk ->]]. split; [nia | apply Z.mod_mul; lia].
  - intros [Hge Hmod]. exists (n / T). split.
    + apply Z.div_le_lower_bound; lia.
    + rewrite (Z.div_mod n T) at 1 by lia. lia.
Qed.

(** The check on its own. *)
Lemma check_and_update_summary_checked :
  forall (settings : Settings) (llm : ChatModel)
         (tokenizer_encode : string -> exc (list Z)) (now : Z)
         (env : Manager.Env) (mgr : Manager.UnifiedMemoryManager)
         (s : ChatSession.t),
    0 < memory_summary_trigger settings ->
    Sql.constraints_hold (pending (Manager.db env)) = true ->
    session_row env mgr s ->
    exists res st',
      Manager._check_and_update_summary settings llm tokenizer_encode now
        (env, mgr) = (res, st')
      /\ checked (memory_summary_trigger settings)
           (summary_result llm tokenizer_encode (Manager.short_term mgr))
           s (env, mgr) res st'.
Proof.
  intros settings llm tok now env mgr s HT Hc [Hderef Hget].
  set (T := memory_summary_trigger settings) in *.
  set (total := ChatSession.total_messages s).
  apply deref_found in Hderef. apply get_session_found in Hget.
  assert (Hid : ChatSession.id s = Manager.session mgr).
  { apply find_some in Hderef. lia. }
  destruct (summary_due_spec settings total HT) as [due [Hdue [_ Hmult]]].
  fold T in Hmult. fold (positive_multiple T total) in Hmult.
  rewrite (check_and_update_summary_run settings llm tok now env mgr s Hderef).
  fold total. rewrite Hdue. unfold checked. fold total. cbn [fst snd].
  destruct due.
  - assert (Hm : positive_multiple T total) by now apply Hmult.
    cbv zeta.
    destruct (summary_result llm tok (Manager.short_term mgr)) as [text | e].
    + destruct (truthy_str text) eqn:Ht.
      * rewrite (update_session_run (Manager.db env) (Manager.session_id mgr)
                   _ now s Hc Hget) by now rewrite Hid.
        eexists. eexists. split; [reflexivity |]. cbn [fst snd].
        split; [split; [intros _; exact Hm | reflexivity] |].
        split; [intros Hn; contradiction |].
        intros _. split; [reflexivity |].
        split; [intros ->; discriminate |]. intros _.
        set (g := on_row (ChatSession.id s)
                    (LongTerm.apply_update (summary_update text) now)).
        assert (Kg : keeps_keys g)
          by apply on_row_keeps_keys, apply_update_keeps_keys.
        assert (Gs : g s = LongTerm.apply_update (summary_update text) now s)
          by (unfold g, on_row; now rewrite Z.eqb_refl).
        assert (F1 : find (Sql.session_has_id (Manager.session_id mgr))
                       (map g (chat_sessions (pending (Manager.db env))))
                     = Some (LongTerm.apply_update (summary_update text) now s)).
        { rewrite find_map_stable, Hget; [simpl; now rewrite Gs |].
          intros x. unfold Sql.session_has_id. now rewrite (proj2 (Kg x)). }
        assert (F2 : find (fun r => ChatSession.id r =? ChatSession.id s)
                       (map g (chat_sessions (pending (Manager.db env))))
                     = Some (LongTerm.apply_update (summary_update text) now s)).
        { rewrite find_map_stable; [rewrite Hid, Hderef; simpl; now rewrite Gs |].
          intros x. now rewrite (proj1 (Kg x)). }
        exists (LongTerm.apply_update (summary_update text) now s).
        unfold session_row, LongTerm.get_session, gets, Sql.deref, with_update.
        cbn [Manager.db Manager.set_db Manager.session Manager.set_session
             pending committed chat_sessions Manager.session_id].
        fold g. rewrite F1.
        change (ChatSession.id (LongTerm.apply_update (summary_update text) now s))
          with (ChatSession.id s).
        rewrite F2. repeat split.
      * eexists. eexists. split; [reflexivity |]. cbn [fst snd].
        split; [split; [intros _; exact Hm | reflexivity] |].
        split; [intros Hn; contradiction |].
        intros _. split; [reflexivity |].
        split; [intros _; destruct env; split; reflexivity |].
        intros Hne. rewrite (truthy_str_nonempty text Hne) in Ht. discriminate.
    + eexists. eexists. split; [reflexivity |]. cbn [fst snd].
      split; [split; [intros _; exact Hm | reflexivity] |].
      split; [intros Hn; contradiction |].
      intros _. destruct env; repeat split.
  - assert (Hn : ~ positive_multiple T total) by (rewrite <- Hmult; discriminate).
    eexists. eexists. split; [reflexivity |]. cbn [fst snd].
    split; [split; [intros H; now apply snoc_not_same in H | intros H; contradiction] |].
    split; [auto |]. intros Hm. contradiction.
Qed.

(** ** The memory-manager cache *)

Lemma length_append (s1 s2 : string) :
  String.length (s1 +++ s2) = (String.length s1 + String.length s2)%nat.
Proof. induction s1 as [| c s1 IH]; simpl; [reflexivity | now rewrite IH]. Qed.

(** The key that is looked up is never the key that is stored. *)
Lemma cache_key_is_not_session_id (session_id : string) (pdf_ids : list Z) :
  Service.cache_key_of session_id pdf_ids <> session_id.
Proof.
  unfold Service.cache_key_of. intros H.
  apply (f_equal String.length) in H. rewrite length_append in H.
  simpl in H. lia.
Qed.

Lemma dict_get_set_other {V} (k k' : string) (v : V) (d : Service.pydict V) :
  k <> k' -> Service.dict_get k (Service.dict_set k' v d) = Service.dict_get k d.
Proof.
  intros Hne. unfold Service.dict_get.
  induction d as [| [k0 v0] d IH]; cbn [Service.dict_set find].
  - unfold Service.has_key. cbn [fst].
    destruct (String.eqb_spec k' k); [congruence | reflexivity].
  - unfold Service.has_key. cbn [fst].
    destruct (String.eqb_spec k0 k') as [-> | Hk0]; cbn [find fst].
    + destruct (String.eqb_spec k' k); [congruence | reflexivity].
    + destruct (String.eqb k0 k); [reflexivity | exact IH].
Qed.

Lemma dict_get_del_none {V} (k k' : string) (d : Service.pydict V) :
  Service.dict_get k d = None ->
  Service.dict_get k (Service.dict_del k' d) = None.
Proof.
  unfold Service.dict_get, Service.dict_del.
  induction d as [| e d IH]; simpl; [reflexivity |].
  destruct (Service.has_key k e) eqn:E; [discriminate |].
  intros H. destruct (negb (Service.has_key k' e)); simpl;
    [rewrite E |]; auto.
Qed.

(** C1, at the failing input: two calls for the session ["s1"] with the
    documents [1] on a new service.  The first call stores its manager
    under the key ["s1"]; the second looks up ["s1:(1,)"], finds nothing
    and builds a second manager, which replaces the first in the cache. *)
Lemma cache_misses_same_session_and_documents :
  forall (engine : Sql.Engine) (fs : Semantic.FileSystem),
  exists w1 w2,
    Service._get_or_create_memory_manager default_settings engine fs
      "s1" [1] None 100 fresh_world = (Ok 0%nat, w1)
    /\ Service._memory_manager_cache (Service.service w1) = [("s1", 0%nat)]
    /\ Service.cache_key_of "s1" [1] = "s1:(1,)"
    /\ Service._get_or_create_memory_manager default_settings engine fs
         "s1" [1] None 101 w1 = (Ok 1%nat, w2)
    /\ List.length (Service.heap w2) = 2%nat
    /\ Service._memory_manager_cache (Service.service w2) = [("s1", 1%nat)].
Proof.
  intros engine fs.
  eexists. eexists. split; [vm_compute; reflexivity |].
  split; [reflexivity |]. split; [reflexivity |].
  split; [vm_compute; reflexivity |]. split; reflexivity.
Qed.

(** The same for every input: a call that misses the cache leaves a cache
    that the same call misses again, so a successful repetition returns a
    new manager and not the one of the first call. *)
Lemma cache_never_hits_after_miss (settings : Settings)
      (engine : Sql.Engine) (fs : Semantic.FileSystem) (session_id : string)
      (pdf_ids : list Z) (user_id : option string) (now now' : Z)
      (w w1 w2 : Service.World) (r1 r2 : Service.ref) :
  Service.dict_get (Service.cache_key_of session_id pdf_ids)
    (Service._memory_manager_cache (Service.service w)) = None ->
  Service._get_or_create_memory_manager settings engine fs session_id pdf_ids
    user_id now w = (Ok r1, w1) ->
  Service._get_or_create_memory_manager settings engine fs session_id pdf_ids
    user_id now' w1 = (Ok r2, w2) ->
  r1 = List.length (Service.heap w)
  /\ r2 = S (List.length (Service.heap w))
  /\ r1 <> r2.
Proof.
  intros Hmiss H1 H2.
  assert (Step : forall w0 t r w',
             Service.dict_get (Service.cache_key_of session_id pdf_ids)
               (Service._memory_manager_cache (Service.service w0)) = None ->
             Service._get_or_create_memory_manager settings engine fs
               session_id pdf_ids user_id t w0 = (Ok r, w') ->
             r = List.length (Service.heap w0)
             /\ List.length (Service.heap w') = S (List.length (Service.heap w0))
             /\ Service.dict_get (Service.cache_key_of session_id pdf_ids)
                  (Service._memory_manager_cache (Service.service w')) = None).
  { intros [env0 heap0 [cache0 max0]] t r w' Hm Hrun.
    unfold Service._get_or_create_memory_manager, bind at 1, get in Hrun.
    cbn [Service.env Service.heap Service.service
         Service._memory_manager_cache Service._max_cache_size] in *.
    rewrite Hm in Hrun. unfold bind at 1, zoom in Hrun.
    cbn [Service.env] in Hrun.
    destruct (Manager.__init__ settings engine fs session_id pdf_ids user_id
                t env0)
      as [[m | e] env']; [| discriminate].
    unfold bind, Service.alloc, lift, modify, get, ret in Hrun.
    cbn [Service.env Service.heap Service.service Service.set_env
         Service.set_cache Service._memory_manager_cache
         Service._max_cache_size] in Hrun.
    assert (Hc : Service.dict_get (Service.cache_key_of session_id pdf_ids)
                   (Service.dict_set session_id (List.length heap0) cache0)
                 = None).
    { rewrite dict_get_set_other; [assumption |].
      apply cache_key_is_not_session_id. }
    match type of Hrun with
    | context [if ?b then _ else _] => destruct b
    end.
    - match type of Hrun with
      | context [Service.dict_first_key ?d] =>
          destruct (Service.dict_first_key d) as [k | e]; [| discriminate]
      end.
      inversion Hrun; subst.
      cbn [Service.env Service.heap Service.service Service.set_cache
           Service._memory_manager_cache].
      rewrite length_app. simpl.
      repeat split; [lia |]. now apply dict_get_del_none.
    - inversion Hrun; subst.
      cbn [Service.env Service.heap Service.service Service.set_cache
           Service._memory_manager_cache].
      rewrite length_app. simpl. repeat split; [lia | assumption]. }
  destruct (Step w now r1 w1 Hmiss H1) as [E1 [L1 M1]].
  destruct (Step w1 now' r2 w2 M1 H2) as [E2 _].
  repeat split; try lia.
Qed.

Lemma dict_set_new {V} (k : string) (v : V) (d : Service.pydict V) :
  ~ In k (map fst d) -> Service.dict_set k v d = d ++ [(k, v)].
Proof.
  induction d as [| [k0 v0] d IH]; simpl; intros Hnot; [reflexivity |].
  unfold Service.has_key. simpl.
  destruct (String.eqb_spec k0 k) as [-> | _]; [tauto |].
  rewrite IH; [reflexivity | tauto].
Qed.

Lemma dict_del_absent {V} (k : string) (d : Service.pydict V) :
  ~ In k (map fst d) -> Service.dict_del k d = d.
Proof.
  unfold Service.dict_del.
  induction d as [| [k0 v0] d IH]; simpl; intros Hnot; [reflexivity |].
  unfold Service.has_key at 1. simpl.
  destruct (String.eqb_spec k0 k) as [-> | _]; [tauto |].
  simpl. rewrite IH; [reflexivity | tauto].
Qed.

(** X22.  Eviction, as the code has it: when the cache is
    full (its keys distinct, as in a [dict]) and a call for a session id
    that is not a key builds a manager, the entry inserted first is
    dropped, the others stay in order and the new one comes last. *)
Lemma cache_evicts_oldest (settings : Settings)
      (engine : Sql.Engine) (fs : Semantic.FileSystem) (session_id : string)
      (pdf_ids : list Z) (user_id : option string) (now : Z)
      (w w' : Service.World) (r : Service.ref)
      (k0 : string) (v0 : Service.ref) (rest : Service.pydict Service.ref) :
  Service._memory_manager_cache (Service.service w) = (k0, v0) :: rest ->
  NoDup (map fst ((k0, v0) :: rest)) ->
  ~ In session_id (map fst ((k0, v0) :: rest)) ->
  Service.dict_get (Service.cache_key_of session_id pdf_ids)
    ((k0, v0) :: rest) = None ->
  len ((k0, v0) :: rest) = Service._max_cache_size (Service.service w) ->
  Service._get_or_create_memory_manager settings engine fs session_id pdf_ids
    user_id now w = (Ok r, w') ->
  Service._memory_manager_cache (Service.service w') = rest ++ [(session_id, r)]
  /\ len (Service._memory_manager_cache (Service.service w'))
     = Service._max_cache_size (Service.service w).
Proof.
  destruct w as [env0 heap0 [cache0 max0]].
  cbn [Service.env Service.heap Service.service
       Service._memory_manager_cache Service._max_cache_size].
  intros -> Hnd Hnew Hmiss Hfull Hrun.
  unfold Service._get_or_create_memory_manager, bind at 1, get in Hrun.
  cbn [Service.env Service.heap Service.service
       Service._memory_manager_cache Service._max_cache_size] in Hrun.
  rewrite Hmiss in Hrun. unfold bind at 1, zoom in Hrun.
  cbn [Service.env] in Hrun.
  destruct (Manager.__init__ settings engine fs session_id pdf_ids user_id now
              env0)
    as [[m | e] env']; [| discriminate].
  unfold bind, Service.alloc, lift, modify, get, ret in Hrun.
  cbn [Service.env Service.heap Service.service Service.set_env
       Service.set_cache Service._memory_manager_cache
       Service._max_cache_size] in Hrun.
  rewrite (@dict_set_new Service.ref session_id (List.length heap0)
             ((k0, v0) :: rest) Hnew) in Hrun.
  cbn [app Service.dict_first_key fst] in Hrun.
  match type of Hrun with
  | context [if ?b then _ else _] => destruct b eqn:Hb
  end.
  2:{ rewrite Z.gtb_ltb, Z.ltb_ge in Hb. rewrite <- Hfull in Hb.
      unfold len in Hb. simpl in Hb. rewrite length_app in Hb. simpl in Hb.
      lia. }
  inversion Hrun; subst.
  cbn [Service.service Service.set_cache Service._memory_manager_cache].
  unfold Service.has_key. cbn [fst]. rewrite String.eqb_refl. cbn [negb].
  rewrite dict_del_absent.
  - split; [reflexivity |]. rewrite len_app. unfold len in *. simpl in *. lia.
  - simpl in Hnd, Hnew. inversion Hnd; subst.
    rewrite map_app, in_app_iff. simpl. intros [H | [H | []]]; [tauto |].
    apply Hnew. now left.
Qed.

(** *** The check after a message *)

(** [add_user_message], step by step: the buffer, the store, the check. *)
Lemma add_user_message_run (settings : Settings) (llm : ChatModel)
      (tokenizer_encode : string -> exc (list Z)) (text : string) (now : Z)
      (env : Manager.Env) (mgr : Manager.UnifiedMemoryManager) :
  Manager.add_user_message settings llm tokenizer_encode text now (env, mgr)
  = let mgr1 :=
      Manager.set_short_term
        (ShortTerm.set_messages (Manager.short_term mgr)
           (trim (ShortTerm.messages_to_keep (Manager.short_term mgr))
                 (ShortTerm._messages (Manager.short_term mgr)
                    ++ [HumanMessage text])))
        mgr in
    match LongTerm.add_message (user_message_data mgr text)
            (Manager.session mgr) now (Manager.db env) with
    | (Raise e, db1) => (Raise e, (Manager.set_db db1 env, mgr1))
    | (Ok message, db1) =>
        match Manager._check_and_update_summary settings llm tokenizer_encode
                now (Manager.set_db db1 env, mgr1) with
        | (Ok _, st') => (Ok message, st')
        | (Raise e, st') => (Raise e, st')
        end
    end.
Proof.
  destruct env as [d disk lg]. destruct mgr as [sid pdfs uid stm sem pk].
  unfold Manager.add_user_message, bind at 1, Manager.on_short_term, zoom at 1.
  cbn [fst snd Manager.short_term]. rewrite add_message_run.
  cbn [message_of ShortTerm.role ShortTerm.content String.eqb Ascii.eqb
       Bool.eqb andb].
  unfold bind at 1, Manager.self_, gets. cbn [snd].
  unfold bind at 1, Manager.on_db, zoom at 1.
  cbn [fst snd Manager.db Manager.session Manager.session_id
       Manager.set_short_term].
  unfold user_message_data. cbn [Manager.session_id Manager.session Manager.db].
  destruct (LongTerm.add_message _ pk now d) as [[message | e] db1];
    [| reflexivity].
  unfold bind at 1. cbn [fst snd].
  destruct (Manager._check_and_update_summary _ _ _ _ _) as [[[] | e] st'];
    reflexivity.
Qed.

(** *** The semantic step *)

Lemma strip_nonblank (c : ascii) (s : string) :
  isspace c = false -> strip (String c s) <> EmptyString.
Proof.
  intros H. unfold strip. cbn [lstrip]. rewrite H. cbn [rstrip].
  destruct (rstrip s); [rewrite H |]; discriminate.
Qed.

Lemma save_vector_store_run (fs : Semantic.FileSystem) (d : Semantic.Disk)
      (self : Semantic.SemanticMemory) :
  Semantic._save_vector_store fs (d, self)
  = (Ok tt,
     (match Semantic.vector_store self with
      | Some vs => saved fs (Semantic.vector_store_path self) vs d
      | None => d
      end, self)).
Proof.
  unfold Semantic._save_vector_store, bind, get. cbn [snd].
  destruct (Semantic.vector_store self) as [vs |]; [| reflexivity].
  unfold try_except, Semantic.on_disk, zoom, saved, Semantic.save_local, ret.
  cbn [fst snd].
  destruct (Semantic.write_error fs _); reflexivity.
Qed.

(** [add_conversation_snippet], case by case: a blank text, an embedding
    request that raises, a document added and saved. *)
Lemma add_conversation_snippet_run (fs : Semantic.FileSystem)
      (embed_documents : list string -> exc unit)
      (text : string) (meta : option dict) (d : Semantic.Disk)
      (self : Semantic.SemanticMemory) :
  Semantic.add_conversation_snippet fs embed_documents text meta (d, self)
  = if truthy_str (strip text) then
      match embed_documents [text] with
      | Raise e => (Raise e, (d, self))
      | Ok _ =>
          let doc :=
            {| Semantic.page_content := text;
               Semantic.metadata :=
                 match meta with
                 | Some m => if truthy_list m then m
                             else [("session_id", Semantic.session_id self)]
                 | None => [("session_id", Semantic.session_id self)]
                 end |} in
          let vs := with_document (Semantic.vector_store self) doc in
          (Ok tt, (saved fs (Semantic.vector_store_path self) vs d,
                   Semantic.set_vector_store self (Some vs)))
      end
    else (Ok tt, (d, self)).
Proof.
  unfold Semantic.add_conversation_snippet.
  destruct (truthy_str (strip text)); [| reflexivity].
  cbn [negb]. unfold bind at 1, get. unfold bind at 1, lift. cbn [snd fst].
  destruct (embed_documents [text]) as [u | e]; [| reflexivity].
  unfold bind at 1, put. rewrite save_vector_store_run.
  unfold with_document.
  cbn [Semantic.set_vector_store Semantic.vector_store
       Semantic.vector_store_path].
  reflexivity.
Qed.

Lemma format_message_roles (l : list BaseMessage) (c : ShortTerm.MsgDict) :
  In c (flat_map ShortTerm.format_message l) ->
  ShortTerm.role c = "user" \/ ShortTerm.role c = "assistant".
Proof.
  induction l as [| m l IH]; simpl; [contradiction |].
  intros H. apply in_app_or in H. destruct H as [H | H]; [| auto].
  destruct m; simpl in H; try contradiction; destruct H as [<- | []]; auto.
Qed.

Lemma snippet_text_nonblank (sid : string) (total : Z)
      (stm : ShortTerm.ShortTermMemory) :
  2 <= len (snippet_window stm) ->
  truthy_str (strip (Semantic.page_content
                       (snippet_of sid total (snippet_window stm)))) = true.
Proof.
  unfold snippet_window. intros Hlen.
  pose proof (format_message_roles (slice_from (- 4) (ShortTerm._messages stm)))
    as Hroles.
  destruct (flat_map _ _) as [| c1 [| c2 rest]];
    [unfold len in Hlen; simpl in Hlen; lia
    | unfold len in Hlen; simpl in Hlen; lia |].
  apply truthy_str_nonempty. cbn [snippet_of Semantic.page_content map join].
  destruct (Hroles c1 (or_introl eq_refl)) as [-> | ->];
    cbn [String.append]; apply strip_nonblank; reflexivity.
Qed.

(** [_add_to_semantic_memory], step by step. *)
Lemma add_to_semantic_memory_run (fs : Semantic.FileSystem)
      (embed_documents : list string -> exc unit)
      (env : Manager.Env) (mgr : Manager.UnifiedMemoryManager)
      (s : ChatSession.t) :
  find (fun r => ChatSession.id r =? Manager.session mgr)
       (chat_sessions (pending (Manager.db env))) = Some s ->
  Manager._add_to_semantic_memory fs embed_documents (env, mgr)
  = let window := snippet_window (Manager.short_term mgr) in
    let doc := snippet_of (Manager.session_id mgr)
                 (ChatSession.total_messages s) window in
    if len window >=? 2 then
      match embed_documents [Semantic.page_content doc] with
      | Raise e => (Raise e, (env, mgr))
      | Ok _ =>
          let vs := with_document
                      (Semantic.vector_store (Manager.semantic mgr)) doc in
          (Ok tt,
           (Manager.set_disk
              (saved fs (Semantic.vector_store_path (Manager.semantic mgr)) vs
                 (Manager.disk env)) env,
            Manager.set_semantic
              (Semantic.set_vector_store (Manager.semantic mgr) (Some vs))
              mgr))
      end
    else (Ok tt, (env, mgr)).
Proof.
  intros Hpk. destruct env as [d disk lg].
  destruct mgr as [sid pdfs uid stm sem pk].
  cbn [Manager.db Manager.session Manager.short_term Manager.session_id
       Manager.semantic Manager.disk] in *.
  unfold Manager._add_to_semantic_memory, bind at 1, Manager.on_short_term,
    zoom at 1.
  cbn [fst snd Manager.short_term]. rewrite buffer_get_recent_messages_run.
  cbv zeta. unfold snippet_window.
  change (truthy_int 4) with true. cbv iota.
  change (Z.opp 4) with (- 4).
  cbn [Manager.set_short_term Manager.session_id Manager.pdf_ids
       Manager.user_id Manager.short_term Manager.semantic Manager.session
       ShortTerm._messages].
  destruct (Z.geb_spec
              (len (flat_map ShortTerm.format_message
                      (slice_from (- 4) (ShortTerm._messages stm)))) 2)
    as [Hlen | Hlen].
  - unfold bind at 1, Manager.self_, gets. cbn [snd].
    unfold bind at 1, Manager.on_db, zoom at 1, Sql.deref.
    cbn [fst snd Manager.db Manager.session Manager.set_short_term
         Manager.session_id Manager.pdf_ids Manager.user_id
         Manager.short_term Manager.semantic].
    rewrite Hpk. unfold Manager.on_semantic, zoom.
    cbn [fst snd Manager.disk Manager.semantic Manager.set_db Manager.db
         Manager.log Manager.session_id].
    rewrite add_conversation_snippet_run.
    pose proof (snippet_text_nonblank sid (ChatSession.total_messages s) stm
                  ltac:(unfold snippet_window; lia)) as Hnb.
    unfold snippet_of, snippet_window in Hnb |- *.
    cbn [Semantic.page_content] in Hnb |- *. rewrite Hnb.
    destruct (embed_documents _) as [u | e]; [| destruct stm; reflexivity].
    destruct stm; reflexivity.
  - destruct stm; reflexivity.
Qed.

(** *** The check after a message *)

Lemma message_stored_after_add (m : BaseMessage) (now : Z)
      (data : ChatMessageCreate.t)
      (env : Manager.Env) (mgr : Manager.UnifiedMemoryManager)
      (s : ChatSession.t) (db1 : Db) (env1 : Manager.Env)
      (mgr1 : Manager.UnifiedMemoryManager) :
  ChatMessageCreate.session_id data = Manager.session_id mgr ->
  committed db1 = pending db1 ->
  Sql.constraints_hold (pending db1) = true ->
  find (fun r => ChatSession.id r =? Manager.session mgr)
       (chat_sessions (pending db1)) = Some (LongTerm.count_message now s) ->
  find (Sql.session_has_id (Manager.session_id mgr))
       (chat_sessions (pending db1)) = Some (LongTerm.count_message now s) ->
  session_rows (Manager.session_id mgr) db1
  = session_rows (Manager.session_id mgr) (Manager.db env)
      ++ [new_message_row (Manager.db env) data now] ->
  Manager.db env1 = db1 ->
  Manager.log env1 = Manager.log env ->
  Manager.session_id mgr1 = Manager.session_id mgr ->
  Manager.session mgr1 = Manager.session mgr ->
  Manager.short_term mgr1 = buffer_after (Manager.short_term mgr) m ->
  message_stored m (new_message_row (Manager.db env) data now) s (env, mgr)
    (LongTerm.count_message now s) (env1, mgr1).
Proof.
  intros Hdata Hcommit Hc Hpk Hsid Hrows Edb Elog Esid Epk Estm.
  unfold message_stored. cbn [fst snd]. rewrite Edb.
  split; [exact Hc |]. split; [exact Hcommit |].
  split.
  { unfold session_row, Sql.deref, LongTerm.get_session, gets.
    rewrite Edb, Epk, Esid, Hpk, Hsid. split; reflexivity. }
  split; [reflexivity |]. split; [reflexivity |].
  split; [exact Hrows |]. split; [exact Elog | exact Estm].
Qed.

(** The check at the end of [add_user_message]. *)
Lemma add_user_message_checked (settings : Settings) (llm : ChatModel)
      (tokenizer_encode : string -> exc (list Z)) (text : string) (now : Z)
      (env : Manager.Env) (mgr : Manager.UnifiedMemoryManager)
      (s : ChatSession.t) :
  0 < memory_summary_trigger settings ->
  Sql.constraints_hold (pending (Manager.db env)) = true ->
  session_row env mgr s ->
  exists message s1 st1 res st',
    Manager.add_user_message settings llm tokenizer_encode text now (env, mgr)
    = (match res with Ok _ => Ok message | Raise e => Raise e end, st')
    /\ message_stored (HumanMessage text) message s (env, mgr) s1 st1
    /\ Manager._check_and_update_summary settings llm tokenizer_encode now st1
       = (res, st')
    /\ checked (memory_summary_trigger settings)
         (summary_result llm tokenizer_encode (Manager.short_term (snd st1)))
         s1 st1 res st'.
Proof.
  intros HT Hc [Hderef Hget].
  pose proof (deref_found _ _ _ _ Hderef) as Hpk.
  pose proof (get_session_found _ _ _ _ Hget) as Hsid.
  destruct (add_message_counts (Manager.db env) (user_message_data mgr text)
              (Manager.session mgr) now (Manager.session_id mgr) s
              Hc Hpk Hsid eq_refl)
    as [db1 [Hadd [Hcommit [Hc1 [Hpk1 [Hsid1 Hrows1]]]]]].
  rewrite add_user_message_run, Hadd. cbv zeta.
  fold (buffer_after (Manager.short_term mgr) (HumanMessage text)).
  set (mgr1 := Manager.set_short_term _ mgr).
  assert (Hst : message_stored (HumanMessage text)
                  (new_message_row (Manager.db env)
                     (user_message_data mgr text) now)
                  s (env, mgr) (LongTerm.count_message now s)
                  (Manager.set_db db1 env, mgr1)).
  { apply (message_stored_after_add _ now _ env mgr s db1);
      try assumption; try reflexivity; destruct env, mgr; reflexivity. }
  destruct (check_and_update_summary_checked settings llm tokenizer_encode now
              (Manager.set_db db1 env) mgr1 (LongTerm.count_message now s) HT)
    as [res [st' [Hrun Hchecked]]].
  - destruct env; exact Hc1.
  - apply Hst.
  - rewrite Hrun. eexists. exists (LongTerm.count_message now s).
    exists (Manager.set_db db1 env, mgr1), res, st'.
    split; [destruct res as [[] | e]; reflexivity |].
    split; [exact Hst |]. split; [exact Hrun | exact Hchecked].
Qed.

(** [add_assistant_message], step by step: the buffer, the store, the
    semantic tier at every fourth message, the check. *)
Lemma add_assistant_message_run (settings : Settings)
      (fs : Semantic.FileSystem) (llm : ChatModel)
      (tokenizer_encode : string -> exc (list Z))
      (embed_documents : list string -> exc unit)
      (text : string) (sources : option (list dict)) (now : Z)
      (env : Manager.Env) (mgr : Manager.UnifiedMemoryManager) :
  Manager.add_assistant_message settings fs llm tokenizer_encode
    embed_documents text sources now (env, mgr)
  = let mgr1 :=
      Manager.set_short_term
        (ShortTerm.set_messages (Manager.short_term mgr)
           (trim (ShortTerm.messages_to_keep (Manager.short_term mgr))
                 (ShortTerm._messages (Manager.short_term mgr)
                    ++ [AIMessage text])))
        mgr in
    match LongTerm.add_message (assistant_message_data mgr text sources)
            (Manager.session mgr) now (Manager.db env) with
    | (Raise e, db1) => (Raise e, (Manager.set_db db1 env, mgr1))
    | (Ok message, db1) =>
        match find (fun r => ChatSession.id r =? Manager.session mgr)
                   (chat_sessions (pending db1)) with
        | None => (Raise (InvalidRequestError "instance is not persistent"),
                   (Manager.set_db db1 env, mgr1))
        | Some s1 =>
            match (if ChatSession.total_messages s1 mod 4 =? 0
                   then Manager._add_to_semantic_memory fs embed_documents
                   else ret tt) (Manager.set_db db1 env, mgr1) with
            | (Raise e, st2) => (Raise e, st2)
            | (Ok _, st2) =>
                match Manager._check_and_update_summary settings llm
                        tokenizer_encode now st2 with
                | (Ok _, st') => (Ok message, st')
                | (Raise e, st') => (Raise e, st')
                end
            end
        end
    end.
Proof.
  destruct env as [d disk lg]. destruct mgr as [sid pdfs uid stm sem pk].
  unfold Manager.add_assistant_message, bind at 1, Manager.on_short_term,
    zoom at 1.
  cbn [fst snd Manager.short_term]. rewrite add_message_run.
  cbn [message_of ShortTerm.role ShortTerm.content String.eqb Ascii.eqb
       Bool.eqb andb].
  unfold bind at 1, Manager.self_, gets. cbn [snd].
  unfold bind at 1, Manager.on_db at 1, zoom at 1.
  cbn [fst snd Manager.db Manager.session Manager.session_id
       Manager.set_short_term].
  unfold assistant_message_data.
  cbn [Manager.session_id Manager.session Manager.db].
  destruct (LongTerm.add_message _ pk now d) as [[message | e] db1];
    [| reflexivity].
  unfold bind at 1, Manager.on_db at 1, zoom at 1, Sql.deref.
  cbn [fst snd Manager.db Manager.set_db].
  destruct (find _ _) as [s1 |]; [| reflexivity].
  unfold bind at 1. unfold Manager.set_db, Manager.set_short_term.
  cbn [Manager.db Manager.disk Manager.log Manager.session_id
       Manager.pdf_ids Manager.user_id Manager.short_term Manager.semantic
       Manager.session].
  match goal with
  | |- context [(if ?b then ?x else ?y) ?st] =>
      destruct ((if b then x else y) st) as [[[] | e] st2]
  end; [| reflexivity].
  unfold bind at 1.
  destruct (Manager._check_and_update_summary _ _ _ _ st2) as [[[] | e] st'];
    reflexivity.
Qed.

(** The semantic step of [add_assistant_message] on the state in which
    the message is stored: it raises when its embedding request does, and
    otherwise leaves the tables, the log and the buffer alone. *)
Lemma semantic_step_run (fs : Semantic.FileSystem)
      (embed_documents : list string -> exc unit)
      (env1 : Manager.Env) (mgr1 : Manager.UnifiedMemoryManager)
      (s1 : ChatSession.t) :
  find (fun r => ChatSession.id r =? Manager.session mgr1)
       (chat_sessions (pending (Manager.db env1))) = Some s1 ->
  let step :=
    (if ChatSession.total_messages s1 mod 4 =? 0
     then Manager._add_to_semantic_memory fs embed_documents
     else ret tt) (env1, mgr1) in
  match snippet_request (Manager.session_id mgr1)
          (ChatSession.total_messages s1) (Manager.short_term mgr1) with
  | None => step = (Ok tt, (env1, mgr1))
  | Some texts =>
      match embed_documents texts with
      | Raise e => step = (Raise e, (env1, mgr1))
      | Ok _ =>
          exists disk2 sem2,
            step = (Ok tt, (Manager.set_disk disk2 env1,
                            Manager.set_semantic sem2 mgr1))
      end
  end.
Proof.
  intros Hpk step. unfold step, snippet_request.
  destruct (ChatSession.total_messages s1 mod 4 =? 0); [| reflexivity].
  rewrite (add_to_semantic_memory_run fs embed_documents env1 mgr1 s1 Hpk).
  cbv zeta. cbn [andb].
  destruct (len (snippet_window (Manager.short_term mgr1)) >=? 2);
    [| reflexivity].
  destruct (embed_documents _); [| reflexivity].
  eexists. eexists. reflexivity.
Qed.

(** The check at the end of [add_assistant_message], which is reached when
    the semantic step does not raise. *)
Lemma add_assistant_message_checked (settings : Settings)
      (fs : Semantic.FileSystem) (llm : ChatModel)
      (tokenizer_encode : string -> exc (list Z))
      (embed_documents : list string -> exc unit)
      (text : string) (sources : option (list dict)) (now : Z)
      (env : Manager.Env) (mgr : Manager.UnifiedMemoryManager)
      (s : ChatSession.t) :
  0 < memory_summary_trigger settings ->
  Sql.constraints_hold (pending (Manager.db env)) = true ->
  session_row env mgr s ->
  let run :=
    Manager.add_assistant_message settings fs llm tokenizer_encode
      embed_documents text sources now (env, mgr) in
  let embedding :=
    snippet_request (Manager.session_id mgr) (ChatSession.total_messages s + 1)
      (buffer_after (Manager.short_term mgr) (AIMessage text)) in
  exists message s1,
    (forall texts e,
        embedding = Some texts -> embed_documents texts = Raise e ->
        exists st1,
          run = (Raise e, st1)
          /\ message_stored (AIMessage text) message s (env, mgr) s1 st1)
    /\ ((forall texts, embedding = Some texts ->
                       exists u, embed_documents texts = Ok u) ->
        exists st1 res st',
          run = (match res with Ok _ => Ok message | Raise e => Raise e end,
                 st')
          /\ message_stored (AIMessage text) message s (env, mgr) s1 st1
          /\ Manager._check_and_update_summary settings llm tokenizer_encode
               now st1 = (res, st')
          /\ checked (memory_summary_trigger settings)
               (summary_result llm tokenizer_encode
                  (Manager.short_term (snd st1)))
               s1 st1 res st').
Proof.
  intros HT Hc [Hderef Hget] run embedding.
  pose proof (deref_found _ _ _ _ Hderef) as Hpk.
  pose proof (get_session_found _ _ _ _ Hget) as Hsid.
  destruct (add_message_counts (Manager.db env)
              (assistant_message_data mgr text sources)
              (Manager.session mgr) now (Manager.session_id mgr) s
              Hc Hpk Hsid eq_refl)
    as [db1 [Hadd [Hcommit [Hc1 [Hpk1 [Hsid1 Hrows1]]]]]].
  unfold run. rewrite add_assistant_message_run, Hadd. cbv zeta. rewrite Hpk1.
  fold (buffer_after (Manager.short_term mgr) (AIMessage text)).
  set (stm1 := buffer_after (Manager.short_term mgr) (AIMessage text)) in *.
  set (mgr1 := Manager.set_short_term stm1 mgr).
  set (env1 := Manager.set_db db1 env).
  set (s1 := LongTerm.count_message now s).
  set (message := new_message_row (Manager.db env)
                    (assistant_message_data mgr text sources) now).
  assert (Hstored :
    forall disk2 sem2,
      message_stored (AIMessage text) message s (env, mgr) s1
        (Manager.set_disk disk2 env1, Manager.set_semantic sem2 mgr1)).
  { intros disk2 sem2.
    apply (message_stored_after_add _ now _ env mgr s db1);
      try assumption; try reflexivity; destruct env, mgr; reflexivity. }
  assert (Hsame : (env1, mgr1)
                  = (Manager.set_disk (Manager.disk env1) env1,
                     Manager.set_semantic (Manager.semantic mgr1) mgr1))
    by (destruct env, mgr; reflexivity).
  assert (Hpk1' : find (fun r => ChatSession.id r =? Manager.session mgr1)
                       (chat_sessions (pending (Manager.db env1)))
                  = Some s1)
    by (destruct env, mgr; exact Hpk1).
  pose proof (semantic_step_run fs embed_documents env1 mgr1 s1 Hpk1') as Hstep.
  cbv zeta in Hstep.
  replace (Manager.session_id mgr1) with (Manager.session_id mgr) in Hstep
    by (destruct mgr; reflexivity).
  replace (Manager.short_term mgr1) with stm1 in Hstep
    by (destruct mgr; reflexivity).
  change (ChatSession.total_messages s1)
    with (ChatSession.total_messages s + 1) in Hstep.
  fold embedding in Hstep.
  change (ChatSession.total_messages s1)
    with (ChatSession.total_messages s + 1).
  assert (Hcheck :
    forall st1,
      message_stored (AIMessage text) message s (env, mgr) s1 st1 ->
      exists res st',
        Manager._check_and_update_summary settings llm tokenizer_encode now st1
        = (res, st')
        /\ checked (memory_summary_trigger settings)
             (summary_result llm tokenizer_encode
                (Manager.short_term (snd st1)))
             s1 st1 res st').
  { intros [env2 mgr2] Hst.
    apply (check_and_update_summary_checked settings llm tokenizer_encode now
             env2 mgr2 s1 HT); apply Hst. }
  exists message, s1. split.
  - intros texts e He Hraise. rewrite He in Hstep. rewrite Hraise in Hstep.
    rewrite Hstep. exists (env1, mgr1). split; [reflexivity |].
    rewrite Hsame. apply Hstored.
  - intros Hpass. destruct embedding as [texts |].
    + destruct (Hpass texts eq_refl) as [u Hu]. rewrite Hu in Hstep.
      destruct Hstep as [disk2 [sem2 Hstep]]. rewrite Hstep.
      destruct (Hcheck _ (Hstored disk2 sem2)) as [res [st' [Hrun Hchecked]]].
      rewrite Hrun. eexists. exists res, st'.
      split; [destruct res as [[] | e]; reflexivity |].
      split; [apply Hstored |]. split; [exact Hrun | exact Hchecked].
    + rewrite Hstep.
      assert (Hst : message_stored (AIMessage text) message s (env, mgr) s1
                      (env1, mgr1)) by (rewrite Hsame; apply Hstored).
      destruct (Hcheck _ Hst) as [res [st' [Hrun Hchecked]]].
      rewrite Hrun. eexists. exists res, st'.
      split; [destruct res as [[] | e]; reflexivity |].
      split; [exact Hst |]. split; [exact Hrun | exact Hchecked].
Qed.

(** C6, as the code has it.  With [memory_summary_trigger = T > 0], for a
    manager whose session object is the row of its session id in a store
    that satisfies its constraints.  [_check_and_update_summary] requests
    a conversation summary exactly when the session's [total_messages] is a
    positive multiple of [T], that is, when [total_messages >= T] and
    [total_messages mod T = 0]; at any other count it changes nothing; a
    summary that is not empty becomes the [summary] of the committed
    session row, whatever the summary was before; an empty one and an
    exception of the request (the tokenizer's) leave the row as it was,
    and the exception comes out of the check.  [add_user_message] stores
    the message and then runs the check on the count that it has reached;
    its result is that of the check.  So does [add_assistant_message]
    when its semantic step does not raise; when the step raises (the
    embedding request, at every fourth message), the call raises with the
    message stored and without the check: no summary is requested,
    whatever the count. *)
Theorem summary_trigger_exact :
  forall (settings : Settings) (fs : Semantic.FileSystem) (llm : ChatModel)
         (tokenizer_encode : string -> exc (list Z))
         (embed_documents : list string -> exc unit)
         (text : string) (sources : option (list dict)) (now : Z)
         (env : Manager.Env) (mgr : Manager.UnifiedMemoryManager)
         (s : ChatSession.t),
    0 < memory_summary_trigger settings ->
    Sql.constraints_hold (pending (Manager.db env)) = true ->
    Sql.deref (Manager.session mgr) (Manager.db env) = (Ok s, Manager.db env) ->
    LongTerm.get_session (Manager.session_id mgr) (Manager.db env)
    = (Ok (Some s), Manager.db env) ->
    let T := memory_summary_trigger settings in
    let check := Manager._check_and_update_summary settings llm
                   tokenizer_encode now in
    let request (st : Manager.St) :=
      fst (ShortTerm.get_conversation_summary llm tokenizer_encode
             (Manager.short_term (snd st))) in
    let result (res : exc unit) (message : ChatMessage.t)
      : exc Manager.ChatMessageResponse :=
      match res with Ok _ => Ok message | Raise e => Raise e end in
    let embedding :=
      snippet_request (Manager.session_id mgr)
        (ChatSession.total_messages s + 1)
        (buffer_after (Manager.short_term mgr) (AIMessage text)) in
    (forall n, positive_multiple T n <-> n >= T /\ n mod T = 0)
    /\ (exists res st',
           check (env, mgr) = (res, st')
           /\ checked T (request (env, mgr)) s (env, mgr) res st')
    /\ (exists message s1 st1 res st',
           Manager.add_user_message settings llm tokenizer_encode text now
             (env, mgr) = (result res message, st')
           /\ message_stored (HumanMessage text) message s (env, mgr) s1 st1
           /\ check st1 = (res, st')
           /\ checked T (request st1) s1 st1 res st')
    /\ (exists message s1,
           (forall texts e,
               embedding = Some texts -> embed_documents texts = Raise e ->
               exists st1,
                 Manager.add_assistant_message settings fs llm tokenizer_encode
                   embed_documents text sources now (env, mgr)
                 = (Raise e, st1)
                 /\ message_stored (AIMessage text) message s (env, mgr) s1 st1)
           /\ ((forall texts, embedding = Some texts ->
                              exists u, embed_documents texts = Ok u) ->
               exists st1 res st',
                 Manager.add_assistant_message settings fs llm tokenizer_encode
                   embed_documents text sources now (env, mgr)
                 = (result res message, st')
                 /\ message_stored (AIMessage text) message s (env, mgr) s1 st1
                 /\ check st1 = (res, st')
                 /\ checked T (request st1) s1 st1 res st')).
Proof.
  intros settings fs llm tok embed text sources now env mgr s HT Hc Hderef Hget
         T check request result embedding.
  assert (Hrow : session_row env mgr s) by (split; assumption).
  split; [intros n; now apply positive_multiple_spec |].
  split; [| split].
  - exact (check_and_update_summary_checked settings llm tok now env mgr s
             HT Hc Hrow).
  - exact (add_user_message_checked settings llm tok text now env mgr s
             HT Hc Hrow).
  - exact (add_assistant_message_checked settings fs llm tok embed text sources
             now env mgr s HT Hc Hrow).
Qed.

(** C6 fails where the embedding request raises.  With [T = 2], three
    stored messages and the embedding service down, the fourth message, an
    answer, is stored and counted and the call raises: the count [4] is a
    positive multiple of [T], and no summary has been requested nor
    stored, although the model would have given one. *)
Lemma add_assistant_message_skips_check :
  exists st' s',
    Manager.add_assistant_message demo_settings demo_fs summarizing_llm
      (fun _ => Ok [1; 2; 3]) failing_embed "fourth" None 140
      (demo_env3, demo_manager3)
    = (Raise (ExternalError "embedding service down"), st')
    /\ session_row (fst st') (snd st') s'
    /\ ChatSession.total_messages s' = 4
    /\ positive_multiple (memory_summary_trigger demo_settings) 4
    /\ Manager.summary_due demo_settings 4 = Ok true
    /\ Manager.log (fst st') = []
    /\ ChatSession.summary s' = None
    /\ fst (ShortTerm.get_conversation_summary summarizing_llm
              (fun _ => Ok [1; 2; 3]) (Manager.short_term (snd st')))
       = Ok "A summary.".
Proof.
  eexists. eexists. split; [vm_compute; reflexivity |].
  split; [split; vm_compute; reflexivity |].
  split; [reflexivity |].
  split; [exists 2; vm_compute; split; [discriminate | reflexivity] |].
  split; [reflexivity |]. split; [reflexivity |].
  split; [reflexivity | vm_compute; reflexivity].
Qed.

(** With [T = 2] and four messages the check requests a summary and
    stores the stripped answer of the model. *)
Lemma summary_trigger_exact_witness :
  exists st' s',
    Manager._check_and_update_summary demo_settings summarizing_llm
      (fun _ => Ok [1; 2; 3]) 150 (demo_env, demo_manager) = (Ok tt, st')
    /\ Manager.log (fst st') = [Manager.SummaryRequested 4]
    /\ session_row (fst st') (snd st') s'
    /\ ChatSession.summary s' = Some "A summary.".
Proof.
  destruct (summary_trigger_exact demo_settings demo_fs summarizing_llm
              (fun _ => Ok [1; 2; 3]) (fun _ => Ok tt) "ok" None 150
              demo_env demo_manager (demo_row 4 140)
              ltac:(simpl; lia) eq_refl eq_refl eq_refl)
    as [_ [[res [st' [Hrun [Hlog [_ Hsum]]]]] _]].
  assert (Hm : positive_multiple 2 4) by (exists 2; lia).
  specialize (Hsum Hm).
  change (match Ok "A summary." with
          | Ok summary =>
              res = Ok tt
              /\ (summary = EmptyString ->
                  Manager.db (fst st') = Manager.db demo_env
                  /\ snd st' = demo_manager)
              /\ (summary <> EmptyString ->
                  exists s',
                    session_row (fst st') (snd st') s'
                    /\ ChatSession.summary s' = Some summary
                    /\ ChatSession.total_messages s' = 4
                    /\ committed (Manager.db (fst st'))
                       = pending (Manager.db (fst st')))
          | Raise e =>
              res = Raise e
              /\ Manager.db (fst st') = Manager.db demo_env
              /\ snd st' = demo_manager
          end) in Hsum.
  destruct Hsum as [Hres [_ Hstore]].
  destruct (Hstore ltac:(discriminate)) as [s' [Hget [Hs _]]].
  exists st', s'. rewrite Hrun, Hres. split; [reflexivity |].
  split; [exact (proj2 Hlog Hm) |]. split; assumption.
Defined.

(* ================================================================== *)
(** * Further properties of the store *)
(* ================================================================== *)

Lemma map_id_map (g : ChatSession.t -> ChatSession.t) (l : list ChatSession.t) :
  keeps_keys g -> map ChatSession.id (map g l) = map ChatSession.id l.
Proof.
  intros Hg. rewrite map_map. apply map_ext. intros s. apply Hg.
Qed.

Lemma nodup_map_injective {A B} (f : A -> B) (l : list A) (a b : A) :
  NoDup (map f l) -> In a l -> In b l -> f a = f b -> a = b.
Proof.
  induction l as [| x l IH]; simpl; intros Hnd Ha Hb E; [contradiction |].
  inversion Hnd as [| ? ? Hnot Hnd']; subst.
  destruct Ha as [-> | Ha], Hb as [-> | Hb]; auto.
  - exfalso. apply Hnot. rewrite E. now apply in_map.
  - exfalso. apply Hnot. rewrite <- E. now apply in_map.
Qed.

Lemma nodup_map_filter {A B} (f : A -> B) (q : A -> bool) (l : list A) :
  NoDup (map f l) -> NoDup (map f (filter q l)).
Proof.
  induction l as [| x l IH]; simpl; intros Hnd; [constructor |].
  inversion Hnd as [| ? ? Hnot Hnd']; subst.
  destruct (q x); simpl; [| auto].
  constructor; [| auto].
  intros Hin. apply Hnot. apply in_map_iff in Hin.
  destruct Hin as [y [E Hy]]. apply filter_In in Hy.
  rewrite <- E. apply in_map. tauto.
Qed.

Lemma find_by_id_unique (l : list ChatSession.t) (s : ChatSession.t) :
  NoDup (map ChatSession.id l) -> In s l ->
  find (fun r => ChatSession.id r =? ChatSession.id s) l = Some s.
Proof.
  intros Hnd Hin.
  destruct (find (fun r => ChatSession.id r =? ChatSession.id s) l) as [r |] eqn:E.
  - apply find_some in E. destruct E as [Hr Heq].
    f_equal. apply (nodup_map_injective ChatSession.id l); auto. lia.
  - apply (find_none _ _ E) in Hin. rewrite Z.eqb_refl in Hin. discriminate.
Qed.

Lemma unique_session_ids_nodup (l : list ChatSession.t) :
  Sql.unique_session_ids l = true -> NoDup (map ChatSession.session_id l).
Proof.
  induction l as [| s l IH]; simpl; intros H; [constructor |].
  apply andb_true_iff in H. destruct H as [Hs Hu].
  constructor; [| auto].
  intros Hin. apply in_map_iff in Hin. destruct Hin as [r [E Hr]].
  apply negb_true_iff in Hs.
  assert (existsb (Sql.session_has_id (ChatSession.session_id s)) l = true).
  { apply existsb_exists. exists r. split; [assumption |].
    now apply session_has_id_eq. }
  congruence.
Qed.

Lemma nodup_unique_session_ids (l : list ChatSession.t) :
  NoDup (map ChatSession.session_id l) -> Sql.unique_session_ids l = true.
Proof.
  induction l as [| s l IH]; simpl; intros H; [reflexivity |].
  inversion H as [| ? ? Hnot Hnd]; subst.
  rewrite IH by assumption. rewrite andb_true_r. apply negb_true_iff.
  destruct (existsb _ l) eqn:E; [| reflexivity].
  apply existsb_exists in E. destruct E as [r [Hr Hid]].
  apply session_has_id_eq in Hid. exfalso. apply Hnot.
  rewrite <- Hid. now apply in_map.
Qed.

Lemma find_filter_implied {A} (p q : A -> bool) (l : list A) :
  (forall x, In x l -> p x = true -> q x = true) ->
  find p (filter q l) = find p l.
Proof.
  induction l as [| x l IH]; simpl; intros H; [reflexivity |].
  destruct (q x) eqn:Eq; simpl.
  - destruct (p x); [reflexivity |]. apply IH. intros; apply H; auto.
  - destruct (p x) eqn:Ep.
    + rewrite (H x (or_introl eq_refl) Ep) in Eq. discriminate.
    + apply IH. intros; apply H; auto.
Qed.

Lemma filter_filter_implied {A} (p q : A -> bool) (l : list A) :
  (forall x, p x = true -> q x = true) ->
  filter p (filter q l) = filter p l.
Proof.
  intros H. induction l as [| x l IH]; simpl; [reflexivity |].
  destruct (q x) eqn:Eq; simpl.
  - now rewrite IH.
  - destruct (p x) eqn:Ep; [| exact IH].
    rewrite (H x Ep) in Eq. discriminate.
Qed.

Lemma filter_filter_excluded {A} (p q : A -> bool) (l : list A) :
  (forall x, p x = true -> q x = false) ->
  filter p (filter q l) = [].
Proof.
  intros H. induction l as [| x l IH]; simpl; [reflexivity |].
  destruct (q x) eqn:Eq; simpl; [| exact IH].
  destruct (p x) eqn:Ep; [| exact IH].
  rewrite (H x Ep) in Eq. discriminate.
Qed.

Lemma constraints_with_deleted (db : Db) (s : ChatSession.t) :
  store_ok db -> In s (chat_sessions (pending db)) ->
  Sql.constraints_hold (with_deleted db s) = true.
Proof.
  intros [Hc [_ [Hnd _]]] Hin.
  unfold Sql.constraints_hold in *. apply andb_true_iff in Hc.
  destruct Hc as [Hu Hk]. apply andb_true_iff. split.
  - apply nodup_unique_session_ids. simpl. apply nodup_map_filter.
    now apply unique_session_ids_nodup.
  - unfold Sql.foreign_keys_hold in *. simpl. rewrite forallb_forall in *.
    intros m Hm. apply filter_In in Hm. destruct Hm as [Hm Hnot].
    specialize (Hk m Hm). apply existsb_exists in Hk.
    destruct Hk as [r [Hr Hid]]. apply existsb_exists. exists r.
    split; [| exact Hid]. apply filter_In. split; [exact Hr |].
    apply negb_true_iff. apply Z.eqb_neq. intros E.
    assert (r = s)
      by (apply (nodup_map_injective ChatSession.id _ r s Hnd Hr Hin E)).
    subst r. apply session_has_id_eq in Hid.
    unfold Sql.message_of_session in Hnot. rewrite <- Hid in Hnot.
    rewrite String.eqb_refl in Hnot. discriminate.
Qed.

Lemma delete_session_run (db : Db) (sid : string) (s : ChatSession.t) :
  store_ok db ->
  find (Sql.session_has_id sid) (chat_sessions (pending db)) = Some s ->
  LongTerm.delete_session sid db
  = (Ok true, {| committed := with_deleted db s; pending := with_deleted db s;
                 session_seq := session_seq db;
                 message_seq := message_seq db |}).
Proof.
  intros Hok Hf.
  assert (Hin : In s (chat_sessions (pending db)))
    by (apply find_some in Hf; tauto).
  pose proof (constraints_with_deleted db s Hok Hin) as Hc.
  unfold LongTerm.delete_session, LongTerm.get_session, bind at 1, gets.
  rewrite Hf. unfold bind, Sql.delete_row, modify, Sql.commit, Sql.with_pending.
  cbn [pending committed session_seq message_seq].
  fold (with_deleted db s). rewrite Hc. reflexivity.
Qed.

Lemma store_ok_with_deleted (db : Db) (s : ChatSession.t) :
  store_ok db -> In s (chat_sessions (pending db)) ->
  store_ok {| committed := with_deleted db s; pending := with_deleted db s;
              session_seq := session_seq db; message_seq := message_seq db |}.
Proof.
  intros Hok Hin. pose proof (constraints_with_deleted db s Hok Hin) as Hc.
  destruct Hok as [_ [Hfresh [Hnd _]]].
  split; [exact Hc |]. split; [| split; [| reflexivity]].
  - unfold session_keys_fresh in *. simpl. rewrite forallb_forall in *.
    intros r Hr. apply filter_In in Hr. apply Hfresh. tauto.
  - simpl. now apply nodup_map_filter.
Qed.

(** X1.  [delete_session] on a store in order: it returns [False] and changes
    nothing when the session is absent; otherwise it returns [True] and
    the session row and every message of the session are gone from the
    committed store, while the rows and messages of every other session
    are as before.  The store is in order afterwards. *)
Theorem delete_session_cascades :
  forall (db : Db) (sid : string),
    store_ok db ->
    exists b db',
      LongTerm.delete_session sid db = (Ok b, db')
      /\ store_ok db'
      /\ (b = false <-> LongTerm.get_session sid db = (Ok None, db))
      /\ (b = false -> db' = db)
      /\ LongTerm.get_session sid db' = (Ok None, db')
      /\ LongTerm.get_message_count sid db' = (Ok 0, db')
      /\ (forall sid',
             sid' <> sid ->
             fst (LongTerm.get_session sid' db') = fst (LongTerm.get_session sid' db)
             /\ session_rows sid' db' = session_rows sid' db).
Proof.
  intros db sid Hok.
  destruct (find (Sql.session_has_id sid) (chat_sessions (pending db)))
    as [s |] eqn:Hf.
  - assert (Hin : In s (chat_sessions (pending db)))
      by (apply find_some in Hf; tauto).
    assert (Hsid : ChatSession.session_id s = sid)
      by (apply find_some in Hf; now apply session_has_id_eq).
    eexists. eexists. split; [exact (delete_session_run db sid s Hok Hf) |].
    split; [exact (store_ok_with_deleted db s Hok Hin) |].
    destruct Hok as [Hc [_ [Hnd _]]].
    assert (Hu : NoDup (map ChatSession.session_id (chat_sessions (pending db)))).
    { apply unique_session_ids_nodup. unfold Sql.constraints_hold in Hc.
      apply andb_true_iff in Hc. tauto. }
    split.
    { split; [discriminate |]. unfold LongTerm.get_session, gets.
      rewrite Hf. discriminate. }
    split; [discriminate |].
    split.
    { unfold LongTerm.get_session, gets. simpl. f_equal. f_equal.
      apply find_none_existsb.
      destruct (existsb _ _) eqn:E; [| reflexivity].
      apply existsb_exists in E. destruct E as [r [Hr Hid]].
      apply filter_In in Hr. destruct Hr as [Hr Hne].
      apply session_has_id_eq in Hid.
      assert (r = s)
        by (apply (nodup_map_injective ChatSession.session_id _ r s Hu Hr Hin);
            congruence).
      subst r. rewrite Z.eqb_refl in Hne. discriminate. }
    split.
    { unfold LongTerm.get_message_count, gets. simpl. rewrite Hsid.
      rewrite filter_filter_excluded; [reflexivity |].
      intros m Hm. now rewrite Hm. }
    intros sid' Hne. split.
    + unfold LongTerm.get_session, gets. simpl. f_equal.
      apply find_filter_implied. intros r Hr Hid.
      apply session_has_id_eq in Hid. apply negb_true_iff, Z.eqb_neq.
      intros E.
      assert (r = s)
        by (apply (nodup_map_injective ChatSession.id _ r s Hnd Hr Hin E)).
      subst r. congruence.
    + unfold session_rows. simpl. apply filter_filter_implied.
      intros m Hm. unfold Sql.message_of_session in *.
      apply String.eqb_eq in Hm. apply negb_true_iff.
      apply String.eqb_neq. congruence.
  - exists false, db.
    unfold LongTerm.delete_session, LongTerm.get_session, bind, gets, ret.
    rewrite Hf. split; [reflexivity |]. split; [assumption |].
    split; [tauto |]. split; [reflexivity |]. split; [reflexivity |].
    split; [| auto].
    unfold LongTerm.get_message_count, gets.
    fold (session_rows sid db).
    rewrite (no_session_no_rows db sid (proj1 Hok) Hf). reflexivity.
Qed.

Lemma store_ok_empty : store_ok empty_db.
Proof. repeat split. constructor. Qed.

Lemma demo_db_ok : store_ok demo_db.
Proof.
  split; [vm_compute; reflexivity |]. split; [vm_compute; reflexivity |].
  split; [| vm_compute; reflexivity].
  vm_compute. repeat constructor. intros [].
Qed.

(** The session ["s1"] and its three messages are deleted. *)
Lemma delete_session_cascades_witness :
  exists db',
    LongTerm.delete_session "s1" demo_db = (Ok true, db')
    /\ LongTerm.get_session "s1" db' = (Ok None, db')
    /\ LongTerm.get_message_count "s1" db' = (Ok 0, db').
Proof.
  destruct (delete_session_cascades demo_db "s1" demo_db_ok)
    as [b [db' [H1 [_ [H3 [_ [H5 [H6 _]]]]]]]].
  exists db'. split; [| split; assumption].
  destruct b; [exact H1 |].
  exfalso. pose proof (proj1 H3 eq_refl) as H.
  apply (f_equal fst) in H. vm_compute in H. discriminate.
Defined.

Lemma store_ok_with_update (db : Db) (s : ChatSession.t)
      (u : ChatSessionUpdate.t) (now : Z) :
  store_ok db ->
  store_ok {| committed := with_update db s u now;
              pending := with_update db s u now;
              session_seq := session_seq db; message_seq := message_seq db |}.
Proof.
  intros [Hc [Hfresh [Hnd _]]].
  pose proof (on_row_keeps_keys (ChatSession.id s) _
                (apply_update_keeps_keys u now)) as Hk.
  split; [| split; [| split; [| reflexivity]]].
  - unfold with_update. cbn [pending].
    rewrite (constraints_hold_map _ (pending db) Hk). exact Hc.
  - unfold session_keys_fresh in *. cbn [pending session_seq with_update chat_sessions].
    rewrite forallb_forall in *. intros r Hr. apply in_map_iff in Hr.
    destruct Hr as [r0 [<- Hr0]]. rewrite (proj1 (Hk r0)). now apply Hfresh.
  - cbn [pending with_update chat_sessions]. now rewrite map_id_map.
Qed.

(** X2.  [update_session] on a store in order.  For an absent session it raises
    [ValueError] and changes nothing.  For a present one it returns the
    committed row: [last_activity] is the clock reading, each of
    [summary], [total_messages] and [session_metadata] is the given value
    when one is given and the old value otherwise, and the keys, the
    documents, the user and the creation time are as before; the messages
    and the rows of the other sessions are untouched. *)
Theorem update_session_partial :
  forall (db : Db) (sid : string) (u : ChatSessionUpdate.t) (now : Z),
    store_ok db ->
    (LongTerm.get_session sid db = (Ok None, db) ->
     LongTerm.update_session sid u now db
     = (Raise (ValueError ("Session " +++ sid +++ " not found")), db))
    /\ (forall s,
           LongTerm.get_session sid db = (Ok (Some s), db) ->
           exists s' db',
             LongTerm.update_session sid u now db = (Ok s', db')
             /\ store_ok db'
             /\ LongTerm.get_session sid db' = (Ok (Some s'), db')
             /\ ChatSession.last_activity s' = now
             /\ ChatSession.summary s'
                = match ChatSessionUpdate.summary u with
                  | Some text => Some text
                  | None => ChatSession.summary s
                  end
             /\ ChatSession.total_messages s'
                = match ChatSessionUpdate.total_messages u with
                  | Some n => n
                  | None => ChatSession.total_messages s
                  end
             /\ ChatSession.session_metadata s'
                = match ChatSessionUpdate.session_metadata u with
                  | Some d => Some d
                  | None => ChatSession.session_metadata s
                  end
             /\ (ChatSession.id s', ChatSession.session_id s',
                 ChatSession.pdf_ids s', ChatSession.user_id s',
                 ChatSession.created_at s')
                = (ChatSession.id s, ChatSession.session_id s,
                   ChatSession.pdf_ids s, ChatSession.user_id s,
                   ChatSession.created_at s)
             /\ chat_messages (committed db') = chat_messages (committed db)
             /\ (forall sid',
                    sid' <> sid ->
                    fst (LongTerm.get_session sid' db')
                    = fst (LongTerm.get_session sid' db))).
Proof.
  intros db sid u now Hok. split.
  - intros H. apply (f_equal fst) in H.
    unfold LongTerm.get_session, gets in H. simpl in H.
    unfold LongTerm.update_session, LongTerm.get_session, bind, gets.
    inversion H as [E]. now rewrite E.
  - intros s Hget. apply get_session_found in Hget.
    assert (Hin : In s (chat_sessions (pending db)))
      by (apply find_some in Hget; tauto).
    assert (Hsid : ChatSession.session_id s = sid)
      by (apply find_some in Hget; now apply session_has_id_eq).
    destruct Hok as [Hc [Hfresh [Hnd Hclean]]].
    pose proof (find_by_id_unique _ s Hnd Hin) as Hpk.
    pose proof (on_row_keeps_keys (ChatSession.id s) _
                  (apply_update_keeps_keys u now)) as Hk.
    exists (LongTerm.apply_update u now s). eexists.
    split; [exact (update_session_run db sid u now s Hc Hget Hpk) |].
    split; [apply store_ok_with_update; repeat split; assumption |].
    split.
    { unfold LongTerm.get_session, gets, with_update.
      cbn [pending chat_sessions]. rewrite find_map_stable, Hget.
      - simpl. unfold on_row. now rewrite Z.eqb_refl.
      - intros x. unfold Sql.session_has_id. now rewrite (proj2 (Hk x)). }
    do 5 (split; [reflexivity |]).
    split; [cbn [committed with_update chat_messages]; now rewrite Hclean |].
    intros sid' Hne. unfold LongTerm.get_session, gets, with_update.
    cbn [fst pending chat_sessions]. f_equal.
    rewrite find_map_stable
      by (intros x; unfold Sql.session_has_id; now rewrite (proj2 (Hk x))).
    destruct (find (Sql.session_has_id sid') _) as [r |] eqn:Hr; [| reflexivity].
    simpl. f_equal. unfold on_row.
    destruct (Z.eqb_spec (ChatSession.id r) (ChatSession.id s)) as [E |];
      [| reflexivity].
    apply find_some in Hr. destruct Hr as [Hrin Hrid].
    apply session_has_id_eq in Hrid.
    assert (r = s)
      by (apply (nodup_map_injective ChatSession.id _ r s Hnd Hrin Hin E)).
    subst r. congruence.
Qed.

(** The summary of ["s1"] is set; its counter stays at 3. *)
Lemma update_session_partial_witness :
  exists s' db',
    LongTerm.update_session "s1" (summary_update "About certificates.") 200
      demo_db = (Ok s', db')
    /\ ChatSession.summary s' = Some "About certificates."
    /\ ChatSession.total_messages s' = 3
    /\ ChatSession.last_activity s' = 200.
Proof.
  destruct (proj2 (update_session_partial demo_db "s1"
                     (summary_update "About certificates.") 200 demo_db_ok)
              _ eq_refl)
    as [s' [db' [H1 [_ [_ [H4 [H5 [H6 _]]]]]]]].
  exists s', db'. repeat split; assumption.
Defined.

Lemma find_by_session_id_unique (l : list ChatSession.t) (s : ChatSession.t) :
  Sql.unique_session_ids l = true -> In s l ->
  find (Sql.session_has_id (ChatSession.session_id s)) l = Some s.
Proof.
  intros Hu Hin. apply unique_session_ids_nodup in Hu.
  destruct (find (Sql.session_has_id (ChatSession.session_id s)) l)
    as [r |] eqn:E.
  - apply find_some in E. destruct E as [Hr Heq].
    apply session_has_id_eq in Heq. f_equal.
    apply (nodup_map_injective ChatSession.session_id l); auto.
  - apply (find_none _ _ E) in Hin. unfold Sql.session_has_id in Hin.
    rewrite String.eqb_refl in Hin. discriminate.
Qed.

Lemma store_ok_with_new_session (db : Db) (sid : string) (pdfs : list Z)
      (uid : option string) (now : Z) :
  store_ok db ->
  find (Sql.session_has_id sid) (chat_sessions (pending db)) = None ->
  store_ok (with_new_session db (new_session_row db sid pdfs uid now)).
Proof.
  intros [Hc [Hfresh [Hnd _]]] Hf.
  split; [| split; [| split; [| reflexivity]]].
  - unfold Sql.constraints_hold in *. cbn [pending with_new_session chat_sessions].
    apply andb_true_iff in Hc. destruct Hc as [Hu Hk].
    rewrite unique_session_ids_snoc by assumption.
    destruct (pending db) as [ss ms]. simpl in *.
    now rewrite foreign_keys_more_sessions.
  - unfold session_keys_fresh in *.
    cbn [pending with_new_session chat_sessions session_seq].
    rewrite forallb_app. simpl. rewrite andb_true_r.
    apply andb_true_iff. split; [| lia].
    rewrite forallb_forall in *. intros r Hr. specialize (Hfresh r Hr). lia.
  - cbn [pending with_new_session chat_sessions]. rewrite map_app.
    apply NoDup_app; [assumption | repeat constructor; intros [] |].
    intros k Hk [<- | []]. apply in_map_iff in Hk. destruct Hk as [r [E Hr]].
    unfold session_keys_fresh in Hfresh. rewrite forallb_forall in Hfresh.
    specialize (Hfresh r Hr). simpl in E. lia.
Qed.

Lemma store_ok_with_new_message (db : Db) (data : ChatMessageCreate.t)
      (pk now : Z) :
  store_ok db ->
  Sql.constraints_hold (with_new_message db data pk now) = true ->
  store_ok {| committed := with_new_message db data pk now;
              pending := with_new_message db data pk now;
              session_seq := session_seq db;
              message_seq := message_seq db + 1 |}.
Proof.
  intros [_ [Hfresh [Hnd _]]] Hc.
  assert (Hk : keeps_keys (bump pk now))
    by (intros s; split; [apply bump_id | apply bump_session_id]).
  split; [exact Hc |]. split; [| split; [| reflexivity]].
  - unfold session_keys_fresh in *.
    cbn [pending with_new_message chat_sessions session_seq].
    fold (bump pk now). rewrite forallb_forall in *. intros r Hr.
    apply in_map_iff in Hr. destruct Hr as [r0 [<- Hr0]].
    rewrite bump_id. now apply Hfresh.
  - cbn [pending with_new_message chat_sessions]. fold (bump pk now).
    now rewrite map_id_map.
Qed.

(** The rows of a session in a store whose tables are given. *)
Lemma session_rows_tables (sid : string) (db db' : Db) :
  chat_messages (pending db') = chat_messages (pending db) ->
  session_rows sid db' = session_rows sid db.
Proof. unfold session_rows. now intros ->. Qed.

Lemma counters_with_new_session (db : Db) (sid : string) (pdfs : list Z)
      (uid : option string) (now : Z) :
  store_ok db -> counters_match db ->
  find (Sql.session_has_id sid) (chat_sessions (pending db)) = None ->
  counters_match (with_new_session db (new_session_row db sid pdfs uid now)).
Proof.
  intros Hok Hcnt Hf. unfold counters_match in *.
  cbn [pending with_new_session chat_sessions]. apply Forall_app. split.
  - eapply Forall_impl; [| exact Hcnt]. intros r Hr. exact Hr.
  - constructor; [| constructor]. cbn [ChatSession.total_messages
      ChatSession.session_id new_session_row].
    change (session_rows sid
              (with_new_session db (new_session_row db sid pdfs uid now)))
      with (session_rows sid db).
    now rewrite (no_session_no_rows db sid (proj1 Hok) Hf).
Qed.

Lemma counters_with_new_message (db : Db) (data : ChatMessageCreate.t)
      (pk now : Z) (s : ChatSession.t) :
  store_ok db -> counters_match db ->
  find (fun r => ChatSession.id r =? pk) (chat_sessions (pending db)) = Some s ->
  ChatSession.session_id s = ChatMessageCreate.session_id data ->
  counters_match {| committed := with_new_message db data pk now;
                    pending := with_new_message db data pk now;
                    session_seq := session_seq db;
                    message_seq := message_seq db + 1 |}.
Proof.
  intros [Hc [_ [Hnd _]]] Hcnt Hpk Hsid.
  assert (Hin : In s (chat_sessions (pending db)))
    by (apply find_some in Hpk; tauto).
  assert (Hid : ChatSession.id s = pk) by (apply find_some in Hpk; lia).
  assert (Hu : NoDup (map ChatSession.session_id (chat_sessions (pending db)))).
  { apply unique_session_ids_nodup. unfold Sql.constraints_hold in Hc.
    apply andb_true_iff in Hc. tauto. }
  unfold counters_match in *. cbn [pending with_new_message chat_sessions].
  rewrite Forall_forall in *. intros r Hr. apply in_map_iff in Hr.
  destruct Hr as [r0 [<- Hr0]]. specialize (Hcnt r0 Hr0).
  change (if ChatSession.id r0 =? pk then LongTerm.count_message now r0 else r0)
    with (bump pk now r0).
  rewrite bump_session_id.
  unfold session_rows in *. unfold with_new_message. cbn [pending chat_messages].
  rewrite filter_app, len_app. cbn [filter].
  unfold Sql.message_of_session at 2. cbn [ChatMessage.session_id new_message_row].
  unfold bump.
  destruct (Z.eqb_spec (ChatSession.id r0) pk) as [E | E].
  - assert (r0 = s)
      by (apply (nodup_map_injective ChatSession.id _ r0 s Hnd Hr0 Hin);
          congruence).
    subst r0. cbn [ChatSession.total_messages LongTerm.count_message].
    rewrite Hsid, String.eqb_refl. rewrite Hsid in Hcnt. rewrite Hcnt.
    reflexivity.
  - destruct (String.eqb_spec (ChatMessageCreate.session_id data)
                (ChatSession.session_id r0)) as [E' | _].
    + exfalso. apply E. rewrite <- Hid. f_equal.
      apply (nodup_map_injective ChatSession.session_id _ r0 s Hu Hr0 Hin).
      congruence.
    + rewrite Hcnt. change (len (@nil ChatMessage.t)) with 0. lia.
Qed.

Lemma counters_with_update (db : Db) (s : ChatSession.t)
      (u : ChatSessionUpdate.t) (now : Z) :
  ChatSessionUpdate.total_messages u = None ->
  counters_match db ->
  counters_match {| committed := with_update db s u now;
                    pending := with_update db s u now;
                    session_seq := session_seq db;
                    message_seq := message_seq db |}.
Proof.
  intros Hu Hcnt. unfold counters_match in *.
  cbn [pending with_update chat_sessions].
  rewrite Forall_forall in *. intros r Hr. apply in_map_iff in Hr.
  destruct Hr as [r0 [<- Hr0]]. specialize (Hcnt r0 Hr0).
  unfold session_rows in *. cbn [pending with_update chat_messages].
  unfold on_row. destruct (_ =? _); [| exact Hcnt].
  cbn [ChatSession.total_messages ChatSession.session_id LongTerm.apply_update].
  now rewrite Hu.
Qed.

Lemma counters_with_deleted (db : Db) (s : ChatSession.t) :
  store_ok db -> counters_match db -> In s (chat_sessions (pending db)) ->
  counters_match {| committed := with_deleted db s; pending := with_deleted db s;
                    session_seq := session_seq db;
                    message_seq := message_seq db |}.
Proof.
  intros [Hc [_ [Hnd _]]] Hcnt Hin.
  assert (Hu : NoDup (map ChatSession.session_id (chat_sessions (pending db)))).
  { apply unique_session_ids_nodup. unfold Sql.constraints_hold in Hc.
    apply andb_true_iff in Hc. tauto. }
  unfold counters_match in *. cbn [pending with_deleted chat_sessions].
  rewrite Forall_forall in *. intros r Hr. apply filter_In in Hr.
  destruct Hr as [Hr Hne]. specialize (Hcnt r Hr). rewrite Hcnt.
  unfold session_rows. cbn [pending with_deleted chat_messages]. f_equal.
  symmetry. apply filter_filter_implied.
  intros m Hm. unfold Sql.message_of_session in *.
  apply String.eqb_eq in Hm. apply negb_true_iff, String.eqb_neq.
  intros E. apply negb_true_iff, Z.eqb_neq in Hne. apply Hne. f_equal.
  apply (nodup_map_injective ChatSession.session_id _ r s Hu Hr Hin).
  congruence.
Qed.

(** X3.  The store stays in order and its counters stay exact.  From a store
    in order in which every session's [total_messages] is the number of
    its message rows (the empty store is one): [get_or_create_session]
    returns; [add_message] returns when it is given the session object of
    the session named in the message; and after each of these, after an
    [update_session] that gives no [total_messages], returned or raised,
    and after [delete_session], the store is again in order with every
    counter equal to the number of rows of its session. *)
Theorem store_invariants_kept :
  forall (db : Db),
    store_ok db -> counters_match db ->
    (forall sid pdfs uid now,
        exists s db',
          LongTerm.get_or_create_session sid pdfs uid now db = (Ok s, db')
          /\ store_ok db' /\ counters_match db')
    /\ (forall data pk now s,
           Sql.deref pk db = (Ok s, db) ->
           ChatSession.session_id s = ChatMessageCreate.session_id data ->
           exists m db',
             LongTerm.add_message data pk now db = (Ok m, db')
             /\ store_ok db' /\ counters_match db')
    /\ (forall sid u now res db',
           ChatSessionUpdate.total_messages u = None ->
           LongTerm.update_session sid u now db = (res, db') ->
           store_ok db' /\ counters_match db')
    /\ (forall sid,
           exists b db',
             LongTerm.delete_session sid db = (Ok b, db')
             /\ store_ok db' /\ counters_match db').
Proof.
  intros db Hok Hcnt. split; [| split; [| split]].
  - intros sid pdfs uid now.
    destruct (find (Sql.session_has_id sid) (chat_sessions (pending db)))
      as [s |] eqn:Hf.
    + exists s, db. split; [now apply get_or_create_session_present | auto].
    + eexists. eexists.
      split; [apply get_or_create_session_absent; [apply Hok | exact Hf] |].
      split; [now apply store_ok_with_new_session
             | now apply counters_with_new_session].
  - intros data pk now s Hderef Hsid. apply deref_found in Hderef.
    assert (Hin : In s (chat_sessions (pending db)))
      by (apply find_some in Hderef; tauto).
    assert (Hcons : Sql.constraints_hold (with_new_message db data pk now) = true).
    { apply constraints_with_new_message; [apply Hok |].
      rewrite <- Hsid. apply existsb_exists. exists s. split; [assumption |].
      now apply session_has_id_eq. }
    eexists. eexists. rewrite add_message_run_store, Hderef, Hcons.
    split; [reflexivity |].
    split; [now apply store_ok_with_new_message
           | now apply (counters_with_new_message db data pk now s)].
  - intros sid u now res db' Hu Hrun.
    destruct (find (Sql.session_has_id sid) (chat_sessions (pending db)))
      as [s |] eqn:Hf.
    + assert (Hin : In s (chat_sessions (pending db)))
        by (apply find_some in Hf; tauto).
      rewrite (update_session_run db sid u now s (proj1 Hok) Hf) in Hrun
        by (apply find_by_id_unique; [apply Hok | exact Hin]).
      inversion Hrun; subst.
      split; [now apply store_ok_with_update | now apply counters_with_update].
    + unfold LongTerm.update_session, LongTerm.get_session, bind, gets in Hrun.
      rewrite Hf in Hrun. unfold raise in Hrun. inversion Hrun; subst. auto.
  - intros sid.
    destruct (find (Sql.session_has_id sid) (chat_sessions (pending db)))
      as [s |] eqn:Hf.
    + assert (Hin : In s (chat_sessions (pending db)))
        by (apply find_some in Hf; tauto).
      eexists. eexists. split; [exact (delete_session_run db sid s Hok Hf) |].
      split; [now apply store_ok_with_deleted | now apply counters_with_deleted].
    + exists false, db.
      unfold LongTerm.delete_session, LongTerm.get_session, bind, gets, ret.
      rewrite Hf. auto.
Qed.

Lemma counters_match_empty : counters_match empty_db.
Proof. constructor. Qed.

(** From the empty store: a session is created and a message is added
    through its session object; the store is in order and exact. *)
Lemma store_invariants_kept_witness :
  exists s db1 m db2,
    LongTerm.get_or_create_session "s1" [1; 2] None 100 empty_db = (Ok s, db1)
    /\ LongTerm.add_message (demo_message "s1" "user" "first")
         (ChatSession.id s) 110 db1 = (Ok m, db2)
    /\ store_ok db2 /\ counters_match db2.
Proof.
  destruct (proj1 (store_invariants_kept empty_db store_ok_empty
                     counters_match_empty) "s1" [1; 2] None 100)
    as [s [db1 [H1 [Hok1 Hcnt1]]]].
  assert (E : (s, db1)
              = (new_session_row empty_db "s1" [1; 2] None 100,
                 with_new_session empty_db
                   (new_session_row empty_db "s1" [1; 2] None 100))).
  { assert (H := H1). vm_compute in H. inversion H. reflexivity. }
  inversion E; subst s db1.
  destruct (proj1 (proj2 (store_invariants_kept _ Hok1 Hcnt1))
              (demo_message "s1" "user" "first") 1 110 _ eq_refl eq_refl)
    as [m [db2 [H2 [Hok2 Hcnt2]]]].
  eexists. eexists. exists m, db2. split; [exact H1 |].
  split; [exact H2 |]. split; assumption.
Defined.

(** ** Reading the store *)

Lemma get_messages_run (engine : Sql.Engine) (sid : string)
      (limit : option Z) (offset : Z) (db : Db) :
  0 <= offset ->
  exists tie,
    LongTerm.get_messages engine sid limit offset db
    = let rows := skipn (Z.to_nat offset)
                    (Sql.order_by ChatMessage.timestamp tie
                       (session_rows sid db)) in
      match limit with
      | None => (Ok rows, db)
      | Some n =>
          if n =? 0 then (Ok rows, db)
          else if n <? 0
               then (Raise (DataError "LIMIT must not be negative"), db)
               else (Ok (firstn (Z.to_nat n) rows), db)
      end.
Proof.
  intros Ho. unfold LongTerm.get_messages, Sql.all.
  fold (session_rows sid db). unfold truthy_int.
  destruct (Z.eqb_spec offset 0) as [-> | Hne]; cbn [negb].
  - destruct limit as [n |]; [destruct (Z.eqb_spec n 0) |];
      cbn [negb Sql.set_limit Sql.set_offset Sql.limit_ Sql.offset_
           Sql.descending Sql.where_ Sql.order_key LongTerm.messages_of
           and_then Z.to_nat skipn];
      eexists; try reflexivity.
    unfold Sql.limit. destruct (n <? 0); reflexivity.
  - destruct limit as [n |]; [destruct (Z.eqb_spec n 0) |];
      cbn [negb Sql.set_limit Sql.set_offset Sql.limit_ Sql.offset_
           Sql.descending Sql.where_ Sql.order_key LongTerm.messages_of];
      unfold Sql.offset; (destruct (Z.ltb_spec offset 0); [lia |]);
      cbn [and_then]; eexists; try reflexivity.
    unfold Sql.limit. destruct (n <? 0); reflexivity.
Qed.

(** X4.  Pages of [get_messages].  For an offset that is not negative and a
    positive limit the call returns at most [limit] messages of the
    session in non-decreasing timestamp order.  When the timestamps of
    the session's messages are pairwise distinct, the pages are cut from
    the one history that [get_messages] returns without offset and limit:
    the page is the [limit] messages of the history after the first
    [offset], so that consecutive pages neither lose nor repeat a message.
    A negative offset or limit is refused by the database.  Without offset
    and limit the result has as many messages as [get_message_count]
    says. *)
Theorem get_messages_pages :
  forall (engine : Sql.Engine) (db : Db) (sid : string),
    (forall offset limit,
        0 <= offset -> 0 < limit ->
        exists page,
          LongTerm.get_messages engine sid (Some limit) offset db
          = (Ok page, db)
          /\ len page <= limit
          /\ StronglySorted (key_le ChatMessage.timestamp) page
          /\ (forall m, In m page -> In m (session_rows sid db)))
    /\ (NoDup (map ChatMessage.timestamp (session_rows sid db)) ->
        exists history,
          LongTerm.get_messages engine sid None 0 db = (Ok history, db)
          /\ Permutation history (session_rows sid db)
          /\ StronglySorted (key_lt ChatMessage.timestamp) history
          /\ forall offset limit,
               0 <= offset -> 0 < limit ->
               let page := firstn (Z.to_nat limit)
                             (skipn (Z.to_nat offset) history) in
               LongTerm.get_messages engine sid (Some limit) offset db
               = (Ok page, db)
               /\ LongTerm.get_messages engine sid None offset db
                  = (Ok (skipn (Z.to_nat offset) history), db)
               /\ skipn (Z.to_nat offset) history
                  = page ++ skipn (Z.to_nat (offset + limit)) history)
    /\ (forall offset limit,
           offset < 0 ->
           exists e,
             LongTerm.get_messages engine sid limit offset db = (Raise e, db))
    /\ (forall offset limit,
           0 <= offset -> limit < 0 ->
           exists e,
             LongTerm.get_messages engine sid (Some limit) offset db
             = (Raise e, db))
    /\ (exists history,
           LongTerm.get_messages engine sid None 0 db = (Ok history, db)
           /\ LongTerm.get_message_count sid db = (Ok (len history), db)).
Proof.
  intros engine db sid. split; [| split; [| split; [| split]]].
  - intros offset limit Ho Hl.
    destruct (get_messages_run engine sid (Some limit) offset db Ho)
      as [tie ->].
    cbv zeta.
    destruct (Z.eqb_spec limit 0); [lia |].
    destruct (Z.ltb_spec limit 0); [lia |].
    eexists. split; [reflexivity |].
    split; [unfold len; rewrite length_firstn; lia |].
    split; [apply sorted_firstn, sorted_skipn, order_by_sorted |].
    intros m Hm.
    eapply Permutation_in; [apply (order_by_perm ChatMessage.timestamp tie) |].
    rewrite <- (firstn_skipn (Z.to_nat offset) (Sql.order_by _ _ _)).
    apply in_or_app. right.
    rewrite <- (firstn_skipn (Z.to_nat limit) (skipn _ _)).
    apply in_or_app. now left.
  - intros Hnd. eexists. split; [apply get_messages_all |].
    split; [apply order_by_perm |].
    split.
    { apply sorted_strict; [| apply order_by_sorted].
      eapply Permutation_NoDup; [| exact Hnd].
      apply Permutation_map. symmetry. apply order_by_perm. }
    intros offset limit Ho Hl page. subst page.
    destruct (get_messages_run engine sid (Some limit) offset db Ho)
      as [tie1 ->].
    destruct (get_messages_run engine sid None offset db Ho) as [tie2 ->].
    cbv zeta.
    destruct (Z.eqb_spec limit 0); [lia |].
    destruct (Z.ltb_spec limit 0); [lia |].
    set (tie := tie_of engine ChatMessage.id (LongTerm.messages_of sid false) db).
    rewrite (order_by_unique ChatMessage.timestamp tie1 tie _ Hnd).
    rewrite (order_by_unique ChatMessage.timestamp tie2 tie _ Hnd).
    split; [reflexivity |]. split; [reflexivity |].
    replace (Z.to_nat (offset + limit))
      with (Z.to_nat limit + Z.to_nat offset)%nat by lia.
    rewrite <- skipn_skipn. symmetry. apply firstn_skipn.
  - intros offset limit Ho.
    unfold LongTerm.get_messages, Sql.all. unfold truthy_int.
    destruct (Z.eqb_spec offset 0) as [Hz | Hnz]; [lia |]. cbn [negb].
    destruct limit as [m |]; [destruct (negb (m =? 0)) |];
      cbn [Sql.set_limit Sql.set_offset Sql.limit_ Sql.offset_
           Sql.descending Sql.where_ Sql.order_key LongTerm.messages_of];
      unfold Sql.offset; (destruct (Z.ltb_spec offset 0); [| lia]);
      cbn [and_then]; eauto.
  - intros offset limit Ho Hl.
    destruct (get_messages_run engine sid (Some limit) offset db Ho)
      as [tie ->].
    cbv zeta.
    destruct (Z.eqb_spec limit 0); [lia |].
    destruct (Z.ltb_spec limit 0); [| lia]. eauto.
  - eexists. split; [apply get_messages_all |].
    unfold LongTerm.get_message_count, gets. fold (session_rows sid db).
    f_equal. f_equal. unfold len. f_equal. apply Permutation_length.
    symmetry. apply order_by_perm.
Qed.

(** Two pages of the three messages of ["s1"], whose timestamps are
    distinct. *)
Lemma get_messages_pages_witness :
  exists history,
    LongTerm.get_messages Sql.table_order "s1" None 0 demo_db
    = (Ok history, demo_db)
    /\ LongTerm.get_messages Sql.table_order "s1" (Some 2) 0 demo_db
       = (Ok (firstn 2 history), demo_db)
    /\ LongTerm.get_messages Sql.table_order "s1" (Some 2) 2 demo_db
       = (Ok (firstn 2 (skipn 2 history)), demo_db)
    /\ history = firstn 2 history ++ firstn 2 (skipn 2 history).
Proof.
  destruct (proj1 (proj2 (get_messages_pages Sql.table_order demo_db "s1"))
              demo_db_timestamps)
    as [history [Hall [_ [_ Hpages]]]].
  exists history. split; [exact Hall |].
  destruct (Hpages 0 2 ltac:(lia) ltac:(lia)) as [H1 _].
  destruct (Hpages 2 2 ltac:(lia) ltac:(lia)) as [H2 _].
  split; [exact H1 |]. split; [exact H2 |].
  apply (f_equal fst) in Hall. vm_compute in Hall.
  injection Hall as <-. reflexivity.
Defined.

Lemma sorted_filter {A} (R : A -> A -> Prop) (f : A -> bool) (l : list A) :
  StronglySorted R l -> StronglySorted R (filter f l).
Proof.
  induction 1 as [| x l Hs IH Hx]; simpl; [constructor |].
  destruct (f x); [| exact IH]. constructor; [exact IH |].
  rewrite Forall_forall in *. intros y Hy. apply filter_In in Hy.
  apply Hx. tauto.
Qed.

(** X5.  [get_all_sessions] with a skip and a limit that are not negative
    returns at most [limit] session rows of the store, the most recently
    active first; with a user that is not the empty string every row
    returned is of that user, and with the empty string the result is
    that of no user at all. *)
Theorem get_all_sessions_listing :
  forall (engine : Sql.Engine) (db : Db) (user_id : option string)
         (skip limit : Z),
    0 <= skip -> 0 <= limit ->
    exists rows,
      LongTerm.get_all_sessions engine user_id skip limit db = (Ok rows, db)
      /\ len rows <= limit
      /\ StronglySorted (key_ge ChatSession.last_activity) rows
      /\ (forall r, In r rows -> In r (chat_sessions (pending db)))
      /\ (forall u, user_id = Some u -> u <> EmptyString ->
                    forall r, In r rows -> ChatSession.user_id r = Some u)
      /\ (user_id = Some EmptyString ->
          LongTerm.get_all_sessions engine None skip limit db = (Ok rows, db)).
Proof.
  intros engine db user_id skip limit Hs Hl.
  unfold LongTerm.get_all_sessions.
  set (base := {| Sql.where_ := fun _ : ChatSession.t => true;
                  Sql.order_key := ChatSession.last_activity;
                  Sql.descending := true;
                  Sql.offset_ := None; Sql.limit_ := None |}).
  set (query := match user_id with
                | Some u => if truthy_str u then Sql.set_where _ base else base
                | None => base
                end).
  assert (Hq : Sql.descending query = true
               /\ Sql.order_key query = ChatSession.last_activity).
  { unfold query. destruct user_id as [u |]; [destruct (truthy_str u) |];
      split; reflexivity. }
  destruct Hq as [Hdesc Hkey].
  unfold Sql.all.
  cbn [Sql.set_limit Sql.set_offset Sql.limit_ Sql.offset_ Sql.descending
       Sql.where_ Sql.order_key].
  rewrite Hdesc, Hkey.
  unfold Sql.offset, Sql.limit.
  destruct (Z.ltb_spec skip 0); [lia |]. cbn [and_then].
  destruct (Z.ltb_spec limit 0); [lia |].
  set (sorted_rows := Sql.order_by_desc ChatSession.last_activity _ _).
  assert (Hsorted : StronglySorted (key_ge ChatSession.last_activity)
                      sorted_rows) by apply order_by_desc_sorted.
  assert (Hin : forall r, In r sorted_rows ->
                          In r (chat_sessions (pending db))
                          /\ Sql.where_ query r = true).
  { intros r Hr. apply filter_In.
    eapply Permutation_in; [apply order_by_desc_perm | exact Hr]. }
  assert (Hsub : forall r,
             In r (firstn (Z.to_nat limit) (skipn (Z.to_nat skip) sorted_rows)) ->
             In r sorted_rows).
  { intros r Hr. rewrite <- (firstn_skipn (Z.to_nat skip) sorted_rows).
    apply in_or_app. right.
    rewrite <- (firstn_skipn (Z.to_nat limit) (skipn _ sorted_rows)).
    apply in_or_app. now left. }
  eexists. split; [reflexivity |].
  split; [unfold len; rewrite length_firstn; lia |].
  split; [apply sorted_firstn, sorted_skipn; exact Hsorted |].
  split; [intros r Hr; apply Hin, Hsub, Hr |].
  split.
  - intros u Hu Hne r Hr. apply Hsub, Hin in Hr. destruct Hr as [_ Hr].
    unfold query in Hr. rewrite Hu, (truthy_str_nonempty u Hne) in Hr.
    cbn [Sql.set_where Sql.where_ base andb] in Hr.
    destruct (ChatSession.user_id r) as [u' |]; [| discriminate].
    apply String.eqb_eq in Hr. now subst.
  - intros Hu. unfold sorted_rows, query. rewrite Hu. reflexivity.
Qed.

(** The sessions of the store, most recently active first. *)
Lemma get_all_sessions_listing_witness :
  exists rows,
    LongTerm.get_all_sessions Sql.table_order None 0 100 demo_db
    = (Ok rows, demo_db)
    /\ len rows <= 100
    /\ StronglySorted (key_ge ChatSession.last_activity) rows.
Proof.
  destruct (get_all_sessions_listing Sql.table_order demo_db None 0 100
              ltac:(lia) ltac:(lia))
    as [rows [H1 [H2 [H3 _]]]].
  exists rows. repeat split; assumption.
Defined.

(* ================================================================== *)
(** * Further properties of the rolling buffer *)
(* ================================================================== *)

Lemma load_messages_batch_valid (msgs : list ShortTerm.MsgDict) :
  forall (self : ShortTerm.ShortTermMemory),
    Forall (fun c => message_of c <> []) msgs ->
    ShortTerm.load_messages_batch msgs self
    = (Ok tt,
       ShortTerm.set_messages self (ShortTerm._messages self ++ added msgs)).
Proof.
  induction msgs as [| c msgs IH]; intros self Hall.
  - simpl. rewrite app_nil_r. destruct self; reflexivity.
  - apply Forall_cons_iff in Hall. destruct Hall as [Hc Hall].
    unfold ShortTerm.load_messages_batch. simpl. unfold bind.
    rewrite append_by_role_run, msgdict_eta.
    destruct (message_of_cases c) as [E | [m E]]; [contradiction |].
    rewrite E. fold (ShortTerm.load_messages_batch msgs).
    rewrite IH by assumption. simpl. now rewrite <- app_assoc.
Qed.

Lemma add_all_untrimmed (msgs : list ShortTerm.MsgDict) :
  forall (self : ShortTerm.ShortTermMemory),
    Forall (fun c => message_of c <> []) msgs ->
    len (ShortTerm._messages self ++ added msgs)
    <= 2 * ShortTerm.messages_to_keep self ->
    add_all msgs self
    = (Ok tt,
       ShortTerm.set_messages self (ShortTerm._messages self ++ added msgs)).
Proof.
  induction msgs as [| c msgs IH]; intros self Hall Hlen.
  - simpl. rewrite app_nil_r. destruct self; reflexivity.
  - apply Forall_cons_iff in Hall. destruct Hall as [Hc Hall].
    unfold add_all. simpl. unfold bind.
    rewrite add_message_run, msgdict_eta.
    destruct (message_of_cases c) as [E | [m E]]; [contradiction |].
    rewrite E. fold (add_all msgs).
    unfold added in Hlen. cbn [flat_map] in Hlen. fold (added msgs) in Hlen.
    rewrite E, app_assoc in Hlen.
    assert (Hno : trim (ShortTerm.messages_to_keep self)
                    (ShortTerm._messages self ++ [m])
                  = ShortTerm._messages self ++ [m]).
    { unfold trim. rewrite len_app in Hlen.
      assert (0 <= len (added msgs)) by (unfold len; lia).
      destruct (Z.gtb_spec (len (ShortTerm._messages self ++ [m]))
                  (ShortTerm.messages_to_keep self * 2)); [lia | reflexivity]. }
    rewrite Hno, IH; [| assumption | exact Hlen].
    unfold ShortTerm.set_messages.
    cbn [ShortTerm._messages ShortTerm.max_tokens_before_summary
         ShortTerm.messages_to_keep ShortTerm.llm_model].
    now rewrite <- app_assoc.
Qed.

Lemma added_formatted (l : list BaseMessage) :
  Forall is_chat l ->
  added (flat_map ShortTerm.format_message l) = l
  /\ Forall (fun c => message_of c <> [])
            (flat_map ShortTerm.format_message l).
Proof.
  induction 1 as [| m l Hm Hl [IH1 IH2]]; [split; [reflexivity | constructor] |].
  destruct m as [c | c | c]; [| | contradiction]; simpl; split;
    try (now rewrite IH1); constructor; auto; discriminate.
Qed.

(** X6.  What [get_recent_messages] returns can be loaded back.  For a buffer
    of user and assistant messages that fits the bound of the receiving
    buffer, [load_from_messages] on the returned dictionaries puts exactly
    that buffer into the receiver, whatever the receiver held, and so does
    [load_messages_batch] into an empty receiver. *)
Theorem buffer_round_trip :
  forall (self other : ShortTerm.ShortTermMemory),
    Forall is_chat (ShortTerm._messages self) ->
    len (ShortTerm._messages self) <= 2 * ShortTerm.messages_to_keep other ->
    exists dicts,
      ShortTerm.get_recent_messages None self = (Ok dicts, self)
      /\ ShortTerm.load_from_messages dicts other
         = (Ok tt, ShortTerm.set_messages other (ShortTerm._messages self))
      /\ ShortTerm.load_messages_batch dicts (ShortTerm.set_messages other [])
         = (Ok tt, ShortTerm.set_messages other (ShortTerm._messages self)).
Proof.
  intros self other Hchat Hlen.
  destruct (added_formatted _ Hchat) as [Hadd Hvalid].
  eexists. split; [reflexivity |]. split.
  - rewrite load_from_messages_run, add_all_untrimmed.
    + simpl. now rewrite Hadd.
    + exact Hvalid.
    + simpl. now rewrite Hadd.
  - rewrite load_messages_batch_valid by exact Hvalid.
    simpl. now rewrite Hadd.
Qed.

(** Four messages go from one buffer to another that held something else. *)
Lemma buffer_round_trip_witness :
  exists dicts,
    ShortTerm.get_recent_messages None demo_full_buffer
    = (Ok dicts, demo_full_buffer)
    /\ ShortTerm.load_from_messages dicts
         (ShortTerm.set_messages (demo_buffer 2) [HumanMessage "old"])
       = (Ok tt,
          ShortTerm.set_messages (demo_buffer 2)
            (ShortTerm._messages demo_full_buffer)).
Proof.
  destruct (buffer_round_trip demo_full_buffer
              (ShortTerm.set_messages (demo_buffer 2) [HumanMessage "old"])
              ltac:(repeat constructor) ltac:(vm_compute; discriminate))
    as [dicts [H1 [H2 _]]].
  exists dicts. split; assumption.
Defined.

Lemma load_messages_batch_invalid (self : ShortTerm.ShortTermMemory)
      (good : list ShortTerm.MsgDict) (bad : ShortTerm.MsgDict)
      (rest : list ShortTerm.MsgDict) :
  Forall (fun c => message_of c <> []) good ->
  message_of bad = [] ->
  ShortTerm.load_messages_batch (good ++ bad :: rest) self
  = (Raise (ShortTerm.invalid_role (ShortTerm.role bad)),
     ShortTerm.set_messages self (ShortTerm._messages self ++ added good)).
Proof.
  intros Hgood Hbad.
  unfold ShortTerm.load_messages_batch. rewrite for_each_app.
  fold (ShortTerm.load_messages_batch good).
  rewrite load_messages_batch_valid by assumption.
  simpl. unfold bind. rewrite append_by_role_run, msgdict_eta, Hbad.
  reflexivity.
Qed.

(** X7.  A role that is neither [user] nor [assistant].  [add_message] raises
    [ValueError] and leaves the buffer as it was.  [load_messages_batch]
    raises at the first such message and keeps what it appended before
    it; [load_from_messages] raises there too, after it has cleared the
    buffer and added the messages before it. *)
Theorem invalid_role_behaviour :
  forall (self : ShortTerm.ShortTermMemory)
         (good : list ShortTerm.MsgDict) (bad : ShortTerm.MsgDict)
         (rest : list ShortTerm.MsgDict),
    Forall (fun c => message_of c <> []) good ->
    message_of bad = [] ->
    ShortTerm.add_message (ShortTerm.role bad) (ShortTerm.content bad) self
    = (Raise (ShortTerm.invalid_role (ShortTerm.role bad)), self)
    /\ ShortTerm.load_messages_batch (good ++ bad :: rest) self
       = (Raise (ShortTerm.invalid_role (ShortTerm.role bad)),
          ShortTerm.set_messages self (ShortTerm._messages self ++ added good))
    /\ ShortTerm.load_from_messages (good ++ bad :: rest) self
       = (Raise (ShortTerm.invalid_role (ShortTerm.role bad)),
          snd (ShortTerm.load_from_messages good self))
    /\ fst (ShortTerm.load_from_messages good self) = Ok tt.
Proof.
  intros self good bad rest Hgood Hbad.
  assert (Hadd : forall s,
             ShortTerm.add_message (ShortTerm.role bad) (ShortTerm.content bad) s
             = (Raise (ShortTerm.invalid_role (ShortTerm.role bad)), s)).
  { intros s. rewrite add_message_run, msgdict_eta. now rewrite Hbad. }
  split; [apply Hadd |]. split; [| split].
  - now apply load_messages_batch_invalid.
  - rewrite !load_from_messages_run. unfold add_all. rewrite for_each_app.
    fold (add_all good).
    assert (Hok : exists s', add_all good (ShortTerm.set_messages self [])
                             = (Ok tt, s')).
    { clear Hadd. generalize (ShortTerm.set_messages self []).
      induction Hgood as [| c good Hc Hgood IH]; intros s; [now eexists |].
      unfold add_all. simpl. unfold bind. rewrite add_message_run, msgdict_eta.
      destruct (message_of_cases c) as [E | [m E]]; [contradiction |].
      rewrite E. apply IH. }
    destruct Hok as [s' Hs']. rewrite Hs'. simpl. unfold bind.
    now rewrite Hadd.
  - rewrite load_from_messages_run.
    generalize (ShortTerm.set_messages self []).
    induction Hgood as [| c good Hc Hgood IH]; intros s; [reflexivity |].
    unfold add_all. simpl. unfold bind. rewrite add_message_run, msgdict_eta.
    destruct (message_of_cases c) as [E | [m E]]; [contradiction |].
    rewrite E. apply IH.
Qed.

(** A batch whose third message has the role [system]. *)
Lemma invalid_role_behaviour_witness :
  let bad := {| ShortTerm.role := "system"; ShortTerm.content := "x" |} in
  ShortTerm.load_messages_batch (firstn 2 demo_calls ++ bad :: []) (demo_buffer 5)
  = (Raise (ShortTerm.invalid_role "system"),
     ShortTerm.set_messages (demo_buffer 5) (added (firstn 2 demo_calls))).
Proof.
  exact (proj1 (proj2 (invalid_role_behaviour (demo_buffer 5)
                         (firstn 2 demo_calls)
                         {| ShortTerm.role := "system"; ShortTerm.content := "x" |}
                         []
                         ltac:(repeat constructor; discriminate) eq_refl))).
Defined.

(* ================================================================== *)
(** * Further properties of the memory manager *)
(* ================================================================== *)

Lemma message_of_role_ok (m : ChatMessage.t) :
  role_ok m -> message_of (message_dict m) <> [].
Proof.
  unfold role_ok, message_of, message_dict. simpl.
  intros [-> | ->]; simpl; discriminate.
Qed.

Lemma length_added_le (calls : list ShortTerm.MsgDict) :
  (List.length (added calls) <= List.length calls)%nat.
Proof.
  induction calls as [| c calls IH]; simpl; [lia |].
  rewrite length_app.
  destruct (message_of_cases c) as [E | [m E]]; rewrite E; simpl; lia.
Qed.

Lemma message_of_role (m : ChatMessage.t) :
  ~ role_ok m -> message_of (message_dict m) = [].
Proof.
  unfold role_ok, message_of, message_dict. simpl. intros H.
  destruct (String.eqb_spec (ChatMessage.role m) "user"); [tauto |].
  destruct (String.eqb_spec (ChatMessage.role m) "assistant"); tauto.
Qed.

Lemma initialize_short_term_run (settings : Settings) (engine : Sql.Engine)
      (env : Manager.Env) (mgr : Manager.UnifiedMemoryManager) :
  0 <= memory_buffer_messages settings ->
  let recent :=
    recent_rows engine (Manager.session_id mgr)
      (memory_buffer_messages settings) (Manager.db env) in
  Manager._initialize_short_term_from_db settings engine (env, mgr)
  = (fst (ShortTerm.load_messages_batch (map message_dict recent)
            (Manager.short_term mgr)),
     (env,
      Manager.set_short_term
        (snd (ShortTerm.load_messages_batch (map message_dict recent)
                (Manager.short_term mgr)))
        mgr)).
Proof.
  intros Hn recent.
  destruct env as [d disk lg]. destruct mgr as [sid pdfs uid stm sem pk].
  unfold Manager._initialize_short_term_from_db, bind at 1, Manager.self_, gets.
  cbn [snd]. unfold bind at 1, Manager.on_db, zoom.
  cbn [fst snd Manager.db Manager.session_id] in *.
  rewrite get_recent_messages_rows by assumption.
  fold recent. cbn [Manager.set_db Manager.db Manager.disk Manager.log].
  change (map (fun msg => {| ShortTerm.role := ChatMessage.role msg;
                             ShortTerm.content := ChatMessage.content msg |})
              recent)
    with (map message_dict recent).
  destruct recent as [| m recent'] eqn:E.
  - reflexivity.
  - cbn [map truthy_list].
    unfold Manager.on_short_term, zoom. cbn [fst snd Manager.short_term].
    destruct (ShortTerm.load_messages_batch _ stm); reflexivity.
Qed.

Lemma session_row_finds (env : Manager.Env) (mgr : Manager.UnifiedMemoryManager)
      (s : ChatSession.t) :
  session_row env mgr s ->
  find (fun r => ChatSession.id r =? Manager.session mgr)
       (chat_sessions (pending (Manager.db env))) = Some s
  /\ find (Sql.session_has_id (Manager.session_id mgr))
          (chat_sessions (pending (Manager.db env))) = Some s.
Proof.
  intros [Hd Hg]. split; [eapply deref_found | eapply get_session_found]; eassumption.
Qed.

Lemma session_row_of_finds (env : Manager.Env) (mgr : Manager.UnifiedMemoryManager)
      (s : ChatSession.t) :
  find (fun r => ChatSession.id r =? Manager.session mgr)
       (chat_sessions (pending (Manager.db env))) = Some s ->
  find (Sql.session_has_id (Manager.session_id mgr))
       (chat_sessions (pending (Manager.db env))) = Some s ->
  session_row env mgr s.
Proof.
  intros Hpk Hsid. unfold session_row, Sql.deref, LongTerm.get_session, gets.
  now rewrite Hpk, Hsid.
Qed.

Lemma session_row_in_store (db : Db) (s : ChatSession.t) :
  store_ok db -> In s (chat_sessions (pending db)) ->
  find (fun r => ChatSession.id r =? ChatSession.id s)
       (chat_sessions (pending db)) = Some s
  /\ find (Sql.session_has_id (ChatSession.session_id s))
          (chat_sessions (pending db)) = Some s.
Proof.
  intros [Hc [_ [Hnd _]]] Hin. split.
  - now apply find_by_id_unique.
  - apply find_by_session_id_unique; [| assumption].
    unfold Sql.constraints_hold in Hc. apply andb_true_iff in Hc. tauto.
Qed.

Lemma recent_rows_in_session (engine : Sql.Engine) (sid : string) (limit : Z)
      (db : Db) :
  forall m,
    In m (recent_rows engine sid limit db) -> In m (session_rows sid db).
Proof.
  intros m Hin. unfold recent_rows in Hin. apply in_rev in Hin.
  eapply Permutation_in; [apply order_by_desc_perm |].
  rewrite <- (firstn_skipn (Z.to_nat limit) (Sql.order_by_desc _ _ _)).
  apply in_or_app. left. exact Hin.
Qed.

Lemma length_recent_rows (engine : Sql.Engine) (sid : string) (limit : Z)
      (db : Db) :
  (List.length (recent_rows engine sid limit db) <= Z.to_nat limit)%nat.
Proof.
  unfold recent_rows. rewrite length_rev, length_firstn. lia.
Qed.

Lemma strict_sorted_nodup {A} (key : A -> Z) (l : list A) :
  StronglySorted (key_lt key) l -> NoDup (map key l).
Proof.
  induction 1 as [| x l Hs IH Hx]; simpl; constructor; [| exact IH].
  intros Hin. apply in_map_iff in Hin. destruct Hin as [y [E Hy]].
  rewrite Forall_forall in Hx. specialize (Hx y Hy).
  unfold key_lt in Hx. lia.
Qed.

Lemma order_by_sorted_id {A} (key tie : A -> Z) (l : list A) :
  StronglySorted (key_lt key) l -> Sql.order_by key tie l = l.
Proof.
  intros Hs. pose proof (strict_sorted_nodup key l Hs) as Hnd.
  apply (sorted_strict_unique key); [| exact Hs | apply order_by_perm].
  apply sorted_strict; [| apply order_by_sorted].
  eapply Permutation_NoDup; [| exact Hnd].
  apply Permutation_map. symmetry. apply order_by_perm.
Qed.

(** The messages of an end of the rows are an end of the messages of the
    rows. *)
Lemma added_skipn (j : nat) (rows : list ChatMessage.t) :
  exists j',
    added (map message_dict (skipn j rows))
    = skipn j' (added (map message_dict rows)).
Proof.
  revert j. induction rows as [| r rows IH]; intros j.
  - exists 0%nat. now rewrite skipn_nil.
  - destruct j as [| j]; [now exists 0%nat |].
    destruct (IH j) as [j' Hj']. cbn [skipn map]. rewrite Hj'.
    exists (List.length (message_of (message_dict r)) + j')%nat.
    unfold added at 2. cbn [flat_map]. fold (added (map message_dict rows)).
    rewrite skipn_app.
    rewrite (skipn_all2 (message_of (message_dict r))) by lia.
    cbn [app]. f_equal. lia.
Qed.

(** With timestamps that increase along the table, the messages that the
    constructor loads are an end of the stored conversation. *)
Lemma recent_is_suffix (engine : Sql.Engine) (sid : string) (limit : Z)
      (db : Db) :
  StronglySorted (key_lt ChatMessage.timestamp) (session_rows sid db) ->
  exists j,
    added (map message_dict (recent_rows engine sid limit db))
    = skipn j (conversation sid db).
Proof.
  intros Hs. unfold recent_rows, conversation.
  rewrite (order_by_desc_is_rev ChatMessage.timestamp _
             (fun _ => 0) (session_rows sid db))
    by now apply strict_sorted_nodup.
  rewrite order_by_sorted_id by assumption.
  rewrite firstn_rev, rev_involutive. apply added_skipn.
Qed.

(** X8.  Warm start.  Over a store in order and with a positive buffer size
    [N], the constructor of the manager finds or creates the session row
    and reads the last [N] persisted messages of the session, oldest
    first; for an existing session the store is left as it is.  When all
    these messages have the role [user] or [assistant], the constructor
    returns: the manager's session object is that row; the manager keeps
    the documents it was given, whatever the row holds; the buffer holds
    these messages and is within its bound; and when the timestamps of the
    session's messages increase along the table, the buffer is an end of
    the stored conversation.  When one of these messages has another role
    (the store accepts any role), the constructor raises [ValueError] for
    the first such message. *)
Theorem manager_warm_start :
  forall (settings : Settings) (engine : Sql.Engine)
         (fs : Semantic.FileSystem) (sid : string) (pdfs : list Z)
         (uid : option string) (now : Z) (env : Manager.Env),
    store_ok (Manager.db env) ->
    0 < memory_buffer_messages settings ->
    exists env' s recent,
      store_ok (Manager.db env')
      /\ LongTerm.get_session sid (Manager.db env')
         = (Ok (Some s), Manager.db env')
      /\ (forall s0,
             LongTerm.get_session sid (Manager.db env)
             = (Ok (Some s0), Manager.db env) ->
             env' = env /\ s = s0)
      /\ (LongTerm.get_session sid (Manager.db env)
          = (Ok None, Manager.db env) ->
          s = new_session_row (Manager.db env) sid pdfs uid now)
      /\ LongTerm.get_recent_messages engine sid
           (memory_buffer_messages settings) (Manager.db env')
         = (Ok recent, Manager.db env')
      /\ (forall m, In m recent -> In m (session_rows sid (Manager.db env)))
      /\ (Forall role_ok recent ->
          exists mgr,
            Manager.__init__ settings engine fs sid pdfs uid now env
            = (Ok mgr, env')
            /\ session_row env' mgr s
            /\ Manager.session_id mgr = sid
            /\ Manager.pdf_ids mgr = pdfs
            /\ ShortTerm._messages (Manager.short_term mgr)
               = added (map message_dict recent)
            /\ ShortTerm.messages_to_keep (Manager.short_term mgr)
               = memory_buffer_messages settings
            /\ within_cap (Manager.short_term mgr)
            /\ (StronglySorted (key_lt ChatMessage.timestamp)
                  (session_rows sid (Manager.db env)) ->
                mirrors (env', mgr)))
      /\ (forall before m after,
             recent = before ++ m :: after ->
             Forall role_ok before ->
             ~ role_ok m ->
             Manager.__init__ settings engine fs sid pdfs uid now env
             = (Raise (ShortTerm.invalid_role (ChatMessage.role m)), env')).
Proof.
  intros settings engine fs sid pdfs uid now env Hok HN.
  set (N := memory_buffer_messages settings) in *.
  assert (Hinit :
    forall env1 pk,
      session_rows sid (Manager.db env1) = session_rows sid (Manager.db env) ->
      let self := {| Manager.session_id := sid; Manager.pdf_ids := pdfs;
                     Manager.user_id := uid;
                     Manager.short_term := ShortTerm.__init__ settings None None None;
                     Manager.semantic :=
                       Semantic.__init__ settings fs sid None (Manager.disk env);
                     Manager.session := pk |} in
      let recent := recent_rows engine sid N (Manager.db env1) in
      LongTerm.get_recent_messages engine sid N (Manager.db env1)
      = (Ok recent, Manager.db env1)
      /\ (forall m, In m recent -> In m (session_rows sid (Manager.db env)))
      /\ (Forall role_ok recent ->
          exists stm,
            Manager._initialize_short_term_from_db settings engine (env1, self)
            = (Ok tt, (env1, Manager.set_short_term stm self))
            /\ ShortTerm._messages stm = added (map message_dict recent)
            /\ ShortTerm.messages_to_keep stm = N
            /\ within_cap stm
            /\ (StronglySorted (key_lt ChatMessage.timestamp)
                  (session_rows sid (Manager.db env)) ->
                mirrors (env1, Manager.set_short_term stm self)))
      /\ (forall before m after,
             recent = before ++ m :: after ->
             Forall role_ok before ->
             ~ role_ok m ->
             exists stm,
               Manager._initialize_short_term_from_db settings engine
                 (env1, self)
               = (Raise (ShortTerm.invalid_role (ChatMessage.role m)),
                  (env1, Manager.set_short_term stm self)))).
  { intros env1 pk Hrows self recent.
    pose proof (initialize_short_term_run settings engine env1 self
                  ltac:(fold N; lia)) as Hrun.
    cbv zeta in Hrun. fold N in Hrun.
    change (Manager.session_id self) with sid in Hrun. fold recent in Hrun.
    split; [apply store_get_recent_messages_run; lia |].
    split.
    { intros m Hm. rewrite <- Hrows.
      now apply (recent_rows_in_session engine sid N). }
    split.
    - intros Hroles.
      rewrite load_messages_batch_valid in Hrun.
      2:{ apply Forall_map. eapply Forall_impl; [| exact Hroles].
          intros a. apply message_of_role_ok. }
      cbn [fst snd] in Hrun. eexists. split; [exact Hrun |].
      split; [reflexivity |]. split; [reflexivity |].
      split.
      + unfold within_cap.
        cbn [ShortTerm._messages ShortTerm.messages_to_keep ShortTerm.set_messages
             Manager.short_term self ShortTerm.__init__ or_int app].
        pose proof (length_added_le (map message_dict recent)) as Hle.
        rewrite length_map in Hle.
        pose proof (length_recent_rows engine sid N (Manager.db env1)) as Hlen.
        fold recent in Hlen.
        change (len (added (map message_dict recent)) <= 2 * N).
        unfold len. lia.
      + intros Hsorted. rewrite <- Hrows in Hsorted.
        destruct (recent_is_suffix engine sid N (Manager.db env1) Hsorted)
          as [j Hj].
        exists j. cbn [fst snd Manager.short_term Manager.set_short_term
                        Manager.session_id self ShortTerm._messages
                        ShortTerm.set_messages ShortTerm.__init__ app
                        Manager.db].
        exact Hj.
    - intros before m after Hsplit Hbefore Hbad.
      rewrite Hsplit, map_app in Hrun. cbn [map] in Hrun.
      rewrite load_messages_batch_invalid in Hrun.
      + cbn [fst snd] in Hrun. eexists. exact Hrun.
      + apply Forall_map. eapply Forall_impl; [| exact Hbefore].
        intros a. apply message_of_role_ok.
      + now apply message_of_role. }
  destruct (find (Sql.session_has_id sid)
              (chat_sessions (pending (Manager.db env)))) as [s0 |] eqn:Hf.
  - destruct (Hinit env (ChatSession.id s0) eq_refl) as [Hrec [Hin' [Hgood Hbad]]].
    assert (Hin : In s0 (chat_sessions (pending (Manager.db env))))
      by (apply find_some in Hf; tauto).
    destruct (session_row_in_store _ s0 Hok Hin) as [Hpk _].
    assert (Hcreate :
      zoom Manager.db Manager.set_db
        (LongTerm.get_or_create_session sid pdfs uid now) env = (Ok s0, env)).
    { unfold zoom.
      rewrite (get_or_create_session_present _ sid pdfs uid now s0 Hf).
      destruct env; reflexivity. }
    exists env, s0. eexists. split; [exact Hok |].
    split; [unfold LongTerm.get_session, gets; now rewrite Hf |].
    split.
    { intros s1 Hg. apply get_session_found in Hg. rewrite Hf in Hg.
      split; [reflexivity | congruence]. }
    split.
    { intros Hg. unfold LongTerm.get_session, gets in Hg.
      rewrite Hf in Hg. discriminate. }
    split; [exact Hrec |]. split; [exact Hin' |]. split.
    + intros Hroles.
      destruct (Hgood Hroles) as [stm [Hrun [Hbuf [Hkeep [Hcap Hmir]]]]].
      eexists. split.
      { unfold Manager.__init__. rewrite Hcreate, Hrun. reflexivity. }
      split; [apply session_row_of_finds; assumption |].
      split; [reflexivity |]. split; [reflexivity |].
      split; [exact Hbuf |]. split; [exact Hkeep |].
      split; [exact Hcap | exact Hmir].
    + intros before m after Hsplit Hbefore Hm.
      destruct (Hbad before m after Hsplit Hbefore Hm) as [stm Hrun].
      unfold Manager.__init__. rewrite Hcreate, Hrun. reflexivity.
  - set (row := new_session_row (Manager.db env) sid pdfs uid now).
    set (env1 := Manager.set_db (with_new_session (Manager.db env) row) env).
    assert (Hok1 : store_ok (Manager.db env1))
      by (apply store_ok_with_new_session; assumption).
    destruct (Hinit env1 (ChatSession.id row) eq_refl)
      as [Hrec [Hin' [Hgood Hbad]]].
    assert (Hin : In row (chat_sessions (pending (Manager.db env1)))).
    { simpl. apply in_or_app. right. now left. }
    destruct (session_row_in_store _ row Hok1 Hin) as [Hpk Hs].
    assert (Hcreate :
      zoom Manager.db Manager.set_db
        (LongTerm.get_or_create_session sid pdfs uid now) env = (Ok row, env1)).
    { unfold zoom.
      rewrite (get_or_create_session_absent _ sid pdfs uid now
                 (proj1 Hok) Hf).
      reflexivity. }
    exists env1, row. eexists. split; [exact Hok1 |].
    split; [unfold LongTerm.get_session, gets; f_equal; f_equal; exact Hs |].
    split.
    { intros s1 Hg. apply get_session_found in Hg. rewrite Hf in Hg.
      discriminate. }
    split; [reflexivity |].
    split; [exact Hrec |]. split; [exact Hin' |]. split.
    + intros Hroles.
      destruct (Hgood Hroles) as [stm [Hrun [Hbuf [Hkeep [Hcap Hmir]]]]].
      eexists. split.
      { unfold Manager.__init__. rewrite Hcreate, Hrun. reflexivity. }
      split; [apply session_row_of_finds; assumption |].
      split; [reflexivity |]. split; [reflexivity |].
      split; [exact Hbuf |]. split; [exact Hkeep |].
      split; [exact Hcap | exact Hmir].
    + intros before m after Hsplit Hbefore Hm.
      destruct (Hbad before m after Hsplit Hbefore Hm) as [stm Hrun].
      unfold Manager.__init__. rewrite Hcreate, Hrun. reflexivity.
Qed.

Lemma demo_db4_ok : store_ok demo_db4.
Proof.
  split; [vm_compute; reflexivity |]. split; [vm_compute; reflexivity |].
  split; [| vm_compute; reflexivity].
  vm_compute. repeat constructor. intros [].
Qed.

Lemma demo_db_system_ok : store_ok (Manager.db demo_env_system).
Proof.
  split; [vm_compute; reflexivity |]. split; [vm_compute; reflexivity |].
  split; [| vm_compute; reflexivity].
  vm_compute. repeat constructor. intros [].
Qed.

Lemma demo_db4_roles : Forall role_ok (session_rows "s1" (Manager.db demo_env)).
Proof.
  let rows := eval vm_compute in (session_rows "s1" (Manager.db demo_env)) in
  change (session_rows "s1" (Manager.db demo_env)) with rows.
  unfold role_ok.
  repeat (apply Forall_cons; [simpl; auto |]). apply Forall_nil.
Qed.

(** A manager for the stored session ["s1"], asked for with another
    document list; and over a store in which the last message of the
    session has the role [system], the constructor raises. *)
Lemma manager_warm_start_witness :
  (exists mgr env',
      Manager.__init__ demo_settings Sql.table_order demo_fs "s1" [7] None 200
        demo_env = (Ok mgr, env')
      /\ Manager.pdf_ids mgr = [7]
      /\ within_cap (Manager.short_term mgr))
  /\ store_ok (Manager.db demo_env_system)
  /\ exists env',
       Manager.__init__ demo_settings Sql.table_order demo_fs "s1" [7] None 200
         demo_env_system
       = (Raise (ShortTerm.invalid_role "system"), env').
Proof.
  split; [| split; [exact demo_db_system_ok |]].
  - destruct (manager_warm_start demo_settings Sql.table_order demo_fs "s1" [7]
                None 200 demo_env demo_db4_ok ltac:(vm_compute; reflexivity))
      as [env' [s [recent [_ [_ [_ [_ [_ [Hin [Hgood _]]]]]]]]]].
    destruct Hgood as [mgr H].
    { apply Forall_forall. intros m Hm. apply Hin in Hm.
      pose proof demo_db4_roles as Hroles. rewrite Forall_forall in Hroles.
      exact (Hroles m Hm). }
    exists mgr, env'.
    split; [apply H |]. split; apply H.
  - destruct (manager_warm_start demo_settings Sql.table_order demo_fs "s1" [7]
                None 200 demo_env_system demo_db_system_ok
                ltac:(vm_compute; reflexivity))
      as [env' [s [recent [_ [_ [Hsame [_ [Hrec [_ [_ Hbad]]]]]]]]]].
    exists env'.
    destruct (Hsame (demo_row 5 150) ltac:(vm_compute; reflexivity))
      as [-> _].
    apply (f_equal fst) in Hrec. vm_compute in Hrec. injection Hrec as <-.
    refine (Hbad [_; _; _; _] _ [] eq_refl _ _).
    + unfold role_ok. repeat (apply Forall_cons; [simpl; auto |]).
      apply Forall_nil.
    + unfold role_ok. simpl. intros [H | H]; discriminate.
Defined.

Lemma session_row_by_membership (env : Manager.Env)
      (mgr : Manager.UnifiedMemoryManager) (s : ChatSession.t) :
  store_ok (Manager.db env) ->
  In s (chat_sessions (pending (Manager.db env))) ->
  ChatSession.id s = Manager.session mgr ->
  ChatSession.session_id s = Manager.session_id mgr ->
  session_row env mgr s.
Proof.
  intros Hok Hin Hid Hsid.
  destruct (session_row_in_store _ s Hok Hin) as [Hpk Hs].
  rewrite Hid in Hpk. rewrite Hsid in Hs. now apply session_row_of_finds.
Qed.

Lemma manager_ok_keys (st : Manager.St) (s : ChatSession.t) :
  manager_ok st s ->
  In s (chat_sessions (pending (Manager.db (fst st))))
  /\ ChatSession.id s = Manager.session (snd st)
  /\ ChatSession.session_id s = Manager.session_id (snd st).
Proof.
  intros [_ Hrow]. destruct (session_row_finds _ _ _ Hrow) as [Hpk Hsid].
  apply find_some in Hpk. apply find_some in Hsid.
  destruct Hpk as [Hin Hpk], Hsid as [_ Hsid].
  split; [assumption |]. split; [lia | now apply session_has_id_eq].
Qed.

(** [add_message] through the session object of the session that the
    message names. *)
Lemma add_message_kept (db : Db) (data : ChatMessageCreate.t) (pk now : Z)
      (s : ChatSession.t) :
  store_ok db ->
  find (fun r => ChatSession.id r =? pk) (chat_sessions (pending db)) = Some s ->
  ChatSession.session_id s = ChatMessageCreate.session_id data ->
  let db' := {| committed := with_new_message db data pk now;
                pending := with_new_message db data pk now;
                session_seq := session_seq db;
                message_seq := message_seq db + 1 |} in
  LongTerm.add_message data pk now db = (Ok (new_message_row db data now), db')
  /\ store_ok db'
  /\ In (LongTerm.count_message now s) (chat_sessions (pending db'))
  /\ session_rows (ChatMessageCreate.session_id data) db'
     = session_rows (ChatMessageCreate.session_id data) db
         ++ [new_message_row db data now]
  /\ (counters_match db -> counters_match db').
Proof.
  intros Hok Hpk Hsid db'.
  assert (Hin : In s (chat_sessions (pending db)))
    by (apply find_some in Hpk; tauto).
  assert (Hid : (ChatSession.id s =? pk) = true)
    by (apply find_some in Hpk; tauto).
  assert (Hcons : Sql.constraints_hold (with_new_message db data pk now) = true).
  { apply constraints_with_new_message; [apply Hok |].
    rewrite <- Hsid. apply existsb_exists. exists s. split; [assumption |].
    now apply session_has_id_eq. }
  split; [now rewrite add_message_run_store, Hpk, Hcons |].
  split; [now apply store_ok_with_new_message |].
  split; [| split].
  - unfold db', with_new_message. cbn [pending chat_sessions].
    apply in_map_iff. exists s. now rewrite Hid.
  - unfold session_rows, db', with_new_message. cbn [pending chat_messages].
    rewrite filter_app. cbn [filter].
    unfold Sql.message_of_session at 2. cbn [new_message_row ChatMessage.session_id].
    now rewrite String.eqb_refl.
  - intros Hcnt. now apply (counters_with_new_message db data pk now s).
Qed.

(** The check keeps the manager and the store in agreement and touches
    neither the messages nor the counter; it returns unless the summary
    request raises at a positive multiple of the trigger. *)
Lemma check_and_update_summary_kept (settings : Settings) (llm : ChatModel)
      (tokenizer_encode : string -> exc (list Z)) (now : Z)
      (st : Manager.St) (s : ChatSession.t) :
  0 < memory_summary_trigger settings ->
  manager_ok st s ->
  exists res st' s',
    Manager._check_and_update_summary settings llm tokenizer_encode now st
    = (res, st')
    /\ manager_ok st' s'
    /\ same_identity (snd st) (snd st')
    /\ ChatSession.total_messages s' = ChatSession.total_messages s
    /\ chat_messages (pending (Manager.db (fst st')))
       = chat_messages (pending (Manager.db (fst st)))
    /\ Manager.disk (fst st') = Manager.disk (fst st)
    /\ Manager.short_term (snd st') = Manager.short_term (snd st)
    /\ Manager.semantic (snd st') = Manager.semantic (snd st)
    /\ (counters_match (Manager.db (fst st))
        -> counters_match (Manager.db (fst st')))
    /\ (res = Ok tt
        \/ exists e,
             res = Raise e
             /\ positive_multiple (memory_summary_trigger settings)
                  (ChatSession.total_messages s)
             /\ summary_result llm tokenizer_encode
                  (Manager.short_term (snd st)) = Raise e).
Proof.
  intros HT Hm. destruct (manager_ok_keys _ _ Hm) as [Hin [Hid Hsid]].
  destruct Hm as [Hok Hrow]. destruct (session_row_finds _ _ _ Hrow) as [Hpk Hfs].
  destruct st as [env mgr]. cbn [fst snd] in *.
  rewrite (check_and_update_summary_run settings llm tokenizer_encode now
             env mgr s Hpk).
  destruct (summary_due_spec settings (ChatSession.total_messages s) HT)
    as [due [-> [_ Hmult]]].
  fold (positive_multiple (memory_summary_trigger settings)
          (ChatSession.total_messages s)) in Hmult.
  destruct due.
  - cbv zeta.
    destruct (summary_result llm tokenizer_encode (Manager.short_term mgr))
      as [text | e].
    + destruct (truthy_str text).
      * set (u := summary_update _).
        rewrite (update_session_run (Manager.db env) (Manager.session_id mgr)
                   u now s (proj1 Hok) Hfs) by now rewrite Hid.
        pose proof (apply_update_keeps_keys u now s) as [Kid Ksid].
        eexists. eexists. exists (LongTerm.apply_update u now s).
        split; [reflexivity |].
        destruct env as [d disk lg]. destruct mgr as [sid pdfs uid stm sem pk].
        cbn [fst snd Manager.db Manager.disk Manager.log Manager.set_db
             Manager.add_log Manager.set_session Manager.session_id
             Manager.pdf_ids Manager.user_id Manager.short_term
             Manager.semantic Manager.session] in *.
        split.
        { split; cbn [fst snd Manager.db]; [now apply store_ok_with_update |].
          apply session_row_by_membership;
            cbn [Manager.db Manager.session Manager.session_id].
          - now apply store_ok_with_update.
          - cbn [pending with_update chat_sessions]. apply in_map_iff.
            exists s. split; [| assumption]. unfold on_row.
            now rewrite Z.eqb_refl.
          - reflexivity.
          - cbn [Manager.set_session Manager.session_id]. congruence. }
        split; [repeat split |].
        split; [reflexivity |]. split; [reflexivity |].
        split; [reflexivity |]. split; [reflexivity |].
        split; [reflexivity |].
        split; [now apply counters_with_update | now left].
      * eexists. eexists. exists s. split; [reflexivity |].
        destruct env as [d disk lg].
        cbn [fst snd Manager.db Manager.disk Manager.add_log] in *.
        split; [split; [assumption |] |].
        { apply session_row_of_finds; assumption. }
        split; [repeat split |]. repeat split; auto.
    + eexists. eexists. exists s. split; [reflexivity |].
      destruct env as [d disk lg].
      cbn [fst snd Manager.db Manager.disk Manager.add_log] in *.
      split; [split; [assumption |] |].
      { apply session_row_of_finds; assumption. }
      split; [repeat split |].
      do 6 (split; [auto |]).
      right. exists e. split; [reflexivity |].
      split; [now apply Hmult | reflexivity].
  - eexists. exists (env, mgr), s. split; [reflexivity |].
    split; [split; assumption |]. split; [repeat split |].
    repeat split; auto.
Qed.

(** ** The buffer and the stored conversation *)

Lemma trim_suffix (k : Z) (l : list BaseMessage) :
  exists j, trim k l = skipn j l.
Proof.
  unfold trim, slice_from.
  destruct (len l >? k * 2); [| now exists 0%nat].
  destruct (- k <? 0); eexists; reflexivity.
Qed.

Lemma history_snoc (sid : string) (rows : list ChatMessage.t)
      (message : ChatMessage.t) :
  added (map message_dict (rows ++ [message]))
  = added (map message_dict rows) ++ message_of (message_dict message).
Proof.
  unfold added. rewrite map_app, flat_map_app. cbn [map flat_map].
  now rewrite app_nil_r.
Qed.

(** A message appended to the rows of the session and to the buffer
    keeps the buffer an end of the stored conversation. *)
Lemma turn_mirrors (st st' : Manager.St) (message : ChatMessage.t)
      (m : BaseMessage) :
  Manager.session_id (snd st') = Manager.session_id (snd st) ->
  session_rows (Manager.session_id (snd st)) (Manager.db (fst st'))
  = session_rows (Manager.session_id (snd st)) (Manager.db (fst st))
      ++ [message] ->
  message_of (message_dict message) = [m] ->
  ShortTerm._messages (Manager.short_term (snd st'))
  = trim (ShortTerm.messages_to_keep (Manager.short_term (snd st)))
         (ShortTerm._messages (Manager.short_term (snd st)) ++ [m]) ->
  mirrors st -> mirrors st'.
Proof.
  intros Hsid Hrows Hm Hbuf [j Hj]. unfold mirrors, conversation.
  rewrite Hsid, Hrows, (history_snoc (Manager.session_id (snd st))), Hm.
  rewrite Hbuf, Hj. fold (conversation (Manager.session_id (snd st))
                            (Manager.db (fst st))).
  set (h := conversation _ _).
  destruct (suffix_snoc j h m) as [j1 ->].
  destruct (trim_suffix (ShortTerm.messages_to_keep
                           (Manager.short_term (snd st)))
              (skipn j1 (h ++ [m]))) as [j2 ->].
  exists (j2 + j1)%nat. apply skipn_skipn.
Qed.

(** ** A message through the manager *)

Lemma manager_ok_after_add (env : Manager.Env)
      (mgr mgr1 : Manager.UnifiedMemoryManager) (db1 : Db) (s1 : ChatSession.t) :
  store_ok db1 ->
  In s1 (chat_sessions (pending db1)) ->
  ChatSession.id s1 = Manager.session mgr1 ->
  ChatSession.session_id s1 = Manager.session_id mgr1 ->
  manager_ok (Manager.set_db db1 env, mgr1) s1.
Proof.
  intros Hok Hin Hid Hsid. destruct env as [d disk lg].
  split; [exact Hok |]. now apply session_row_by_membership.
Qed.

Lemma session_rows_same_tables (sid : string) (env env' : Manager.Env) :
  chat_messages (pending (Manager.db env'))
  = chat_messages (pending (Manager.db env)) ->
  session_rows sid (Manager.db env') = session_rows sid (Manager.db env).
Proof. apply session_rows_tables. Qed.

(** X9.  [add_user_message] records the message in the buffer and in the store.
    With a positive summary trigger, on a manager that agrees with a store
    in order, the message is recorded whether the call returns or raises:
    the stored row has the role [user], the given text, the manager's
    session id and the clock reading, and it is the last row of the
    session's history; the counter of the session is one more; the buffer
    has the message appended and is trimmed; manager and store still
    agree, exact counters stay exact, and the semantic tier and the disk
    are untouched.  The call returns the stored row, unless the new count
    is a positive multiple of the trigger and the summary request on the
    new buffer raises (the exception of the tokenizer): then that
    exception comes out, after the message has been recorded. *)
Theorem add_user_message_records :
  forall (settings : Settings) (llm : ChatModel)
         (tokenizer_encode : string -> exc (list Z)) (text : string) (now : Z)
         (st : Manager.St) (s : ChatSession.t),
    0 < memory_summary_trigger settings ->
    manager_ok st s ->
    let request :=
      fst (ShortTerm.get_conversation_summary llm tokenizer_encode
             (buffer_after (Manager.short_term (snd st)) (HumanMessage text))) in
    exists res message st' s',
      Manager.add_user_message settings llm tokenizer_encode text now st
      = (res, st')
      /\ turn_recorded "user" text now (HumanMessage text) st st' s s' message
      /\ Manager.disk (fst st') = Manager.disk (fst st)
      /\ Manager.semantic (snd st') = Manager.semantic (snd st)
      /\ (res = Ok message
          \/ exists e,
               res = Raise e
               /\ positive_multiple (memory_summary_trigger settings)
                    (ChatSession.total_messages s + 1)
               /\ request = Raise e)
      /\ ((exists summary, request = Ok summary) -> res = Ok message).
Proof.
  intros settings llm tok text now st s HT Hm request.
  destruct (manager_ok_keys _ _ Hm) as [Hin [Hid Hsid]].
  destruct Hm as [Hok Hrow].
  destruct (session_row_finds _ _ _ Hrow) as [Hpk Hfs].
  destruct st as [env mgr]. cbn [fst snd] in *.
  rewrite add_user_message_run.
  destruct (add_message_kept (Manager.db env) (user_message_data mgr text)
              (Manager.session mgr) now s Hok Hpk Hsid)
    as [Hadd [Hok1 [Hin1 [Hrows1 Hcnt1]]]].
  rewrite Hadd. cbv zeta.
  set (db1 := {| committed := _; pending := _; session_seq := _;
                 message_seq := _ |}) in *.
  fold (buffer_after (Manager.short_term mgr) (HumanMessage text)).
  set (mgr1 := Manager.set_short_term _ mgr).
  assert (Hm1 : manager_ok (Manager.set_db db1 env, mgr1)
                  (LongTerm.count_message now s))
    by (apply manager_ok_after_add; destruct mgr; assumption).
  destruct (check_and_update_summary_kept settings llm tok now _ _ HT Hm1)
    as [res [[env' mgr'] [s' [Hrun [Hm' [Hident [Htot [Hmsgs [Hdisk [Hstm
          [Hsem [Hcnt' Hres]]]]]]]]]]]].
  cbn [fst snd] in *.
  rewrite Hrun.
  assert (Hreq : summary_result llm tok (Manager.short_term mgr1) = request)
    by (destruct mgr; reflexivity).
  rewrite Hreq in Hres.
  change (ChatSession.total_messages (LongTerm.count_message now s))
    with (ChatSession.total_messages s + 1) in Hres.
  set (message := new_message_row (Manager.db env)
                    (user_message_data mgr text) now) in *.
  exists (match res with Ok _ => Ok message | Raise e => Raise e end).
  exists message, (env', mgr'), s'.
  split; [destruct res; reflexivity |].
  split; [| split; [| split; [| split]]].
  - split; [exact Hm' |]. cbn [fst snd].
    split; [destruct mgr; exact Hident |].
    split; [rewrite Htot; reflexivity |].
    split.
    { rewrite (session_rows_same_tables _ _ _ Hmsgs).
      destruct env; exact Hrows1. }
    do 4 (split; [reflexivity |]).
    assert (Hbuf : ShortTerm._messages (Manager.short_term mgr')
                   = trim (ShortTerm.messages_to_keep (Manager.short_term mgr))
                          (ShortTerm._messages (Manager.short_term mgr)
                             ++ [HumanMessage text]))
      by (rewrite Hstm; destruct mgr; reflexivity).
    assert (Hrows' :
      session_rows (Manager.session_id mgr) (Manager.db env')
      = session_rows (Manager.session_id mgr) (Manager.db env)
          ++ [new_message_row (Manager.db env) (user_message_data mgr text) now]).
    { rewrite (session_rows_same_tables _ _ _ Hmsgs).
      destruct env; exact Hrows1. }
    split; [exact Hbuf |].
    split; [intros Hc; apply Hcnt'; destruct env; now apply Hcnt1 |].
    apply (turn_mirrors (env, mgr) (env', mgr')
             (new_message_row (Manager.db env) (user_message_data mgr text) now)
             (HumanMessage text));
      [destruct mgr; apply Hident | exact Hrows' | reflexivity | exact Hbuf].
  - cbn [fst]. rewrite Hdisk. destruct env; reflexivity.
  - cbn [snd]. rewrite Hsem. destruct mgr; reflexivity.
  - destruct Hres as [-> | [e [-> He]]]; [now left |].
    right. exists e. split; [reflexivity | exact He].
  - intros [summary Hs].
    destruct Hres as [-> | [e [_ [_ He]]]]; [reflexivity | congruence].
Qed.

Lemma demo_manager_ok : manager_ok (demo_env, demo_manager) (demo_row 4 140).
Proof.
  split; [exact demo_db4_ok |]. split; vm_compute; reflexivity.
Qed.

(** A fifth message for ["s1"]. *)
Lemma add_user_message_records_witness :
  exists message st',
    Manager.add_user_message demo_settings terse_llm (fun _ => Ok [1; 2; 3])
      "fifth" 150 (demo_env, demo_manager) = (Ok message, st')
    /\ ChatMessage.content message = "fifth"
    /\ len (session_rows "s1" (Manager.db (fst st'))) = 5.
Proof.
  destruct (add_user_message_records demo_settings terse_llm
              (fun _ => Ok [1; 2; 3]) "fifth" 150 (demo_env, demo_manager)
              (demo_row 4 140) ltac:(vm_compute; reflexivity) demo_manager_ok)
    as [res [message [st' [s' [Hrun [Hrec [_ [_ [_ Hok]]]]]]]]].
  rewrite Hok in Hrun by (eexists; vm_compute; reflexivity).
  destruct Hrec as [_ [_ [_ [Hrows [_ [_ [Hcontent _]]]]]]].
  exists message, st'. split; [exact Hrun |]. split; [exact Hcontent |].
  change (session_rows "s1" (Manager.db (fst st'))
          = session_rows "s1" demo_db4 ++ [message]) in Hrows.
  rewrite Hrows, len_app. reflexivity.
Defined.

Lemma holds_saved (fs : Semantic.FileSystem) (path : string)
      (vs : Semantic.VectorStore) :
  Semantic.holds fs path (Semantic.realpath fs path, vs) = true.
Proof. unfold Semantic.holds. cbn [fst]. apply String.eqb_refl. Qed.

(** A store that was saved is the one that is loaded, when neither the
    write nor the read fails. *)
Lemma load_saved (fs : Semantic.FileSystem) (path : string)
      (vs : Semantic.VectorStore) (d : Semantic.Disk) :
  Semantic.write_error fs path = None ->
  Semantic.read_error fs path = None ->
  Semantic._load_or_create_vector_store fs path (saved fs path vs d) = Some vs.
Proof.
  intros Hw Hr.
  unfold saved, Semantic.save_local. rewrite Hw. cbn [snd].
  unfold Semantic._load_or_create_vector_store, Semantic.path_exists,
    Semantic.load_local, Semantic.within.
  cbn [existsb find]. rewrite holds_saved, Hr. reflexivity.
Qed.

Lemma saved_failed (fs : Semantic.FileSystem) (path : string)
      (vs : Semantic.VectorStore) (d : Semantic.Disk) (e : exception) :
  Semantic.write_error fs path = Some e -> saved fs path vs d = d.
Proof.
  intros Hw. unfold saved, Semantic.save_local. now rewrite Hw.
Qed.

(** What is common to the ways through [add_assistant_message] after the
    row is stored. *)
Lemma assistant_turn_finish (settings : Settings) (llm : ChatModel)
      (tokenizer_encode : string -> exc (list Z)) (text : string)
      (sources : option (list dict)) (now : Z)
      (env : Manager.Env) (mgr : Manager.UnifiedMemoryManager)
      (s : ChatSession.t) (st2 : Manager.St) :
  0 < memory_summary_trigger settings ->
  manager_ok (env, mgr) s ->
  let data := assistant_message_data mgr text sources in
  let db1 := {| committed := with_new_message (Manager.db env) data
                               (Manager.session mgr) now;
                pending := with_new_message (Manager.db env) data
                             (Manager.session mgr) now;
                session_seq := session_seq (Manager.db env);
                message_seq := message_seq (Manager.db env) + 1 |} in
  Manager.db (fst st2) = db1 ->
  Manager.session (snd st2) = Manager.session mgr ->
  same_identity mgr (snd st2) ->
  Manager.short_term (snd st2)
  = buffer_after (Manager.short_term mgr) (AIMessage text) ->
  exists res st' s',
    Manager._check_and_update_summary settings llm tokenizer_encode now st2
    = (res, st')
    /\ turn_recorded "assistant" text now (AIMessage text) (env, mgr) st' s s'
         (new_message_row (Manager.db env) data now)
    /\ Manager.disk (fst st') = Manager.disk (fst st2)
    /\ Manager.semantic (snd st') = Manager.semantic (snd st2)
    /\ (res = Ok tt
        \/ exists e,
             res = Raise e
             /\ positive_multiple (memory_summary_trigger settings)
                  (ChatSession.total_messages s + 1)
             /\ summary_result llm tokenizer_encode
                  (buffer_after (Manager.short_term mgr) (AIMessage text))
                = Raise e).
Proof.
  intros HT Hm data db1 Hdb Hsess Hident Hbuf.
  destruct (manager_ok_keys _ _ Hm) as [Hin [Hid Hsid]].
  destruct Hm as [Hok Hrow].
  destruct (session_row_finds _ _ _ Hrow) as [Hpk Hfs].
  cbn [fst snd] in *.
  destruct (add_message_kept (Manager.db env) data (Manager.session mgr) now s
              Hok Hpk Hsid)
    as [Hadd [Hok1 [Hin1 [Hrows1 Hcnt1]]]].
  fold db1 in Hok1, Hin1, Hrows1, Hcnt1.
  destruct st2 as [env2 mgr2]. cbn [fst snd] in *.
  destruct Hident as [Isid [Ipdf Iuid]].
  assert (Hm2 : manager_ok (env2, mgr2) (LongTerm.count_message now s)).
  { split; cbn [fst snd]; [now rewrite Hdb |].
    apply session_row_by_membership; rewrite ?Hdb; try assumption.
    - cbn [LongTerm.count_message ChatSession.id]. congruence.
    - cbn [LongTerm.count_message ChatSession.session_id]. congruence. }
  destruct (check_and_update_summary_kept settings llm tokenizer_encode now
              _ _ HT Hm2)
    as [res [[env' mgr'] [s' [Hrun [Hm' [[Jsid [Jpdf Juid]]
          [Htot [Hmsgs [Hdisk [Hstm [Hsem [Hcnt' Hres]]]]]]]]]]]].
  cbn [fst snd] in *.
  exists res, (env', mgr'), s'. split; [exact Hrun |].
  split; [| split; [assumption |]; split; [assumption |]].
  - split; [exact Hm' |]. cbn [fst snd].
    split; [repeat split; congruence |].
    split; [rewrite Htot; reflexivity |].
    split.
    { rewrite (session_rows_same_tables _ _ _ Hmsgs), Hdb. exact Hrows1. }
    do 4 (split; [reflexivity |]).
    assert (Hbuf' : ShortTerm._messages (Manager.short_term mgr')
                    = trim (ShortTerm.messages_to_keep (Manager.short_term mgr))
                           (ShortTerm._messages (Manager.short_term mgr)
                              ++ [AIMessage text]))
      by (rewrite Hstm, Hbuf; reflexivity).
    split; [exact Hbuf' |].
    split; [intros Hc; apply Hcnt'; rewrite Hdb; now apply Hcnt1 |].
    apply (turn_mirrors (env, mgr) (env', mgr')
             (new_message_row (Manager.db env) data now) (AIMessage text));
      [cbn [snd]; congruence | | reflexivity | exact Hbuf'].
    cbn [fst snd]. rewrite (session_rows_same_tables _ _ _ Hmsgs), Hdb.
    exact Hrows1.
  - rewrite Hbuf in Hres. exact Hres.
Qed.

(** X10.  [add_assistant_message] when the embedding service answers.  With a
    positive summary trigger, on a manager that agrees with a store in
    order, the message is recorded in the buffer and in the store as a
    user message is, with the role [assistant] and the given sources.
    When the new count is a multiple of four and the last four messages of
    the buffer give at least two entries, one document is appended to the
    vector store of the session: the entries, one per line as
    [role: content], with the session id, the number of entries and the
    count as metadata.  The store is then written to the directory of the
    session: when the write fails, the failure is swallowed and the disk
    is as before; when neither the write nor a later read fails, the
    store that is loaded from the directory is the one in memory.  In
    every other case the semantic tier and the disk are untouched.  The
    call returns the stored row, unless the new count is a positive
    multiple of the trigger and the summary request on the new buffer
    raises (the exception of the tokenizer): then that exception comes
    out, after all of the above. *)
Theorem add_assistant_message_records :
  forall (settings : Settings) (fs : Semantic.FileSystem) (llm : ChatModel)
         (tokenizer_encode : string -> exc (list Z))
         (embed_documents : list string -> exc unit)
         (text : string) (sources : option (list dict)) (now : Z)
         (st : Manager.St) (s : ChatSession.t),
    0 < memory_summary_trigger settings ->
    manager_ok st s ->
    answers embed_documents ->
    let stm1 := buffer_after (Manager.short_term (snd st)) (AIMessage text) in
    let total := ChatSession.total_messages s + 1 in
    let sem := Manager.semantic (snd st) in
    let path := Semantic.vector_store_path sem in
    let snippet_added := total mod 4 = 0 /\ 2 <= len (snippet_window stm1) in
    let request :=
      fst (ShortTerm.get_conversation_summary llm tokenizer_encode stm1) in
    exists res message st' s',
      Manager.add_assistant_message settings fs llm tokenizer_encode
        embed_documents text sources now st = (res, st')
      /\ turn_recorded "assistant" text now (AIMessage text) st st' s s' message
      /\ ChatMessage.sources message = sources
      /\ (snippet_added ->
          let vs := with_document (Semantic.vector_store sem)
                      (snippet_of (Manager.session_id (snd st)) total
                         (snippet_window stm1)) in
          Semantic.vector_store (Manager.semantic (snd st')) = Some vs
          /\ Manager.disk (fst st') = saved fs path vs (Manager.disk (fst st))
          /\ (forall e, Semantic.write_error fs path = Some e ->
                        Manager.disk (fst st') = Manager.disk (fst st))
          /\ (Semantic.write_error fs path = None ->
              Semantic.read_error fs path = None ->
              Semantic._load_or_create_vector_store fs path
                (Manager.disk (fst st')) = Some vs))
      /\ (~ snippet_added ->
          Manager.disk (fst st') = Manager.disk (fst st)
          /\ Manager.semantic (snd st') = sem)
      /\ (res = Ok message
          \/ exists e,
               res = Raise e
               /\ positive_multiple (memory_summary_trigger settings) total
               /\ request = Raise e)
      /\ ((exists summary, request = Ok summary) -> res = Ok message).
Proof.
  intros settings fs llm tok embed text sources now st s HT Hm Hans
         stm1 total sem path snippet_added request.
  destruct (manager_ok_keys _ _ Hm) as [Hin [Hid Hsid]].
  pose proof Hm as [Hok Hrow].
  destruct (session_row_finds _ _ _ Hrow) as [Hpk Hfs].
  destruct st as [env mgr]. cbn [fst snd] in *.
  pose proof (assistant_turn_finish settings llm tok text sources now env mgr s)
    as Hfinish.
  rewrite add_assistant_message_run.
  destruct (add_message_kept (Manager.db env)
              (assistant_message_data mgr text sources)
              (Manager.session mgr) now s Hok Hpk Hsid)
    as [Hadd [Hok1 [Hin1 _]]].
  rewrite Hadd. cbv zeta.
  set (db1 := {| committed := _; pending := _; session_seq := _;
                 message_seq := _ |}) in *.
  assert (Hpk1 : find (fun r => ChatSession.id r =? Manager.session mgr)
                      (chat_sessions (pending db1))
                 = Some (LongTerm.count_message now s)).
  { rewrite <- Hid.
    exact (proj1 (session_row_in_store db1 _ Hok1 Hin1)). }
  rewrite Hpk1.
  fold (buffer_after (Manager.short_term mgr) (AIMessage text)). fold stm1.
  set (mgr1 := Manager.set_short_term stm1 mgr).
  set (env1 := Manager.set_db db1 env).
  set (message := new_message_row (Manager.db env)
                    (assistant_message_data mgr text sources) now) in *.
  change (ChatSession.total_messages (LongTerm.count_message now s)) with total.
  fold stm1 in Hfinish. fold total in Hfinish.
  change (summary_result llm tok stm1) with request in Hfinish.
  assert (Hend :
    forall st2 res (st' : Manager.St) s',
      Manager._check_and_update_summary settings llm tok now st2 = (res, st') ->
      turn_recorded "assistant" text now (AIMessage text) (env, mgr) st' s s'
        message ->
      (res = Ok tt
       \/ exists e, res = Raise e
                    /\ positive_multiple (memory_summary_trigger settings) total
                    /\ request = Raise e) ->
      forall P : Prop, P ->
      exists res0 message0 st0 s0,
        match Manager._check_and_update_summary settings llm tok now st2 with
        | (Ok _, st1) => (Ok message, st1)
        | (Raise e, st1) => (Raise e, st1)
        end = (res0, st0)
        /\ turn_recorded "assistant" text now (AIMessage text) (env, mgr) st0 s
             s0 message0
        /\ ChatMessage.sources message0 = sources
        /\ st0 = st'
        /\ P
        /\ (res0 = Ok message0
            \/ exists e,
                 res0 = Raise e
                 /\ positive_multiple (memory_summary_trigger settings) total
                 /\ request = Raise e)
        /\ ((exists summary, request = Ok summary) -> res0 = Ok message0)).
  { intros st2 res st' s' Hrun Hrec Hres P HP. rewrite Hrun.
    exists (match res with Ok _ => Ok message | Raise e => Raise e end).
    exists message, st', s'.
    split; [destruct res; reflexivity |].
    split; [exact Hrec |]. split; [reflexivity |]. split; [reflexivity |].
    split; [exact HP |]. split.
    - destruct Hres as [-> | [e [-> He]]]; [now left |].
      right. exists e. split; [reflexivity | exact He].
    - intros [summary Hs].
      destruct Hres as [-> | [e [_ [_ He]]]]; [reflexivity | congruence]. }
  assert (Hplain :
    exists res st' s',
      Manager._check_and_update_summary settings llm tok now (env1, mgr1)
      = (res, st')
      /\ turn_recorded "assistant" text now (AIMessage text) (env, mgr) st' s s'
           message
      /\ Manager.disk (fst st') = Manager.disk env
      /\ Manager.semantic (snd st') = Manager.semantic mgr
      /\ (res = Ok tt
          \/ exists e, res = Raise e
                       /\ positive_multiple (memory_summary_trigger settings)
                            total
                       /\ request = Raise e)).
  { destruct (Hfinish (env1, mgr1) HT Hm) as [res [st' [s' [H1 [H2 [H3 [H4 H5]]]]]]];
      try (destruct env, mgr; reflexivity).
    - destruct mgr; repeat split.
    - exists res, st', s'. split; [exact H1 |]. split; [exact H2 |].
      split; [rewrite H3; destruct env, mgr; reflexivity |].
      split; [rewrite H4; destruct env, mgr; reflexivity | exact H5]. }
  destruct (Z.eqb_spec (total mod 4) 0) as [Hmod | Hmod].
  - assert (Hpk1' : find (fun r => ChatSession.id r =? Manager.session mgr1)
                         (chat_sessions (pending (Manager.db env1)))
                    = Some (LongTerm.count_message now s))
      by (destruct env, mgr; exact Hpk1).
    rewrite (add_to_semantic_memory_run fs embed env1 mgr1 _ Hpk1'). cbv zeta.
    replace (Manager.short_term mgr1) with stm1 by (destruct mgr; reflexivity).
    replace (Manager.session_id mgr1) with (Manager.session_id mgr)
      by (destruct mgr; reflexivity).
    replace (Manager.semantic mgr1) with sem by (destruct mgr; reflexivity).
    replace (Manager.disk env1) with (Manager.disk env)
      by (destruct env; reflexivity).
    change (ChatSession.total_messages (LongTerm.count_message now s))
      with total.
    fold path.
    destruct (Z.geb_spec (len (snippet_window stm1)) 2) as [Hlen | Hlen].
    + destruct (Hans [Semantic.page_content
                        (snippet_of (Manager.session_id mgr) total
                           (snippet_window stm1))]) as [u ->].
      set (vs := with_document (Semantic.vector_store sem)
                   (snippet_of (Manager.session_id mgr) total
                      (snippet_window stm1))).
      match goal with
      | |- context [Manager._check_and_update_summary _ _ _ _ ?st2] =>
          destruct (Hfinish st2 HT Hm)
            as [res [st' [s' [H1 [H2 [H3 [H4 H5]]]]]]];
            try (destruct env, mgr; reflexivity)
      end.
      * destruct mgr; repeat split.
      * cbn [fst snd] in H3, H4.
        destruct (Hend _ res st' s' H1 H2 H5 True I)
          as [res0 [message0 [st0 [s0 [K1 [K2 [K3 [K4 [_ [K5 K6]]]]]]]]]].
        exists res0, message0, st0, s0. subst st0.
        split; [exact K1 |]. split; [exact K2 |]. split; [exact K3 |].
        split.
        { intros _. cbv zeta. fold vs. rewrite H3, H4.
          assert (Hd : Manager.disk
                         (Manager.set_disk
                            (saved fs path vs (Manager.disk env)) env1)
                       = saved fs path vs (Manager.disk env))
            by (destruct env; reflexivity).
          rewrite Hd.
          split; [destruct mgr; reflexivity |].
          split; [reflexivity |].
          split; [intros e He; now apply (saved_failed fs path vs _ e) |].
          intros Hw Hr. now apply load_saved. }
        split; [| split; assumption].
        intros Hn. exfalso. apply Hn. split; [assumption | lia].
    + destruct Hplain as [res [st' [s' [H1 [H2 [H3 [H4 H5]]]]]]].
      destruct (Hend _ res st' s' H1 H2 H5 True I)
        as [res0 [message0 [st0 [s0 [K1 [K2 [K3 [K4 [_ [K5 K6]]]]]]]]]].
      exists res0, message0, st0, s0. subst st0.
      split; [exact K1 |]. split; [exact K2 |]. split; [exact K3 |].
      split; [intros [_ Hc]; lia |].
      split; [intros _; split; assumption | split; assumption].
  - destruct Hplain as [res [st' [s' [H1 [H2 [H3 [H4 H5]]]]]]].
    unfold ret at 1.
    destruct (Hend _ res st' s' H1 H2 H5 True I)
      as [res0 [message0 [st0 [s0 [K1 [K2 [K3 [K4 [_ [K5 K6]]]]]]]]]].
    exists res0, message0, st0, s0. subst st0.
    split; [exact K1 |]. split; [exact K2 |]. split; [exact K3 |].
    split; [intros [Hc _]; contradiction |].
    split; [intros _; split; assumption | split; assumption].
Qed.

Lemma demo_manager3_ok : manager_ok (demo_env3, demo_manager3) (demo_row 3 130).
Proof.
  split; [exact demo_db_ok |]. split; vm_compute; reflexivity.
Qed.

(** The fourth message of ["s1"] is an answer: the first snippet of the
    session is stored, and saved where a new instance loads it. *)
Lemma add_assistant_message_records_witness :
  exists message st' vs,
    Manager.add_assistant_message demo_settings demo_fs terse_llm
      (fun _ => Ok [1; 2; 3]) (fun _ => Ok tt) "fourth" None 140
      (demo_env3, demo_manager3)
    = (Ok message, st')
    /\ ChatMessage.role message = "assistant"
    /\ Semantic.vector_store (Manager.semantic (snd st')) = Some vs
    /\ len vs = 1
    /\ Semantic._load_or_create_vector_store demo_fs
         "storage/vectors/session_s1" (Manager.disk (fst st')) = Some vs.
Proof.
  destruct (add_assistant_message_records demo_settings demo_fs terse_llm
              (fun _ => Ok [1; 2; 3]) (fun _ => Ok tt) "fourth" None 140
              (demo_env3, demo_manager3) (demo_row 3 130)
              ltac:(vm_compute; reflexivity) demo_manager3_ok
              ltac:(intros texts; now exists tt))
    as [res [message [st' [s' [Hrun [Hrec [_ [Hsn [_ [_ Hok]]]]]]]]]].
  rewrite Hok in Hrun by (eexists; vm_compute; reflexivity).
  destruct Hrec as [_ [_ [_ [_ [_ [Hrole _]]]]]].
  destruct Hsn as [Hvs [_ [_ Hload]]].
  { split; [reflexivity |]. vm_compute. intros H; discriminate H. }
  exists message, st'. eexists. split; [exact Hrun |].
  split; [exact Hrole |]. split; [exact Hvs |]. split; [reflexivity |].
  exact (Hload eq_refl eq_refl).
Defined.

(** X11.  [add_assistant_message] is not all or nothing.  When the new count is
    a multiple of four, the buffer gives at least two entries and the
    embedding request raises, the call raises that exception after the
    message has been recorded: the row is committed as the last of the
    session's history, the counter is one more, the buffer holds the
    message; the summary check has not run, and the semantic tier and
    the disk are as before. *)
Theorem add_assistant_message_not_atomic :
  forall (settings : Settings) (fs : Semantic.FileSystem) (llm : ChatModel)
         (tokenizer_encode : string -> exc (list Z))
         (embed_documents : list string -> exc unit)
         (text : string) (sources : option (list dict)) (now : Z)
         (st : Manager.St) (s : ChatSession.t) (e : exception),
    manager_ok st s ->
    let stm1 := buffer_after (Manager.short_term (snd st)) (AIMessage text) in
    let total := ChatSession.total_messages s + 1 in
    let sid := Manager.session_id (snd st) in
    total mod 4 = 0 ->
    2 <= len (snippet_window stm1) ->
    embed_documents
      [Semantic.page_content (snippet_of sid total (snippet_window stm1))]
    = Raise e ->
    exists st' s' message,
      Manager.add_assistant_message settings fs llm tokenizer_encode
        embed_documents text sources now st = (Raise e, st')
      /\ manager_ok st' s'
      /\ ChatSession.total_messages s' = total
      /\ session_rows sid (Manager.db (fst st'))
         = session_rows sid (Manager.db (fst st)) ++ [message]
      /\ ChatMessage.content message = text
      /\ Manager.short_term (snd st') = stm1
      /\ Manager.log (fst st') = Manager.log (fst st)
      /\ Manager.disk (fst st') = Manager.disk (fst st)
      /\ Manager.semantic (snd st') = Manager.semantic (snd st).
Proof.
  intros settings fs llm tok embed text sources now st s e Hm stm1 total sid
         Hmod Hlen Hraise.
  destruct (manager_ok_keys _ _ Hm) as [Hin [Hid Hsid]].
  destruct Hm as [Hok Hrow].
  destruct (session_row_finds _ _ _ Hrow) as [Hpk Hfs].
  destruct st as [env mgr]. cbn [fst snd] in *.
  rewrite add_assistant_message_run.
  destruct (add_message_kept (Manager.db env)
              (assistant_message_data mgr text sources)
              (Manager.session mgr) now s Hok Hpk Hsid)
    as [Hadd [Hok1 [Hin1 [Hrows1 _]]]].
  rewrite Hadd. cbv zeta.
  set (db1 := {| committed := _; pending := _; session_seq := _;
                 message_seq := _ |}) in *.
  assert (Hpk1 : find (fun r => ChatSession.id r =? Manager.session mgr)
                      (chat_sessions (pending db1))
                 = Some (LongTerm.count_message now s)).
  { rewrite <- Hid.
    exact (proj1 (session_row_in_store db1 _ Hok1 Hin1)). }
  rewrite Hpk1.
  fold (buffer_after (Manager.short_term mgr) (AIMessage text)). fold stm1.
  set (mgr1 := Manager.set_short_term stm1 mgr).
  set (env1 := Manager.set_db db1 env).
  change (ChatSession.total_messages (LongTerm.count_message now s)) with total.
  rewrite (proj2 (Z.eqb_eq _ _) Hmod).
  assert (Hpk1' : find (fun r => ChatSession.id r =? Manager.session mgr1)
                       (chat_sessions (pending (Manager.db env1)))
                  = Some (LongTerm.count_message now s))
    by (destruct env, mgr; exact Hpk1).
  rewrite (add_to_semantic_memory_run fs embed env1 mgr1 _ Hpk1'). cbv zeta.
  replace (Manager.short_term mgr1) with stm1 by (destruct mgr; reflexivity).
  replace (Manager.session_id mgr1) with sid by (destruct mgr; reflexivity).
  change (ChatSession.total_messages (LongTerm.count_message now s)) with total.
  destruct (Z.geb_spec (len (snippet_window stm1)) 2) as [_ | Hlt]; [| lia].
  rewrite Hraise.
  exists (env1, mgr1), (LongTerm.count_message now s). eexists.
  split; [reflexivity |].
  split; [apply manager_ok_after_add; destruct mgr; assumption |].
  split; [reflexivity |].
  split; [destruct env; exact Hrows1 |].
  split; [reflexivity |].
  split; [destruct mgr; reflexivity |].
  split; [destruct env; reflexivity |].
  split; [destruct env; reflexivity | destruct mgr; reflexivity].
Qed.

(** The fourth message of ["s1"] with the embedding service down. *)
Lemma add_assistant_message_not_atomic_witness :
  exists st',
    Manager.add_assistant_message demo_settings demo_fs terse_llm
      (fun _ => Ok [1; 2; 3]) failing_embed "fourth" None 140
      (demo_env3, demo_manager3)
    = (Raise (ExternalError "embedding service down"), st')
    /\ len (session_rows "s1" (Manager.db (fst st'))) = 4
    /\ Manager.log (fst st') = [].
Proof.
  destruct (add_assistant_message_not_atomic demo_settings demo_fs terse_llm
              (fun _ => Ok [1; 2; 3]) failing_embed "fourth" None 140
              (demo_env3, demo_manager3) (demo_row 3 130)
              (ExternalError "embedding service down") demo_manager3_ok
              eq_refl ltac:(vm_compute; intros H; discriminate H) eq_refl)
    as [st' [s' [message [Hrun [_ [_ [Hrows [_ [_ [Hlog _]]]]]]]]]].
  exists st'. split; [exact Hrun |].
  change (session_rows "s1" (Manager.db (fst st'))
          = session_rows "s1" demo_db ++ [message]) in Hrows.
  split; [rewrite Hrows, len_app; reflexivity | exact Hlog].
Defined.

(** ** Reading through the manager *)

Lemma retrieve_similar_context_run
      (similarity_search :
         Semantic.VectorStore -> string -> Z -> exc (list Semantic.Document))
      (query : string) (st : Semantic.St) :
  Semantic.retrieve_similar_context similarity_search query None st
  = (Ok (similar_context similarity_search (snd st) query), st).
Proof.
  unfold Semantic.retrieve_similar_context, similar_context, bind at 1, get.
  destruct (Semantic.vector_store (snd st)) as [vs |]; [| reflexivity].
  unfold try_except, bind, lift, ret. cbn [or_int].
  destruct (similarity_search vs query _); reflexivity.
Qed.

Lemma env_eta (env : Manager.Env) :
  Manager.set_db (Manager.db env) env = env
  /\ Manager.set_disk (Manager.disk env) env = env.
Proof. destruct env; split; reflexivity. Qed.

Lemma manager_eta (mgr : Manager.UnifiedMemoryManager) :
  Manager.set_semantic (Manager.semantic mgr) mgr = mgr
  /\ Manager.set_short_term (Manager.short_term mgr) mgr = mgr.
Proof. destruct mgr; split; reflexivity. Qed.

(** X12.  [get_memory_context] only reads.  With a buffer size that is not
    negative, on a manager whose session object is a row of the store,
    the call returns and leaves every tier as it is.  The context names
    the manager's session and documents, carries the counter and the
    summary of the session row and the last messages of the session as
    [get_recent_messages] gives them.  The semantic context is empty
    without a query, for an empty query, without a vector store and when
    the search raises; otherwise it is the contents of the documents
    found, in the order of the search. *)
Theorem get_memory_context_reads :
  forall (settings : Settings) (engine : Sql.Engine)
         (similarity_search :
            Semantic.VectorStore -> string -> Z -> exc (list Semantic.Document))
         (query : option string) (st : Manager.St) (s : ChatSession.t),
    0 <= memory_buffer_messages settings ->
    Sql.deref (Manager.session (snd st)) (Manager.db (fst st))
    = (Ok s, Manager.db (fst st)) ->
    exists ctx,
      Manager.get_memory_context settings engine similarity_search query st
      = (Ok ctx, st)
      /\ Manager.ctx_session_id ctx = Manager.session_id (snd st)
      /\ Manager.ctx_pdf_ids ctx = Manager.pdf_ids (snd st)
      /\ Manager.ctx_total_messages ctx = ChatSession.total_messages s
      /\ Manager.conversation_summary ctx = ChatSession.summary s
      /\ LongTerm.get_recent_messages engine (Manager.session_id (snd st))
           (memory_buffer_messages settings) (Manager.db (fst st))
         = (Ok (Manager.recent_messages ctx), Manager.db (fst st))
      /\ len (Manager.recent_messages ctx) <= memory_buffer_messages settings
      /\ Manager.semantic_context ctx
         = match query with
           | None => []
           | Some q =>
               if String.eqb q EmptyString then []
               else similar_context similarity_search
                      (Manager.semantic (snd st)) q
           end.
Proof.
  intros settings engine search query [env mgr] s HN Hderef.
  cbn [fst snd] in *. apply deref_found in Hderef.
  pose proof (env_eta env) as [Edb Edisk].
  pose proof (manager_eta mgr) as [Esem _].
  unfold Manager.get_memory_context, bind at 1, Manager.self_, gets.
  cbn [snd]. unfold bind at 1, Manager.on_db at 1, zoom at 1.
  cbn [fst snd]. rewrite store_get_recent_messages_run by assumption.
  rewrite Edb. unfold bind at 1, Manager.on_db at 1, zoom at 1, Sql.deref.
  cbn [fst snd]. rewrite Hderef, Edb.
  set (recent := rev _).
  assert (Hlen : len recent <= memory_buffer_messages settings).
  { unfold recent, len. rewrite length_rev, length_firstn. lia. }
  assert (Hmap : map Manager.model_validate recent = recent) by apply map_id.
  destruct query as [q |]; [destruct q as [| c q] |].
  - eexists. split; [reflexivity |]. cbn [Manager.recent_messages].
    rewrite Hmap. repeat split; auto.
  - cbn [truthy_opt_str truthy_str]. unfold bind at 1.
    unfold Manager.on_semantic, zoom. cbn [fst snd].
    rewrite retrieve_similar_context_run. cbn [fst snd].
    rewrite Edisk, Esem.
    eexists. split; [reflexivity |]. cbn [Manager.recent_messages].
    rewrite Hmap. repeat split; auto.
  - eexists. split; [reflexivity |]. cbn [Manager.recent_messages].
    rewrite Hmap. repeat split; auto.
Qed.

(** The context of ["s1"] for a query, with a search that raises. *)
Lemma get_memory_context_reads_witness :
  exists ctx,
    Manager.get_memory_context demo_settings Sql.table_order failing_search
      (Some "certificates") (demo_env, demo_manager)
    = (Ok ctx, (demo_env, demo_manager))
    /\ Manager.ctx_total_messages ctx = 4
    /\ len (Manager.recent_messages ctx) <= 10
    /\ Manager.semantic_context ctx = [].
Proof.
  destruct (get_memory_context_reads demo_settings Sql.table_order
              failing_search (Some "certificates") (demo_env, demo_manager) (demo_row 4 140)
              ltac:(vm_compute; intros H; discriminate H)
              ltac:(vm_compute; reflexivity))
    as [ctx [Hrun [_ [_ [Htotal [_ [_ [Hlen Hsem]]]]]]]].
  exists ctx. split; [exact Hrun |]. split; [exact Htotal |].
  split; [exact Hlen |]. rewrite Hsem. reflexivity.
Defined.

(** ** Clearing a session *)









(** ** Statistics *)

(** X14.  The statistics of the buffer tell whether a summary is asked for.
    [get_memory_stats] leaves the buffer as it is.  When the tokenizer
    raises on the transcript, that exception comes out of it, and out of
    [get_conversation_summary] too when four or more messages are
    buffered.  When the tokenizer answers, [get_memory_stats] returns and
    reports the number of messages, the token count of the transcript and
    whether that count has reached the limit; and
    [get_conversation_summary] gives the empty string, whatever the model,
    when fewer than four messages are reported or the limit is reported as
    not reached; in the other case it gives the stripped answer of the
    model to the summary request, or the empty string when the model
    raises. *)
Theorem stats_predict_summary :
  forall (llm : ChatModel) (tokenizer_encode : string -> exc (list Z))
         (self : ShortTerm.ShortTermMemory),
    (forall e,
        tokenizer_encode (buffer_string self) = Raise e ->
        ShortTerm.get_memory_stats tokenizer_encode self = (Raise e, self)
        /\ ShortTerm.get_conversation_summary llm tokenizer_encode self
           = (if len (ShortTerm._messages self) <? 4
              then Ok EmptyString else Raise e, self))
    /\ (forall tokens,
           tokenizer_encode (buffer_string self) = Ok tokens ->
           exists stats,
             ShortTerm.get_memory_stats tokenizer_encode self = (Ok stats, self)
             /\ ShortTerm.stats_total_messages stats
                = len (ShortTerm._messages self)
             /\ ShortTerm.buffer_tokens stats = len tokens
             /\ ShortTerm.max_token_limit stats
                = ShortTerm.max_tokens_before_summary self
             /\ (ShortTerm.exceeds_token_limit stats = true
                 <-> ShortTerm.buffer_tokens stats
                     >= ShortTerm.max_token_limit stats)
             /\ (ShortTerm.stats_total_messages stats < 4
                 \/ ShortTerm.exceeds_token_limit stats = false ->
                 ShortTerm.get_conversation_summary llm tokenizer_encode self
                 = (Ok EmptyString, self))
             /\ (4 <= ShortTerm.stats_total_messages stats ->
                 ShortTerm.exceeds_token_limit stats = true ->
                 ShortTerm.get_conversation_summary llm tokenizer_encode self
                 = (Ok match llm (summary_request self) with
                       | Ok response => strip response
                       | Raise _ => EmptyString
                       end, self))).
Proof.
  intros llm tok self.
  rewrite short_term_stats_run, get_conversation_summary_run. split.
  - intros e ->. split; [reflexivity |].
    destruct (len (ShortTerm._messages self) <? 4); reflexivity.
  - intros tokens ->. eexists. split; [reflexivity |].
    cbn [ShortTerm.stats_total_messages ShortTerm.buffer_tokens
         ShortTerm.max_token_limit ShortTerm.exceeds_token_limit].
    split; [reflexivity |]. split; [reflexivity |]. split; [reflexivity |].
    set (n := len (ShortTerm._messages self)).
    set (t := len tokens).
    set (limit := ShortTerm.max_tokens_before_summary self).
    split; [| split].
    + destruct (Z.geb_spec t limit); split; intros; try lia; try reflexivity;
        discriminate.
    + intros [Hn | Ht].
      * destruct (Z.ltb_spec n 4); [reflexivity | lia].
      * destruct (Z.ltb_spec n 4); [reflexivity |].
        destruct (Z.geb_spec t limit); [discriminate |].
        destruct (Z.ltb_spec t limit); [reflexivity | lia].
    + intros Hn Ht.
      destruct (Z.ltb_spec n 4); [lia |].
      destruct (Z.geb_spec t limit); [| discriminate].
      destruct (Z.ltb_spec t limit); [lia | reflexivity].
Qed.

(** The statistics of four buffered messages, with a tokenizer that
    answers and with one that refuses the transcript. *)
Lemma stats_predict_summary_witness :
  (exists stats,
      ShortTerm.get_memory_stats strict_tokenizer demo_full_buffer
      = (Ok stats, demo_full_buffer)
      /\ ShortTerm.stats_total_messages stats = 4
      /\ ShortTerm.exceeds_token_limit stats = true)
  /\ ShortTerm.get_memory_stats strict_tokenizer demo_special_buffer
     = (Raise (ValueError "disallowed special token '<|endoftext|>'"),
        demo_special_buffer).
Proof.
  split.
  - destruct (proj2 (stats_predict_summary failing_llm strict_tokenizer
                       demo_full_buffer) _ eq_refl)
      as [stats [Hrun [Hn [Ht [Hl [Hex _]]]]]].
    exists stats. split; [exact Hrun |]. split; [exact Hn |].
    apply Hex. rewrite Ht, Hl. vm_compute. discriminate.
  - exact (proj1 (proj1 (stats_predict_summary failing_llm strict_tokenizer
                           demo_special_buffer) _ eq_refl)).
Defined.

Lemma counters_match_row (db : Db) (s : ChatSession.t) :
  counters_match db -> In s (chat_sessions (pending db)) ->
  ChatSession.total_messages s
  = len (session_rows (ChatSession.session_id s) db).
Proof.
  unfold counters_match. rewrite Forall_forall. intros H Hin. now apply H.
Qed.

(** X15.  The statistics of the manager.  On a manager that agrees with a store
    in order, [get_memory_stats] changes nothing.  When the tokenizer
    raises on the transcript of the buffer, that exception comes out.
    When it answers, the call returns; it reports the manager's session
    and documents, the counter of the session row, the number of message
    rows of the session, the number of documents of the vector store and
    whether the row has a summary that is not empty.  When the counters of
    the store are exact, the two message counts it reports are equal. *)
Theorem manager_stats_consistent :
  forall (tokenizer_encode : string -> exc (list Z)) (st : Manager.St)
         (s : ChatSession.t),
    manager_ok st s ->
    let transcript := buffer_string (Manager.short_term (snd st)) in
    (forall e,
        tokenizer_encode transcript = Raise e ->
        Manager.get_memory_stats tokenizer_encode st = (Raise e, st))
    /\ (forall tokens,
           tokenizer_encode transcript = Ok tokens ->
           exists stats,
             Manager.get_memory_stats tokenizer_encode st = (Ok stats, st)
             /\ Manager.stats_session_id stats = Manager.session_id (snd st)
             /\ Manager.stats_pdf_ids stats = Manager.pdf_ids (snd st)
             /\ Manager.total_messages stats = ChatSession.total_messages s
             /\ Manager.long_term_messages stats
                = len (session_rows (Manager.session_id (snd st))
                         (Manager.db (fst st)))
             /\ Manager.semantic_snippets stats
                = match Semantic.vector_store (Manager.semantic (snd st)) with
                  | None => 0
                  | Some vs => len vs
                  end
             /\ Manager.has_summary stats
                = truthy_opt_str (ChatSession.summary s)
             /\ ShortTerm.stats_total_messages (Manager.stats_short_term stats)
                = len (ShortTerm._messages (Manager.short_term (snd st)))
             /\ ShortTerm.buffer_tokens (Manager.stats_short_term stats)
                = len tokens
             /\ (counters_match (Manager.db (fst st)) ->
                 Manager.total_messages stats
                 = Manager.long_term_messages stats)).
Proof.
  intros tok st s Hm transcript.
  destruct (manager_ok_keys _ _ Hm) as [Hin [Hid Hsid]].
  destruct Hm as [Hok Hrow].
  destruct (session_row_finds _ _ _ Hrow) as [Hpk _].
  destruct st as [[d disk lg] [sid pdfs uid stm sem pk]].
  subst transcript.
  cbn [fst snd Manager.db Manager.session Manager.session_id
       Manager.pdf_ids Manager.semantic Manager.short_term] in *.
  assert (Hstats :
    forall r0, tok (buffer_string stm) = r0 ->
      Manager.get_memory_stats tok
        ({| Manager.db := d; Manager.disk := disk; Manager.log := lg |},
         {| Manager.session_id := sid; Manager.pdf_ids := pdfs;
            Manager.user_id := uid; Manager.short_term := stm;
            Manager.semantic := sem; Manager.session := pk |})
      = match r0 with
        | Raise e =>
            (Raise e,
             ({| Manager.db := d; Manager.disk := disk; Manager.log := lg |},
              {| Manager.session_id := sid; Manager.pdf_ids := pdfs;
                 Manager.user_id := uid; Manager.short_term := stm;
                 Manager.semantic := sem; Manager.session := pk |}))
        | Ok tokens =>
            (Ok {| Manager.stats_session_id := sid;
                   Manager.stats_pdf_ids := pdfs;
                   Manager.total_messages := ChatSession.total_messages s;
                   Manager.stats_short_term :=
                     {| ShortTerm.stats_total_messages :=
                          len (ShortTerm._messages stm);
                        ShortTerm.buffer_tokens := len tokens;
                        ShortTerm.max_token_limit :=
                          ShortTerm.max_tokens_before_summary stm;
                        ShortTerm.exceeds_token_limit :=
                          len tokens
                          >=? ShortTerm.max_tokens_before_summary stm |};
                   Manager.long_term_messages := len (session_rows sid d);
                   Manager.semantic_snippets :=
                     match Semantic.vector_store sem with
                     | None => 0
                     | Some vs => len vs
                     end;
                   Manager.has_summary :=
                     truthy_opt_str (ChatSession.summary s) |},
             ({| Manager.db := d; Manager.disk := disk; Manager.log := lg |},
              {| Manager.session_id := sid; Manager.pdf_ids := pdfs;
                 Manager.user_id := uid; Manager.short_term := stm;
                 Manager.semantic := sem; Manager.session := pk |}))
        end).
  { intros r0 Hr0.
    unfold Manager.get_memory_stats, bind at 1, Manager.self_, gets. cbn [snd].
    unfold bind at 1, Manager.on_short_term, zoom at 1.
    cbn [fst snd Manager.short_term]. rewrite short_term_stats_run, Hr0.
    destruct r0 as [tokens | e]; [| reflexivity].
    unfold bind at 1, Manager.on_semantic, zoom at 1,
      Semantic.get_document_count, gets.
    cbn [fst snd Manager.disk Manager.semantic Manager.set_short_term
         Manager.session_id Manager.pdf_ids Manager.user_id Manager.short_term
         Manager.session Manager.set_disk Manager.set_semantic Manager.db
         Manager.log].
    unfold bind at 1, Manager.on_db at 1, zoom at 1, LongTerm.get_message_count,
      gets.
    cbn [fst snd Manager.db Manager.set_db Manager.disk Manager.log
         Manager.session_id].
    unfold bind at 1, Manager.on_db at 1, zoom at 1, Sql.deref.
    cbn [fst snd Manager.db Manager.set_db Manager.set_disk
         Manager.set_semantic Manager.set_short_term Manager.disk Manager.log
         Manager.session_id Manager.pdf_ids Manager.user_id Manager.short_term
         Manager.semantic Manager.session].
    rewrite Hpk. reflexivity. }
  split.
  - intros e He. now rewrite (Hstats _ He).
  - intros tokens Htok. rewrite (Hstats _ Htok).
    eexists. split; [reflexivity |].
    cbn [Manager.stats_session_id Manager.stats_pdf_ids Manager.total_messages
         Manager.long_term_messages Manager.semantic_snippets
         Manager.has_summary Manager.stats_short_term
         ShortTerm.stats_total_messages ShortTerm.buffer_tokens].
    do 8 (split; [reflexivity |]).
    intros Hcnt. rewrite (counters_match_row d s Hcnt Hin), Hsid. reflexivity.
Qed.

(** The statistics of ["s1"] with four messages. *)
Lemma manager_stats_consistent_witness :
  exists stats,
    Manager.get_memory_stats (fun _ => Ok [1; 2; 3]) (demo_env, demo_manager)
    = (Ok stats, (demo_env, demo_manager))
    /\ Manager.total_messages stats = 4
    /\ Manager.long_term_messages stats = 4.
Proof.
  destruct (proj2 (manager_stats_consistent (fun _ => Ok [1; 2; 3])
                     (demo_env, demo_manager) (demo_row 4 140) demo_manager_ok)
              [1; 2; 3] eq_refl)
    as [stats [Hrun [_ [_ [Htotal [Hlong _]]]]]].
  exists stats. split; [exact Hrun |]. split; [exact Htotal |].
  rewrite Hlong. reflexivity.
Defined.

(** ** Snippets on disk *)

Lemma len_snoc {A} (l : list A) (x : A) : len (l ++ [x]) = len l + 1.
Proof. rewrite len_app. reflexivity. Qed.

Lemma existsb_filter_implied {A} (p q : A -> bool) (l : list A) :
  (forall x, In x l -> p x = true -> q x = true) ->
  existsb p (filter q l) = existsb p l.
Proof.
  induction l as [| x l IH]; simpl; intros H; [reflexivity |].
  destruct (q x) eqn:Eq; simpl.
  - rewrite IH; [reflexivity |]. intros; apply H; auto.
  - destruct (p x) eqn:Ep.
    + rewrite (H x (or_introl eq_refl) Ep) in Eq. discriminate.
    + apply IH. intros; apply H; auto.
Qed.

Lemma holds_within (fs : Semantic.FileSystem) (path : string)
      (e : string * Semantic.VectorStore) :
  Semantic.holds fs path e = true -> Semantic.within fs path e = true.
Proof. unfold Semantic.within. now intros ->. Qed.

Lemma within_same_directory (fs : Semantic.FileSystem) (path : string)
      (e e' : string * Semantic.VectorStore) :
  fst e = fst e' -> Semantic.within fs path e = Semantic.within fs path e'.
Proof. unfold Semantic.within, Semantic.holds. now intros ->. Qed.

(** What is loaded from a directory depends on the indexes in it and
    inside it only. *)
Lemma load_filtered (fs : Semantic.FileSystem) (path : string)
      (keep : string * Semantic.VectorStore -> bool) (d : Semantic.Disk) :
  (forall e, In e d -> Semantic.within fs path e = true -> keep e = true) ->
  Semantic._load_or_create_vector_store fs path (filter keep d)
  = Semantic._load_or_create_vector_store fs path d.
Proof.
  intros H.
  unfold Semantic._load_or_create_vector_store, Semantic.path_exists,
    Semantic.load_local.
  rewrite existsb_filter_implied by assumption.
  rewrite find_filter_implied; [reflexivity |].
  intros e He Hh. apply H; [assumption | now apply holds_within].
Qed.

Lemma load_other_directory (fs : Semantic.FileSystem) (path : string)
      (e : string * Semantic.VectorStore) (d : Semantic.Disk) :
  Semantic.within fs path e = false ->
  Semantic._load_or_create_vector_store fs path (e :: d)
  = Semantic._load_or_create_vector_store fs path d.
Proof.
  intros H.
  unfold Semantic._load_or_create_vector_store, Semantic.path_exists,
    Semantic.load_local.
  cbn [existsb find]. rewrite H. cbn [orb].
  destruct (Semantic.holds fs path e) eqn:Hh; [| reflexivity].
  apply holds_within in Hh. congruence.
Qed.

(** Saving under [path] changes nothing for a directory that is not the
    one of [path] and does not contain it. *)
Lemma load_saved_other (fs : Semantic.FileSystem) (path path' : string)
      (vs : Semantic.VectorStore) (d : Semantic.Disk) :
  Semantic.within fs path' (Semantic.realpath fs path, vs) = false ->
  Semantic._load_or_create_vector_store fs path' (saved fs path vs d)
  = Semantic._load_or_create_vector_store fs path' d.
Proof.
  intros H. unfold saved, Semantic.save_local.
  destruct (Semantic.write_error fs path); [reflexivity |]. cbn [snd].
  rewrite load_other_directory by assumption.
  apply load_filtered. intros e He Hw.
  destruct (Semantic.holds fs path e) eqn:Hh; [| reflexivity].
  unfold Semantic.holds in Hh. apply String.eqb_eq in Hh.
  rewrite (within_same_directory fs path' e (Semantic.realpath fs path, vs) Hh)
    in Hw.
  congruence.
Qed.


(** X16.  [add_conversation_snippet] on the semantic memory of a session.  A
    text that is blank after stripping changes nothing and asks for no
    embedding.  For any other text: when the embedding request raises,
    the exception comes out and nothing has changed; when it answers,
    one document with the text is appended to the vector store, with the
    given metadata, or with the session id alone when none or an empty
    one is given, and the store is written to the directory of the
    session.  When the write fails, the failure is swallowed: the call
    returns and the disk is as before.  When it does not fail, an
    instance constructed afterwards for the same session is the one in
    memory if the read does not fail, and has no vector store if it does;
    and an instance constructed afterwards for a session whose directory
    is another one and does not contain the directory written is as one
    constructed before. *)
Theorem add_conversation_snippet_persists :
  forall (settings : Settings) (fs : Semantic.FileSystem)
         (embed_documents : list string -> exc unit)
         (sid : string) (k : option Z) (text : string) (meta : option dict)
         (d : Semantic.Disk),
    let self := Semantic.__init__ settings fs sid k d in
    let path := Semantic.vector_store_path self in
    let run := Semantic.add_conversation_snippet fs embed_documents text meta
                 (d, self) in
    (strip text = EmptyString -> run = (Ok tt, (d, self)))
    /\ (strip text <> EmptyString ->
        (forall e, embed_documents [text] = Raise e ->
                   run = (Raise e, (d, self)))
        /\ (forall u,
               embed_documents [text] = Ok u ->
               exists d' self',
                 run = (Ok tt, (d', self'))
                 /\ Semantic.vector_store self'
                    = Some (with_document (Semantic.vector_store self)
                              {| Semantic.page_content := text;
                                 Semantic.metadata := snippet_meta self meta |})
                 /\ document_count self' = document_count self + 1
                 /\ (forall e, Semantic.write_error fs path = Some e -> d' = d)
                 /\ (Semantic.write_error fs path = None ->
                     (Semantic.read_error fs path = None ->
                      Semantic.__init__ settings fs sid k d' = self')
                     /\ (forall e,
                            Semantic.read_error fs path = Some e ->
                            Semantic.vector_store
                              (Semantic.__init__ settings fs sid k d') = None))
                 /\ (forall sid' k' vs,
                        Semantic.within fs
                          (Semantic.vector_store_path
                             (Semantic.__init__ settings fs sid' k' d))
                          (Semantic.realpath fs path, vs) = false ->
                        Semantic.__init__ settings fs sid' k' d'
                        = Semantic.__init__ settings fs sid' k' d))).
Proof.
  intros settings fs embed sid k text meta d self path run. unfold run.
  rewrite add_conversation_snippet_run. split.
  - intros ->. reflexivity.
  - intros Hne. rewrite (truthy_str_nonempty _ Hne). split.
    + intros e ->. reflexivity.
    + intros u ->. cbv zeta. eexists. eexists. split; [reflexivity |].
      assert (Hmeta :
        match meta with
        | Some m => if truthy_list m then m
                    else [("session_id", Semantic.session_id self)]
        | None => [("session_id", Semantic.session_id self)]
        end = snippet_meta self meta)
        by (destruct meta as [[| e0 m] |]; reflexivity).
      rewrite Hmeta. fold path.
      set (vs := with_document (Semantic.vector_store self) _).
      split; [reflexivity |]. split; [| split; [| split]].
      * unfold document_count, vs, with_document.
        cbn [Semantic.set_vector_store Semantic.vector_store].
        destruct (Semantic.vector_store self); [apply len_snoc | reflexivity].
      * intros e He. now apply (saved_failed fs path vs d e).
      * intros Hw. split.
        -- intros Hr. unfold Semantic.__init__ at 1.
           change (Semantic.path_join (vector_storage_path settings) ("session_" +++ sid))
             with path.
           rewrite load_saved by assumption. reflexivity.
        -- intros e Hr. unfold Semantic.__init__.
           cbn [Semantic.vector_store].
           unfold Semantic._load_or_create_vector_store, Semantic.load_local.
           change (Semantic.path_join (vector_storage_path settings) ("session_" +++ sid))
             with path.
           rewrite Hr. now destruct (Semantic.path_exists _ _ _).
      * intros sid' k' vs' Hw. unfold Semantic.__init__ at 1 2. f_equal.
        apply load_saved_other.
        rewrite (within_same_directory fs _ (Semantic.realpath fs path, vs)
                   (Semantic.realpath fs path, vs') eq_refl).
        exact Hw.
Qed.

(** A first snippet for ["s1"] on an empty disk; and the same where the
    disk cannot be written. *)
Lemma add_conversation_snippet_persists_witness :
  (exists d' self',
      Semantic.add_conversation_snippet demo_fs (fun _ => Ok tt) "user: hello"
        None ([], Semantic.__init__ demo_settings demo_fs "s1" None [])
      = (Ok tt, (d', self'))
      /\ document_count self' = 1
      /\ Semantic.__init__ demo_settings demo_fs "s1" None d' = self')
  /\ exists self',
       Semantic.add_conversation_snippet read_only_fs (fun _ => Ok tt)
         "user: hello" None
         ([], Semantic.__init__ demo_settings read_only_fs "s1" None [])
       = (Ok tt, ([], self'))
       /\ document_count self' = 1
       /\ document_count
            (Semantic.__init__ demo_settings read_only_fs "s1" None []) = 0.
Proof.
  split.
  - destruct (proj2 (proj2 (add_conversation_snippet_persists demo_settings
                              demo_fs (fun _ => Ok tt) "s1" None "user: hello"
                              None [])
                       ltac:(discriminate)) tt eq_refl)
      as [d' [self' [Hrun [_ [Hcount [_ [Hload _]]]]]]].
    exists d', self'. split; [exact Hrun |]. split; [exact Hcount |].
    exact (proj1 (Hload eq_refl) eq_refl).
  - destruct (proj2 (proj2 (add_conversation_snippet_persists demo_settings
                              read_only_fs (fun _ => Ok tt) "s1" None
                              "user: hello" None [])
                       ltac:(discriminate)) tt eq_refl)
      as [d' [self' [Hrun [_ [Hcount [Hfail _]]]]]].
    rewrite (Hfail (ExternalError "read-only file system") eq_refl) in Hrun.
    exists self'. split; [exact Hrun |]. split; [exact Hcount | reflexivity].
Defined.

Lemma meta_get_set (k v : string) (m : dict) :
  meta_get k (Semantic.meta_set k v m) = Some v.
Proof.
  unfold meta_get. induction m as [| e m IH]; simpl.
  - now rewrite String.eqb_refl.
  - destruct (String.eqb (fst e) k) eqn:E; simpl.
    + now rewrite String.eqb_refl.
    + now rewrite E.
Qed.

Lemma snippet_documents_kept (sid : string) (snippets : list Semantic.Snippet) :
  map Semantic.page_content
      (flat_map (Semantic.snippet_document sid) snippets)
  = flat_map (fun sn => match Semantic.text sn with
                        | Some t => [t]
                        | None => []
                        end)
             (filter (fun sn => negb (blank_snippet sn)) snippets).
Proof.
  induction snippets as [| sn l IH]; [reflexivity |].
  cbn [flat_map filter]. rewrite map_app, IH.
  unfold Semantic.snippet_document at 1, blank_snippet at 2.
  destruct sn as [[t |] m]; cbn [Semantic.text].
  - destruct (truthy_str (strip t)); reflexivity.
  - reflexivity.
Qed.

Lemma snippet_documents_tagged (sid : string) (snippets : list Semantic.Snippet) :
  Forall (fun doc => meta_get "session_id" (Semantic.metadata doc) = Some sid)
         (flat_map (Semantic.snippet_document sid) snippets).
Proof.
  induction snippets as [| sn l IH]; [constructor |].
  cbn [flat_map]. apply Forall_app. split; [| exact IH].
  unfold Semantic.snippet_document.
  destruct (truthy_str _); constructor; [| constructor].
  apply meta_get_set.
Qed.

Lemma snippet_documents_blank (sid : string) (snippets : list Semantic.Snippet) :
  forallb blank_snippet snippets = true
  <-> flat_map (Semantic.snippet_document sid) snippets = [].
Proof.
  induction snippets as [| sn l IH]; cbn [forallb flat_map]; [tauto |].
  rewrite andb_true_iff, IH.
  assert (Hd : blank_snippet sn = true <-> Semantic.snippet_document sid sn = []).
  { unfold Semantic.snippet_document, blank_snippet.
    destruct (truthy_str _); cbn [negb]; split; intros H;
      try reflexivity; discriminate. }
  rewrite Hd. split.
  - intros [-> ->]. reflexivity.
  - intros H. now apply app_eq_nil in H.
Qed.

Lemma add_multiple_snippets_run (fs : Semantic.FileSystem)
      (embed_documents : list string -> exc unit)
      (snippets : list Semantic.Snippet) (d : Semantic.Disk)
      (self : Semantic.SemanticMemory) :
  Semantic.add_multiple_snippets fs embed_documents snippets (d, self)
  = let documents :=
      flat_map (Semantic.snippet_document (Semantic.session_id self)) snippets in
    match documents with
    | [] => (Ok tt, (d, self))
    | _ =>
        match embed_documents (map Semantic.page_content documents) with
        | Raise e => (Raise e, (d, self))
        | Ok _ =>
            let vs := match Semantic.vector_store self with
                      | None => documents
                      | Some docs => docs ++ documents
                      end in
            (Ok tt, (saved fs (Semantic.vector_store_path self) vs d,
                     Semantic.set_vector_store self (Some vs)))
        end
    end.
Proof.
  unfold Semantic.add_multiple_snippets, bind at 1, get.
  destruct snippets as [| sn l]; [reflexivity |].
  cbn [truthy_list negb fst snd]. cbv zeta.
  destruct (flat_map _ (sn :: l)) as [| doc docs]; [reflexivity |].
  cbn [truthy_list negb]. unfold bind at 1, lift.
  destruct (embed_documents _); [| reflexivity].
  unfold bind at 1, put. rewrite save_vector_store_run.
  cbn [Semantic.set_vector_store Semantic.vector_store
       Semantic.vector_store_path].
  reflexivity.
Qed.

(** X17.  [add_multiple_snippets].  When every snippet is blank or without a
    text, nothing changes and no embedding is asked for.  Otherwise one
    embedding request is made for the texts of the other snippets, in
    order; when it raises, the exception comes out and nothing has
    changed; when it answers, one document for each of these snippets is
    appended to the vector store, in order, each with the text of its
    snippet and with the session id of the memory under [session_id] in
    its metadata, whatever the snippet gave there; and the store is
    written to the directory of the memory: a write that fails is
    swallowed and leaves the disk as it was, and after one that does not
    fail the store is what is loaded from the directory when the read
    does not fail. *)
Theorem add_multiple_snippets_adds_nonblank :
  forall (fs : Semantic.FileSystem)
         (embed_documents : list string -> exc unit)
         (snippets : list Semantic.Snippet) (d : Semantic.Disk)
         (self : Semantic.SemanticMemory),
    let documents :=
      flat_map (Semantic.snippet_document (Semantic.session_id self)) snippets in
    let texts := map Semantic.page_content documents in
    let path := Semantic.vector_store_path self in
    let run := Semantic.add_multiple_snippets fs embed_documents snippets
                 (d, self) in
    texts = flat_map (fun sn => match Semantic.text sn with
                                | Some t => [t]
                                | None => []
                                end)
              (filter (fun sn => negb (blank_snippet sn)) snippets)
    /\ Forall (fun doc =>
                 meta_get "session_id" (Semantic.metadata doc)
                 = Some (Semantic.session_id self)) documents
    /\ (forallb blank_snippet snippets = true -> run = (Ok tt, (d, self)))
    /\ (forallb blank_snippet snippets = false ->
        (forall e, embed_documents texts = Raise e -> run = (Raise e, (d, self)))
        /\ (forall u,
               embed_documents texts = Ok u ->
               let vs := match Semantic.vector_store self with
                         | None => documents
                         | Some docs => docs ++ documents
                         end in
               exists d',
                 run = (Ok tt, (d', Semantic.set_vector_store self (Some vs)))
                 /\ document_count (Semantic.set_vector_store self (Some vs))
                    = document_count self + len documents
                 /\ 0 < len documents <= len snippets
                 /\ (forall e, Semantic.write_error fs path = Some e -> d' = d)
                 /\ (Semantic.write_error fs path = None ->
                     Semantic.read_error fs path = None ->
                     Semantic._load_or_create_vector_store fs path d'
                     = Some vs))).
Proof.
  intros fs embed snippets d self documents texts path run.
  split; [apply snippet_documents_kept |].
  split; [apply snippet_documents_tagged |].
  assert (Hblank : forallb blank_snippet snippets = true <-> documents = [])
    by apply snippet_documents_blank.
  assert (Hlen : len documents <= len snippets).
  { unfold documents, len. clear. induction snippets as [| sn l IH]; [simpl; lia |].
    cbn [flat_map]. rewrite length_app. unfold Semantic.snippet_document at 1.
    destruct (truthy_str _); simpl; lia. }
  unfold run. rewrite add_multiple_snippets_run. fold documents. cbv zeta.
  split.
  - intros Hb. apply Hblank in Hb. now rewrite Hb.
  - intros Hb.
    assert (Hne : documents <> [])
      by (intros E; apply Hblank in E; congruence).
    assert (Hpos : 0 < len documents).
    { destruct documents; [congruence | unfold len; simpl; lia]. }
    split.
    + intros e He. unfold texts in He. rewrite He.
      destruct documents; [congruence | reflexivity].
    + intros u Hu. unfold texts in Hu. rewrite Hu. fold path.
      exists (saved fs path
                match Semantic.vector_store self with
                | Some docs => docs ++ documents
                | None => documents
                end d).
      split.
      { destruct documents; [congruence | reflexivity]. }
      split; [| split; [lia |]; split].
      * unfold document_count.
        cbn [Semantic.set_vector_store Semantic.vector_store].
        destruct (Semantic.vector_store self); [apply len_app | lia].
      * intros e He. now apply (saved_failed fs path _ d e).
      * intros Hw Hr. now apply load_saved.
Qed.

(** Two snippets, one of them blank; the other one names another
    session. *)
Lemma add_multiple_snippets_adds_nonblank_witness :
  exists d',
    Semantic.add_multiple_snippets demo_fs (fun _ => Ok tt)
      [ {| Semantic.text := Some "   ";
           Semantic.snippet_metadata := None |};
        {| Semantic.text := Some "user: hello";
           Semantic.snippet_metadata := Some [("session_id", "other")] |} ]
      ([], Semantic.__init__ demo_settings demo_fs "s1" None [])
    = (Ok tt,
       (d',
        Semantic.set_vector_store
          (Semantic.__init__ demo_settings demo_fs "s1" None [])
          (Some [ {| Semantic.page_content := "user: hello";
                     Semantic.metadata := [("session_id", "s1")] |} ])))
    /\ Semantic._load_or_create_vector_store demo_fs
         "storage/vectors/session_s1" d'
       = Some [ {| Semantic.page_content := "user: hello";
                   Semantic.metadata := [("session_id", "s1")] |} ].
Proof.
  destruct (add_multiple_snippets_adds_nonblank demo_fs (fun _ => Ok tt)
              [ {| Semantic.text := Some "   ";
                   Semantic.snippet_metadata := None |};
                {| Semantic.text := Some "user: hello";
                   Semantic.snippet_metadata :=
                     Some [("session_id", "other")] |} ]
              [] (Semantic.__init__ demo_settings demo_fs "s1" None []))
    as [_ [_ [_ Hadd]]].
  destruct (proj2 (Hadd eq_refl) tt eq_refl)
    as [d' [Hrun [_ [_ [_ Hload]]]]].
  exists d'. split; [exact Hrun | exact (Hload eq_refl eq_refl)].
Defined.



(** X19.  [retrieve_similar_context] does not raise and changes nothing.
    Without a vector store the result is empty; with one, the search is
    asked for [top_k] documents, or for the default of the instance when
    [top_k] is not given or is zero, and the result is the contents of
    the documents found, or empty when the search raises. *)
Theorem retrieve_similar_context_total :
  forall (similarity_search :
            Semantic.VectorStore -> string -> Z -> exc (list Semantic.Document))
         (query : string) (top_k : option Z) (st : Semantic.St),
    exists found,
      Semantic.retrieve_similar_context similarity_search query top_k st
      = (Ok found, st)
      /\ (Semantic.vector_store (snd st) = None -> found = [])
      /\ (forall vs,
             Semantic.vector_store (snd st) = Some vs ->
             let k := match top_k with
                      | Some n => if n =? 0 then Semantic.top_k (snd st) else n
                      | None => Semantic.top_k (snd st)
                      end in
             (forall docs, similarity_search vs query k = Ok docs ->
                           found = map Semantic.page_content docs)
             /\ (forall e, similarity_search vs query k = Raise e ->
                           found = [])).
Proof.
  intros search query top_k st.
  unfold Semantic.retrieve_similar_context, bind at 1, get.
  destruct (Semantic.vector_store (snd st)) as [vs |] eqn:Hvs.
  - assert (Hk : or_int top_k (Semantic.top_k (snd st))
                 = match top_k with
                   | Some n => if n =? 0 then Semantic.top_k (snd st) else n
                   | None => Semantic.top_k (snd st)
                   end).
    { destruct top_k as [n |]; [| reflexivity].
      unfold or_int, truthy_int. now destruct (n =? 0). }
    unfold try_except, bind, lift, ret. rewrite Hk.
    destruct (search vs query _) as [docs | e] eqn:Hs.
    + eexists. split; [reflexivity |]. split; [discriminate |].
      intros vs' Hvs'. inversion Hvs'; subst vs'. cbv zeta. rewrite Hs.
      split; [intros docs' H; now inversion H | intros e H; discriminate].
    + eexists. split; [reflexivity |]. split; [discriminate |].
      intros vs' Hvs'. inversion Hvs'; subst vs'. cbv zeta. rewrite Hs.
      split; [intros docs' H; discriminate | reflexivity].
  - exists []. split; [reflexivity |]. split; [reflexivity |].
    intros vs H. discriminate.
Qed.

(* ================================================================== *)
(** * Further properties of the query reformulator *)
(* ================================================================== *)

Lemma slice_last_five {A} (older window : list A) :
  len window = 5 ->
  slice_from (- 5) (older ++ window) = window
  /\ slice_from (- 5) window = window.
Proof.
  intros H. rewrite !(slice_from_neg 5) by lia. unfold lastn, len in *.
  rewrite length_app. split.
  - replace (List.length older + List.length window - Z.to_nat 5)%nat
      with (List.length older) by lia.
    rewrite skipn_app, skipn_all, Nat.sub_diag. reflexivity.
  - replace (List.length window - Z.to_nat 5)%nat with 0%nat by lia.
    reflexivity.
Qed.

(** X20.  The reformulator sees five messages.  When the recent messages end
    with the five messages [window], the prompt and the result of
    [reformulate_query] are those for [window] alone, whatever comes
    before.  With a context that is not empty, the result is the
    stripped answer of the model when that has ten characters or more,
    and the query as it is otherwise or when the model raises.
    [should_reformulate] holds exactly for two recent messages or more
    and a query of three words or more, and then the context is not
    empty. *)
Theorem reformulation_uses_last_five :
  forall (llm : ChatModel) (original_query : string)
         (older window : list Manager.ChatMessageResponse)
         (conversation_summary : option string),
    len window = 5 ->
    let recent_messages := older ++ window in
    let request :=
      [ SystemMessage Reformulator._build_system_prompt;
        HumanMessage (Reformulator._build_user_prompt original_query window
                        conversation_summary) ] in
    Reformulator._build_user_prompt original_query recent_messages
      conversation_summary
    = Reformulator._build_user_prompt original_query window conversation_summary
    /\ Reformulator.reformulate_query llm original_query recent_messages
         conversation_summary
       = Reformulator.reformulate_query llm original_query window
           conversation_summary
    /\ Reformulator.reformulate_query llm original_query recent_messages
         conversation_summary
       = Ok match llm request with
            | Ok response =>
                if str_len (strip response) <? 10 then original_query
                else strip response
            | Raise _ => original_query
            end
    /\ (Reformulator.should_reformulate original_query recent_messages = true
        <-> 3 <= len (split original_query)).
Proof.
  intros llm q older window summary Hw recent request.
  destruct (slice_last_five older window Hw) as [Hs1 Hs2].
  assert (Hne : forall l : list Manager.ChatMessageResponse,
                  2 <= len l -> truthy_list l = true).
  { intros [| x l] H; [unfold len in H; simpl in H; lia | reflexivity]. }
  assert (Hlen : 5 <= len recent)
    by (unfold recent; rewrite len_app; unfold len in *; lia).
  assert (Hprompt :
    Reformulator._build_user_prompt q recent summary
    = Reformulator._build_user_prompt q window summary).
  { unfold Reformulator._build_user_prompt.
    rewrite (Hne recent), (Hne window) by lia.
    unfold recent. now rewrite Hs1, Hs2. }
  assert (Hsame :
    Reformulator.reformulate_query llm q recent summary
    = Reformulator.reformulate_query llm q window summary).
  { unfold Reformulator.reformulate_query.
    rewrite (Hne recent), (Hne window), Hprompt by lia. reflexivity. }
  split; [exact Hprompt |]. split; [exact Hsame |]. split.
  - rewrite Hsame. unfold Reformulator.reformulate_query.
    rewrite (Hne window) by lia. cbn [negb andb]. fold request.
    unfold catch, and_then.
    destruct (llm request) as [response | e]; [| reflexivity].
    destruct (strip response) as [| c r] eqn:E; [reflexivity |].
    cbn [truthy_str negb orb].
    destruct (str_len (String c r) <? 10); reflexivity.
  - unfold Reformulator.should_reformulate.
    rewrite (Hne recent) by lia. cbn [negb orb].
    destruct (Z.ltb_spec (len recent) 2); [lia |].
    destruct (Z.ltb_spec (len (split q)) 3); split; intros; try lia;
      try reflexivity; discriminate.
Qed.

(** A sixth, older message does not reach the prompt. *)
Lemma reformulation_uses_last_five_witness :
  Reformulator._build_user_prompt "What page is that on?"
    ([demo_turn 1 "user" "What are the requirements?"] ++ demo_window) None
  = Reformulator._build_user_prompt "What page is that on?" demo_window None.
Proof.
  exact (proj1 (reformulation_uses_last_five terse_llm "What page is that on?"
                  [demo_turn 1 "user" "What are the requirements?"]
                  demo_window None eq_refl)).
Defined.

(* ================================================================== *)
(** * Further properties of the memory-manager cache *)
(* ================================================================== *)

Lemma dict_set_nonempty {V} (k : string) (v : V) (d : Service.pydict V) :
  Service.dict_set k v d <> [].
Proof.
  destruct d as [| e d]; simpl; [discriminate |].
  destruct (Service.has_key k e); discriminate.
Qed.

(** [_get_or_create_memory_manager], case by case: a hit, a constructor
    that raises, a new manager stored and the eviction step. *)
Lemma get_or_create_memory_manager_run (settings : Settings)
      (engine : Sql.Engine) (fs : Semantic.FileSystem)
      (session_id : string) (pdf_ids : list Z) (user_id : option string)
      (now : Z) (w : Service.World) :
  Service._get_or_create_memory_manager settings engine fs session_id pdf_ids
    user_id now w
  = let cache := Service._memory_manager_cache (Service.service w) in
    match Service.dict_get (Service.cache_key_of session_id pdf_ids) cache with
    | Some cached => (Ok cached, w)
    | None =>
        match Manager.__init__ settings engine fs session_id pdf_ids user_id
                now (Service.env w) with
        | (Raise e, env') => (Raise e, Service.set_env env' w)
        | (Ok mgr, env') =>
            let r := List.length (Service.heap w) in
            (Ok r,
             {| Service.env := env';
                Service.heap := Service.heap w ++ [mgr];
                Service.service :=
                  {| Service._memory_manager_cache :=
                       evicted (Service._max_cache_size (Service.service w))
                         (Service.dict_set session_id r cache);
                     Service._max_cache_size :=
                       Service._max_cache_size (Service.service w) |} |})
        end
    end.
Proof.
  destruct w as [env0 heap0 [cache0 max0]].
  unfold Service._get_or_create_memory_manager, bind at 1, get.
  cbn [Service.env Service.heap Service.service
       Service._memory_manager_cache Service._max_cache_size].
  destruct (Service.dict_get _ cache0); [reflexivity |].
  unfold bind at 1, zoom. cbn [Service.env].
  destruct (Manager.__init__ settings engine fs session_id pdf_ids user_id now
              env0)
    as [[m | e] env']; [| reflexivity].
  unfold bind, Service.alloc, lift, modify, get, ret, evicted.
  cbn [Service.env Service.heap Service.service Service.set_env
       Service.set_cache Service._memory_manager_cache
       Service._max_cache_size].
  unfold Service.ref in *.
  destruct (Service.dict_set session_id (List.length heap0) cache0)
    as [| e c1] eqn:E; [exfalso; exact (dict_set_nonempty _ _ _ E) |].
  cbn [Service.dict_first_key].
  destruct (len (e :: c1) >? max0); reflexivity.
Qed.

Lemma dict_set_keys {V} (k : string) (v : V) (d : Service.pydict V) :
  (In k (map fst d) /\ map fst (Service.dict_set k v d) = map fst d)
  \/ (~ In k (map fst d) /\ Service.dict_set k v d = d ++ [(k, v)]).
Proof.
  induction d as [| [k0 v0] d IH]; [right; split; [tauto | reflexivity] |].
  cbn [Service.dict_set]. unfold Service.has_key. cbn [fst map].
  destruct (String.eqb_spec k0 k) as [-> | Hne].
  - left. split; [now left | reflexivity].
  - destruct IH as [[Hin E] | [Hnot E]].
    + left. split; [now right |]. cbn [map fst]. now rewrite E.
    + right. split; [intros [H | H]; [congruence | tauto] |].
      now rewrite E.
Qed.

Lemma dict_set_entries {V} (k : string) (v : V) (d : Service.pydict V)
      (k' : string) (v' : V) :
  In (k', v') (Service.dict_set k v d) ->
  (k', v') = (k, v) \/ In (k', v') d.
Proof.
  induction d as [| e d IH]; cbn [Service.dict_set].
  - intros [H | []]. now left.
  - destruct (Service.has_key k e).
    + intros [H | H]; [now left | right; now right].
    + intros [H | H]; [right; now left |].
      destruct (IH H); [now left | right; now right].
Qed.

Lemma dict_del_first {V} (k : string) (v : V) (d : Service.pydict V) :
  ~ In k (map fst d) -> Service.dict_del k ((k, v) :: d) = d.
Proof.
  intros Hnot. unfold Service.dict_del. cbn [filter].
  unfold Service.has_key at 1. cbn [fst]. rewrite String.eqb_refl.
  cbn [negb]. now apply dict_del_absent.
Qed.

Lemma evicted_sound {V} (max : Z) (c : Service.pydict V) :
  0 <= max -> NoDup (map fst c) -> len c <= max + 1 ->
  NoDup (map fst (evicted max c))
  /\ len (evicted max c) <= max
  /\ (forall e, In e (evicted max c) -> In e c)
  /\ (len c <= max -> evicted max c = c)
  /\ (max < len c -> evicted max c = tl c).
Proof.
  intros Hmax Hnd Hlen. unfold evicted.
  destruct (Z.gtb_spec (len c) max) as [Hgt | Hle].
  - destruct c as [| [k0 v0] rest];
      [unfold len in Hgt; simpl in Hgt; lia |].
    cbn [map fst] in Hnd. inversion Hnd as [| ? ? Hnot Hnd']; subst.
    cbn [fst]. rewrite (dict_del_first k0 v0 rest Hnot).
    split; [assumption |].
    split; [unfold len in *; cbn [List.length] in *; lia |].
    split; [intros e He; now right |].
    split; [intros; lia | reflexivity].
  - split; [assumption |]. split; [lia |]. split; [auto |].
    split; [reflexivity | intros; lia].
Qed.

Lemma initialize_short_term_identity (settings : Settings)
      (engine : Sql.Engine) (st : Manager.St) :
  same_identity (snd st)
    (snd (snd (Manager._initialize_short_term_from_db settings engine st))).
Proof.
  destruct st as [[d disk lg] [sid pdfs uid stm sem pk]].
  unfold Manager._initialize_short_term_from_db, bind at 1, Manager.self_, gets.
  cbn [snd]. unfold bind at 1, Manager.on_db, zoom.
  cbn [fst snd Manager.db Manager.session_id].
  destruct (LongTerm.get_recent_messages engine sid _ d) as [[recent | e] d'];
    [| repeat split].
  destruct (truthy_list _); [| repeat split].
  unfold Manager.on_short_term, zoom. cbn [fst snd Manager.short_term].
  destruct (ShortTerm.load_messages_batch _ stm) as [r stm'].
  repeat split.
Qed.

Lemma manager_init_identity (settings : Settings) (engine : Sql.Engine)
      (fs : Semantic.FileSystem) (sid : string)
      (pdfs : list Z) (uid : option string) (now : Z)
      (env env' : Manager.Env) (mgr : Manager.UnifiedMemoryManager) :
  Manager.__init__ settings engine fs sid pdfs uid now env = (Ok mgr, env') ->
  Manager.session_id mgr = sid /\ Manager.pdf_ids mgr = pdfs
  /\ Manager.user_id mgr = uid.
Proof.
  unfold Manager.__init__.
  destruct (zoom Manager.db Manager.set_db _ env) as [[row | e] env1];
    [| discriminate].
  match goal with
  | |- context [Manager._initialize_short_term_from_db settings engine ?st] =>
      pose proof (initialize_short_term_identity settings engine st) as Hid;
      destruct (Manager._initialize_short_term_from_db settings engine st)
        as [[u | e] [env2 self']]
  end; [| discriminate].
  intros H. inversion H; subst. exact Hid.
Qed.

Lemma nodup_snoc {A} (l : list A) (x : A) :
  NoDup l -> ~ In x l -> NoDup (l ++ [x]).
Proof.
  induction 1 as [| y l Hy Hl IH]; simpl; intros Hx.
  - constructor; [auto | constructor].
  - constructor.
    + rewrite in_app_iff. simpl. intros [H | [H | []]]; [tauto |].
      apply Hx. now left.
    + apply IH. tauto.
Qed.

Lemma dict_get_snoc {V} (k : string) (v : V) (d : Service.pydict V) :
  ~ In k (map fst d) -> Service.dict_get k (d ++ [(k, v)]) = Some v.
Proof.
  unfold Service.dict_get. induction d as [| [k0 v0] d IH]; cbn [app find map fst].
  - intros _. unfold Service.has_key. cbn [fst]. now rewrite String.eqb_refl.
  - intros Hnot. unfold Service.has_key at 1. cbn [fst].
    destruct (String.eqb_spec k0 k) as [-> | _]; [exfalso; apply Hnot; now left |].
    apply IH. intros H. apply Hnot. now right.
Qed.

Lemma dict_get_set_same {V} (k : string) (v : V) (d : Service.pydict V) :
  Service.dict_get k (Service.dict_set k v d) = Some v.
Proof.
  unfold Service.dict_get. induction d as [| e d IH]; cbn [Service.dict_set].
  - cbn [find]. unfold Service.has_key. cbn [fst]. now rewrite String.eqb_refl.
  - destruct (Service.has_key k e) eqn:E; cbn [find].
    + unfold Service.has_key. cbn [fst]. now rewrite String.eqb_refl.
    + rewrite E. exact IH.
Qed.

Lemma dict_get_entry {V} (k : string) (v : V) (d : Service.pydict V) :
  Service.dict_get k d = Some v -> In (k, v) d.
Proof.
  unfold Service.dict_get. destruct (find _ d) as [[k0 v0] |] eqn:E;
    [| discriminate].
  intros H. inversion H; subst. apply find_some in E. destruct E as [Hin Hk].
  unfold Service.has_key in Hk. cbn [fst] in Hk.
  apply String.eqb_eq in Hk. now subst.
Qed.

(** X21.  The cache of managers stays in order.  On a service whose cache is in
    order, with a bound that is not negative, a call of
    [_get_or_create_memory_manager] leaves the cache in order, whatever
    its outcome: the keys are distinct, there are no more entries than
    the bound, and every entry names a manager of the session that is its
    key.  The heap only grows.  When the constructor of the manager
    raises, the cache and the heap are as before.  A call that misses
    returns a new manager, of the session and the documents asked for,
    and with a bound of one or more it is cached under the session id.
    A call that hits changes nothing, and the manager it returns belongs
    to a session whose id is the cache key, which is never the session id
    asked for. *)
Theorem cache_invariant_kept :
  forall (settings : Settings) (engine : Sql.Engine)
         (fs : Semantic.FileSystem) (session_id : string) (pdf_ids : list Z)
         (user_id : option string) (now : Z) (w w' : Service.World)
         (res : exc Service.ref),
    cache_ok w ->
    0 <= Service._max_cache_size (Service.service w) ->
    Service._get_or_create_memory_manager settings engine fs session_id
      pdf_ids user_id now w = (res, w') ->
    let cache := Service._memory_manager_cache (Service.service w) in
    let cache' := Service._memory_manager_cache (Service.service w') in
    let key := Service.cache_key_of session_id pdf_ids in
    cache_ok w'
    /\ Service._max_cache_size (Service.service w')
       = Service._max_cache_size (Service.service w)
    /\ (exists new, Service.heap w' = Service.heap w ++ new)
    /\ (forall e, res = Raise e ->
                  cache' = cache /\ Service.heap w' = Service.heap w)
    /\ (forall r,
           res = Ok r -> Service.dict_get key cache = None ->
           exists m,
             Service.heap w' = Service.heap w ++ [m]
             /\ nth_error (Service.heap w') r = Some m
             /\ Manager.session_id m = session_id
             /\ Manager.pdf_ids m = pdf_ids
             /\ (1 <= Service._max_cache_size (Service.service w) ->
                 Service.dict_get session_id cache' = Some r))
    /\ (forall cached,
           Service.dict_get key cache = Some cached ->
           res = Ok cached /\ w' = w
           /\ exists m, nth_error (Service.heap w) cached = Some m
                        /\ Manager.session_id m = key
                        /\ Manager.session_id m <> session_id).
Proof.
  intros settings engine fs sid pdfs uid now w w' res [Hnd [Hlen Hcoh]] Hmax
         Hrun cache cache' key.
  rewrite get_or_create_memory_manager_run in Hrun. cbv zeta in Hrun.
  fold cache key in Hrun.
  destruct (Service.dict_get key cache) as [cached |] eqn:Hget.
  - inversion Hrun; subst res w'. clear Hrun.
    split; [repeat split; assumption |]. split; [reflexivity |].
    split; [exists []; now rewrite app_nil_r |].
    split; [intros e H; discriminate |].
    split; [intros r _ H; discriminate |].
    intros c Hc. inversion Hc; subst c.
    split; [reflexivity |]. split; [reflexivity |].
    destruct (Hcoh key cached (dict_get_entry _ _ _ Hget)) as [m [Hm Hk]].
    exists m. split; [assumption |]. split; [assumption |].
    rewrite Hk. apply cache_key_is_not_session_id.
  - destruct (Manager.__init__ settings engine fs sid pdfs uid now
                (Service.env w))
      as [[mgr | e] env'] eqn:Hinit.
    + destruct (manager_init_identity _ _ _ _ _ _ _ _ _ _ Hinit)
        as [Isid [Ipdf _]].
      set (r := List.length (Service.heap w)) in *.
      set (max := Service._max_cache_size (Service.service w)) in *.
      set (c1 := Service.dict_set sid r cache) in *.
      assert (Hlen0 : @len (string * nat) cache <= max) by exact Hlen.
      assert (Hnd0 : NoDup (map fst cache)) by exact Hnd.
      unfold Service.ref in *.
      assert (Hc1 : NoDup (map fst c1) /\ len c1 <= max + 1).
      { destruct (dict_set_keys sid r cache) as [[_ E] | [Hnot E]]; fold c1 in E.
        - rewrite E. split; [assumption |].
          assert (L : len c1 = len cache).
          { unfold len. f_equal. rewrite <- (length_map fst c1), E.
            apply length_map. }
          lia.
        - rewrite E, map_app. split; [now apply nodup_snoc |].
          rewrite len_snoc. lia. }
      destruct Hc1 as [Hnd1 Hlen1].
      destruct (evicted_sound max c1 Hmax Hnd1 Hlen1)
        as [Hnd2 [Hlen2 [Hsub [Hkeep Hdrop]]]].
      assert (Hnew : nth_error (Service.heap w ++ [mgr]) r = Some mgr).
      { unfold r. rewrite nth_error_app2 by lia.
        now rewrite Nat.sub_diag. }
      inversion Hrun; subst res w'. clear Hrun.
      unfold cache'.
      cbn [Service.service Service.heap Service._memory_manager_cache
           Service._max_cache_size].
      split.
      { split; [exact Hnd2 |]. split; [exact Hlen2 |].
        cbn [Service.service Service.heap Service._memory_manager_cache].
        intros k r' Hin. apply Hsub in Hin.
        destruct (dict_set_entries _ _ _ _ _ Hin) as [E | Hold].
        - inversion E; subst k r'. exists mgr. split; assumption.
        - destruct (Hcoh k r' Hold) as [m [Hm Hk]]. exists m.
          split; [| assumption].
          rewrite nth_error_app1; [assumption |].
          apply nth_error_Some. congruence. }
      split; [reflexivity |].
      split; [now exists [mgr] |].
      split; [intros e H; discriminate |].
      split; [| intros c H; discriminate].
      intros r0 Hr _. inversion Hr; subst r0. exists mgr.
      split; [reflexivity |]. split; [exact Hnew |].
      split; [assumption |]. split; [assumption |].
      intros Hone.
      destruct (Z.le_gt_cases (len c1) max) as [Hfit | Hover].
      * rewrite (Hkeep Hfit). apply dict_get_set_same.
      * rewrite (Hdrop ltac:(lia)).
        destruct (dict_set_keys sid r cache) as [[_ E] | [Hnot E]]; fold c1 in E.
        -- assert (L : len c1 = len cache).
           { unfold len. f_equal. rewrite <- (length_map fst c1), E.
             apply length_map. }
           lia.
        -- rewrite E. destruct cache as [| e0 rest] eqn:Ec.
           ++ rewrite E in Hover. unfold len in Hover. simpl in Hover. lia.
           ++ cbn [app tl]. apply dict_get_snoc.
              intros H. apply Hnot. now right.
    + inversion Hrun; subst res w'. clear Hrun.
      unfold cache'. destruct w as [env0 heap0 [cache0 max0]].
      cbn [Service.set_env Service.service Service.heap
           Service._memory_manager_cache Service._max_cache_size] in *.
      split; [repeat split; assumption |]. split; [reflexivity |].
      split; [exists []; now rewrite app_nil_r |].
      split; [intros; split; reflexivity |].
      split; [intros r H; discriminate | intros c H; discriminate].
Qed.

Lemma fresh_world_cache_ok : cache_ok fresh_world.
Proof.
  split; [constructor |]. split; [vm_compute; discriminate |].
  intros k r [].
Qed.

(** The first call on a new service. *)
Lemma cache_invariant_kept_witness :
  cache_ok
    (snd (Service._get_or_create_memory_manager default_settings
            Sql.table_order demo_fs "s1" [1] None 100 fresh_world))
  /\ Service._max_cache_size
       (Service.service
          (snd (Service._get_or_create_memory_manager default_settings
                  Sql.table_order demo_fs "s1" [1] None 100 fresh_world)))
     = 50.
Proof.
  destruct (cache_invariant_kept default_settings Sql.table_order demo_fs
              "s1" [1] None 100
              fresh_world _ _ fresh_world_cache_ok
              ltac:(vm_compute; discriminate)
              (surjective_pairing
                 (Service._get_or_create_memory_manager default_settings
                    Sql.table_order demo_fs "s1" [1] None 100 fresh_world)))
    as [Hok [Hmax _]].
  split; [exact Hok | exact Hmax].
Defined.

(** A manager for ["s2"] takes the place of the manager of ["s1"]. *)
Lemma cache_evicts_oldest_witness :
  Service._memory_manager_cache
    (Service.service
       (snd (Service._get_or_create_memory_manager demo_settings
               Sql.table_order demo_fs "s2" [1] None 300 full_world)))
  = [("s2", 1%nat)].
Proof.
  assert (Hrun :
    Service._get_or_create_memory_manager demo_settings Sql.table_order
      demo_fs "s2" [1] None 300 full_world
    = (Ok 1%nat,
       snd (Service._get_or_create_memory_manager demo_settings
              Sql.table_order demo_fs "s2" [1] None 300 full_world))).
  { rewrite (surjective_pairing
               (Service._get_or_create_memory_manager demo_settings
                  Sql.table_order demo_fs "s2" [1] None 300 full_world)) at 1.
    f_equal; vm_compute; reflexivity. }
  exact (proj1 (cache_evicts_oldest demo_settings Sql.table_order demo_fs
                  "s2" [1] None 300
                  full_world _ 1%nat "s1" 0%nat [] eq_refl
                  ltac:(repeat constructor; intros [])
                  ltac:(intros [H | []]; discriminate H)
                  eq_refl eq_refl Hrun)).
Defined.

(* ================================================================== *)
(** * The limit of the buffer window *)
(* ================================================================== *)

Lemma length_format_chat (l : list BaseMessage) :
  Forall is_chat l ->
  List.length (flat_map ShortTerm.format_message l) = List.length l.
Proof.
  induction 1 as [| m l Hm Hl IH]; [reflexivity |].
  destruct m; try contradiction; simpl; now rewrite IH.
Qed.

Lemma forall_skipn {A} (P : A -> Prop) (n : nat) (l : list A) :
  Forall P l -> Forall P (skipn n l).
Proof.
  intros H. rewrite <- (firstn_skipn n l) in H.
  now apply Forall_app in H.
Qed.

(** X23.  The limit of the buffer's [get_recent_messages].  The call returns
    and leaves the buffer as it is.  A positive limit [n] gives the
    entries of the last [n] messages, all of them when there are fewer:
    for a buffer of user and assistant messages, [min n (len buffer)]
    entries.  A negative limit [n] does not count from the end: it drops
    the first [-n] messages and gives the entries of the others. *)
Theorem buffer_recent_limit :
  forall (self : ShortTerm.ShortTermMemory) (n : Z),
    n <> 0 ->
    let messages := ShortTerm._messages self in
    exists recent,
      ShortTerm.get_recent_messages (Some n) self = (Ok recent, self)
      /\ (0 < n ->
          recent = flat_map ShortTerm.format_message
                     (lastn (Z.to_nat n) messages)
          /\ (Forall is_chat messages ->
              len recent = Z.min n (len messages)))
      /\ (n < 0 ->
          recent = flat_map ShortTerm.format_message
                     (skipn (Z.to_nat (- n)) messages)
          /\ (Forall is_chat messages ->
              len recent = Z.max 0 (len messages + n))).
Proof.
  intros self n Hn messages. eexists.
  split; [apply buffer_get_recent_messages_run |].
  unfold truthy_int. rewrite (proj2 (Z.eqb_neq n 0) Hn). cbn [negb].
  fold messages. split.
  - intros Hpos. rewrite slice_from_neg by assumption.
    split; [reflexivity |]. intros Hchat. unfold len.
    rewrite length_format_chat by (apply forall_skipn; exact Hchat).
    rewrite length_lastn. lia.
  - intros Hneg. unfold slice_from.
    destruct (Z.ltb_spec (- n) 0); [lia |].
    split; [reflexivity |]. intros Hchat. unfold len.
    rewrite length_format_chat by (apply forall_skipn; exact Hchat).
    rewrite length_skipn. lia.
Qed.

(** The last two of four messages, and what a limit of [-1] gives. *)
Lemma buffer_recent_limit_witness :
  ShortTerm.get_recent_messages (Some 2) demo_full_buffer
  = (Ok [ {| ShortTerm.role := "user"; ShortTerm.content := "third" |};
          {| ShortTerm.role := "assistant"; ShortTerm.content := "fourth" |} ],
     demo_full_buffer)
  /\ ShortTerm.get_recent_messages (Some (- 1)) demo_full_buffer
     = (Ok [ {| ShortTerm.role := "assistant"; ShortTerm.content := "second" |};
             {| ShortTerm.role := "user"; ShortTerm.content := "third" |};
             {| ShortTerm.role := "assistant"; ShortTerm.content := "fourth" |} ],
        demo_full_buffer).
Proof.
  destruct (buffer_recent_limit demo_full_buffer 2 ltac:(discriminate))
    as [r2 [H2 [P2 _]]].
  destruct (buffer_recent_limit demo_full_buffer (- 1) ltac:(discriminate))
    as [r1 [H1 [_ N1]]].
  destruct (P2 ltac:(reflexivity)) as [E2 _].
  destruct (N1 ltac:(reflexivity)) as [E1 _].
  rewrite H2, H1, E2, E1. split; reflexivity.
Defined.

(* ================================================================== *)
(** * The context string *)
(* ================================================================== *)

Lemma get_memory_context_run (settings : Settings) (engine : Sql.Engine)
      (similarity_search :
         Semantic.VectorStore -> string -> Z -> exc (list Semantic.Document))
      (query : option string) (env : Manager.Env)
      (mgr : Manager.UnifiedMemoryManager) (s : ChatSession.t) :
  0 <= memory_buffer_messages settings ->
  find (fun r => ChatSession.id r =? Manager.session mgr)
       (chat_sessions (pending (Manager.db env))) = Some s ->
  Manager.get_memory_context settings engine similarity_search query
    (env, mgr)
  = (Ok {| Manager.ctx_session_id := Manager.session_id mgr;
           Manager.recent_messages :=
             recent_rows engine (Manager.session_id mgr)
               (memory_buffer_messages settings) (Manager.db env);
           Manager.conversation_summary := ChatSession.summary s;
           Manager.semantic_context :=
             if truthy_opt_str query
             then similar_context similarity_search (Manager.semantic mgr)
                    (match query with Some q => q | None => EmptyString end)
             else [];
           Manager.ctx_total_messages := ChatSession.total_messages s;
           Manager.ctx_pdf_ids := Manager.pdf_ids mgr |},
     (env, mgr)).
Proof.
  intros HN Hpk.
  pose proof (env_eta env) as [Edb Edisk].
  pose proof (manager_eta mgr) as [Esem _].
  unfold Manager.get_memory_context, bind at 1, Manager.self_, gets.
  cbn [snd]. unfold bind at 1, Manager.on_db at 1, zoom at 1.
  cbn [fst snd]. rewrite get_recent_messages_rows by assumption.
  rewrite Edb. unfold bind at 1, Manager.on_db at 1, zoom at 1, Sql.deref.
  cbn [fst snd]. rewrite Hpk, Edb.
  unfold Manager.model_validate. rewrite map_id.
  destruct (truthy_opt_str query); [| reflexivity].
  unfold bind at 1, Manager.on_semantic, zoom. cbn [fst snd].
  rewrite retrieve_similar_context_run. cbn [fst snd].
  now rewrite Edisk, Esem.
Qed.

Lemma join_head (sep : string) (c : ascii) (p : string) (rest : list string) :
  join sep (String c p :: rest) <> EmptyString.
Proof. destruct rest; simpl; discriminate. Qed.

(** X24.  [get_formatted_context_string] only reads, and it gives the empty
    string exactly when there is nothing to show: with a buffer size that
    is not negative, on a manager whose session object is a row of the
    store, the call returns and leaves every tier as it is, and its
    result is empty if and only if the session row has no summary or an
    empty one, the context of [get_memory_context] has no semantic
    snippet and it has no recent message. *)
Theorem formatted_context_empty_iff :
  forall (settings : Settings) (engine : Sql.Engine)
         (similarity_search :
            Semantic.VectorStore -> string -> Z -> exc (list Semantic.Document))
         (query : option string) (st : Manager.St) (s : ChatSession.t),
    0 <= memory_buffer_messages settings ->
    Sql.deref (Manager.session (snd st)) (Manager.db (fst st))
    = (Ok s, Manager.db (fst st)) ->
    exists text ctx,
      Manager.get_formatted_context_string settings engine similarity_search
        query st
      = (Ok text, st)
      /\ Manager.get_memory_context settings engine similarity_search query st
         = (Ok ctx, st)
      /\ (text = EmptyString
          <-> truthy_opt_str (ChatSession.summary s) = false
              /\ Manager.semantic_context ctx = []
              /\ Manager.recent_messages ctx = []).
Proof.
  intros settings engine search query [env mgr] s HN Hderef.
  cbn [fst snd] in *. apply deref_found in Hderef.
  unfold Manager.get_formatted_context_string, bind.
  rewrite (get_memory_context_run settings engine search query env mgr s HN
             Hderef).
  unfold ret. eexists. eexists. split; [reflexivity |].
  split; [reflexivity |].
  cbn [Manager.conversation_summary Manager.semantic_context
       Manager.recent_messages].
  set (recent := recent_rows _ _ _ _).
  set (found := if truthy_opt_str query then _ else _).
  destruct (ChatSession.summary s) as [[| c t] |]; cbn [truthy_opt_str truthy_str].
  - destruct found as [| f fs]; cbn [truthy_list app].
    + destruct recent as [| m ms]; cbn [truthy_list app].
      * split; [auto | reflexivity].
      * split; [intros H; now apply join_head in H | intros [_ [_ H]]; discriminate].
    + split; [intros H; now apply join_head in H | intros [_ [H _]]; discriminate].
  - split; [intros H; now apply join_head in H | intros [H _]; discriminate].
  - destruct found as [| f fs]; cbn [truthy_list app].
    + destruct recent as [| m ms]; cbn [truthy_list app].
      * split; [auto | reflexivity].
      * split; [intros H; now apply join_head in H | intros [_ [_ H]]; discriminate].
    + split; [intros H; now apply join_head in H | intros [_ [H _]]; discriminate].
Qed.

(** The context string of ["s1"] is not empty. *)
Lemma formatted_context_empty_iff_witness :
  exists text,
    Manager.get_formatted_context_string demo_settings Sql.table_order
      failing_search None
      (demo_env, demo_manager) = (Ok text, (demo_env, demo_manager))
    /\ text <> EmptyString.
Proof.
  destruct (formatted_context_empty_iff demo_settings Sql.table_order
              failing_search None
              (demo_env, demo_manager) (demo_row 4 140)
              ltac:(vm_compute; intros H; discriminate H)
              ltac:(vm_compute; reflexivity))
    as [text [ctx [Hrun [Hctx Hiff]]]].
  exists text. split; [exact Hrun |].
  intros Hempty. apply Hiff in Hempty. destruct Hempty as [_ [_ Hrecent]].
  apply (f_equal (fun r => match fst r with
                           | Ok c => List.length (Manager.recent_messages c)
                           | Raise _ => 0%nat
                           end)) in Hctx.
  cbn [fst] in Hctx. rewrite Hrecent in Hctx. vm_compute in Hctx.
  discriminate Hctx.
Defined.

(* ================================================================== *)
(** * The prompt of the assistant *)
(* ================================================================== *)

Lemma slice_last_three {A} (older window : list A) :
  len window = 3 ->
  slice_from (- 3) (older ++ window) = window
  /\ slice_from (- 3) window = window.
Proof.
  intros H. rewrite !(slice_from_neg 3) by lia. unfold lastn, len in *.
  rewrite length_app. split.
  - replace (List.length older + List.length window - Z.to_nat 3)%nat
      with (List.length older) by lia.
    rewrite skipn_app, skipn_all, Nat.sub_diag. reflexivity.
  - replace (List.length window - Z.to_nat 3)%nat with 0%nat by lia.
    reflexivity.
Qed.

(** X25.  The prompt of the assistant shows three messages.  When the recent
    messages of the memory context end with the three messages
    [window], the prompt is the one for [window] alone.  With a memory
    context that has no summary, no snippet and no message, the prompt
    consists of the document context and the question. *)
Theorem assistant_prompt_uses_last_three :
  forall (user_query document_context : string)
         (ctx : Manager.MemoryContext)
         (older window : list Manager.ChatMessageResponse),
    len window = 3 ->
    Service._build_user_prompt user_query document_context
      (with_recent ctx (older ++ window))
    = Service._build_user_prompt user_query document_context
        (with_recent ctx window)
    /\ (truthy_opt_str (Manager.conversation_summary ctx) = false ->
        Manager.semantic_context ctx = [] ->
        Service._build_user_prompt user_query document_context
          (with_recent ctx [])
        = join nl [ "=== Document Context ==="; document_context; EmptyString;
                    "=== User Question ==="; user_query; EmptyString;
                    "Your Answer:" ]).
Proof.
  intros q doc ctx older window Hw.
  destruct (slice_last_three older window Hw) as [Hs1 Hs2].
  split.
  - unfold Service._build_user_prompt.
    cbn [with_recent Manager.recent_messages Manager.conversation_summary
         Manager.semantic_context].
    rewrite Hs1, Hs2.
    assert (Hne : forall l : list Manager.ChatMessageResponse,
                    1 <= len l -> truthy_list l = true).
    { intros [| x l] H; [unfold len in H; simpl in H; lia | reflexivity]. }
    rewrite (Hne (older ++ window)), (Hne window); [reflexivity | lia |].
    rewrite len_app. unfold len in *. lia.
  - intros Hsum Hsem. unfold Service._build_user_prompt.
    cbn [with_recent Manager.recent_messages Manager.conversation_summary
         Manager.semantic_context truthy_list].
    rewrite Hsem. cbn [truthy_list app].
    destruct (Manager.conversation_summary ctx) as [t |]; [| reflexivity].
    cbn [truthy_opt_str] in Hsum. now rewrite Hsum.
Qed.

(** Two older messages do not reach the prompt. *)
Lemma assistant_prompt_uses_last_three_witness :
  Service._build_user_prompt "Are they mandatory?" "No relevant context."
    (with_recent demo_context (firstn 2 demo_window ++ skipn 2 demo_window))
  = Service._build_user_prompt "Are they mandatory?" "No relevant context."
      (with_recent demo_context (skipn 2 demo_window)).
Proof.
  exact (proj1 (assistant_prompt_uses_last_three "Are they mandatory?"
                  "No relevant context." demo_context
                  (firstn 2 demo_window) (skipn 2 demo_window) eq_refl)).
Defined.
